(** * mcp-video: the metadata and frame-extraction pipeline

A shallow embedding of the TypeScript sources
  - [src/utils/file-handler.ts]   (formatters, directory helpers)
  - [src/utils/validators.ts]     (path resolution, parameter validation)
  - [src/processors/ffmpeg-processor.ts] (probe parsing, decoder arguments)
  - [src/tools/extract-frames.ts] (the [extract_frames] tool)
followed by the properties the specification states about them.

Conventions of the embedding.
  - A JavaScript [number] is [NaN], an infinity, or a finite value kept as
    an exact rational: arithmetic is exact, the rounding of IEEE doubles
    and the sign of zero are not represented.
  - Template strings that interpolate numbers are kept as lists of
    pieces, so that [n.toString()] stays symbolic.
  - The file system is a finite map from paths to nodes; everything the
    code does to the outside world is threaded through a [World] and
    recorded in its event log.
  - The two external executables and the process environment are fields
    of a [Host] record. *)

From Stdlib Require Import ZArith QArith Qround Qpower Lqa Lia Bool List Ascii.
From Stdlib Require Import String SpecFloat.
From Stdlib Require Import DecimalString DecimalPos Sorted Permutation.
From stdpp Require Import base option list strings gmap fin_maps.

Local Open Scope Z_scope.

(* ===================================================================== *)
(** ** JavaScript numbers *)
(* ===================================================================== *)

Module JS.

Inductive number : Type :=
| NaN
| PInf
| NInf
| Num (q : Q).

Definition of_Z (z : Z) : number := Num (inject_Z z).
Definition of_nat (n : nat) : number := of_Z (Z.of_nat n).

Definition isNaN (x : number) : bool :=
  match x with NaN => true | _ => false end.

(** [x < y]; every comparison with [NaN] is false. *)
Definition ltb (x y : number) : bool :=
  match x, y with
  | NaN, _ | _, NaN => false
  | PInf, _ => false
  | _, NInf => false
  | NInf, _ => true
  | _, PInf => true
  | Num a, Num b => negb (Qle_bool b a)
  end.

(** [x <= y]. *)
Definition leb (x y : number) : bool :=
  match x, y with
  | NaN, _ | _, NaN => false
  | NInf, _ => true
  | _, PInf => true
  | PInf, _ => false
  | _, NInf => false
  | Num a, Num b => Qle_bool a b
  end.

Definition gtb (x y : number) : bool := ltb y x.
Definition geb (x y : number) : bool := leb y x.

(** [x === y] on numbers. *)
Definition eqb (x y : number) : bool :=
  match x, y with
  | PInf, PInf | NInf, NInf => true
  | Num a, Num b => Qeq_bool a b
  | _, _ => false
  end.

(** ToBoolean: [NaN] and zero are falsy. *)
Definition truthy (x : number) : bool :=
  match x with
  | NaN => false
  | Num q => negb (Qeq_bool q 0)
  | _ => true
  end.

(** [x || d] on numbers. *)
Definition or_else (x d : number) : number := if truthy x then x else d.

Definition neg (x : number) : number :=
  match x with
  | NaN => NaN | PInf => NInf | NInf => PInf | Num q => Num (- q)
  end.

Definition add (x y : number) : number :=
  match x, y with
  | NaN, _ | _, NaN => NaN
  | PInf, NInf | NInf, PInf => NaN
  | PInf, _ | _, PInf => PInf
  | NInf, _ | _, NInf => NInf
  | Num a, Num b => Num (a + b)
  end.

Definition sub (x y : number) : number := add x (neg y).

(** Sign of a finite value: [-1], [0] or [1]. *)
Definition Qsgn (q : Q) : Z := Z.sgn (Qnum q).

Definition inf_of_sign (s : Z) : number :=
  match s with Z0 => NaN | Zpos _ => PInf | Zneg _ => NInf end.

Definition sgn (x : number) : Z :=
  match x with
  | NaN => 0 | PInf => 1 | NInf => -1 | Num q => Qsgn q
  end.

Definition mul (x y : number) : number :=
  match x, y with
  | NaN, _ | _, NaN => NaN
  | Num a, Num b => Num (a * b)
  | _, _ => inf_of_sign (sgn x * sgn y)
  end.

Definition div (x y : number) : number :=
  match x, y with
  | NaN, _ | _, NaN => NaN
  | Num a, Num b =>
      if Qeq_bool b 0 then inf_of_sign (Qsgn a) else Num (a / b)
  | Num _, _ => Num 0
  | _, Num b => inf_of_sign (sgn x * (if Qeq_bool b 0 then 1 else Qsgn b))
  | _, _ => NaN
  end.

(** [Math.floor]. *)
Definition floor (x : number) : number :=
  match x with Num q => of_Z (Qfloor q) | _ => x end.

(** [Math.round]: the nearest integer, ties towards plus infinity. *)
Definition round (x : number) : number :=
  match x with Num q => of_Z (Qfloor (q + (1 # 2))) | _ => x end.

(** [x % y] for finite operands: the remainder has the sign of [x]. *)
Definition Qtrunc (q : Q) : Z := Z.quot (Qnum q) (Zpos (Qden q)).

Definition rem (x y : number) : number :=
  match x, y with
  | NaN, _ | _, NaN => NaN
  | PInf, _ | NInf, _ => NaN
  | Num a, PInf | Num a, NInf => Num a
  | Num a, Num b =>
      if Qeq_bool b 0 then NaN
      else Num (a - b * inject_Z (Qtrunc (a / b)))
  end.

End JS.

Abbreviation number := JS.number.
Abbreviation NaN := JS.NaN.
Abbreviation PInf := JS.PInf.
Abbreviation NInf := JS.NInf.
Abbreviation Num := JS.Num.

(** Pieces of a template string: literal text and interpolated numbers. *)
Inductive piece : Type :=
| Lit (s : string)
| Interp (n : number).

Definition text : Type := list piece.

(* ===================================================================== *)
(** ** Strings *)
(* ===================================================================== *)

Module Str.

Local Open Scope string_scope.

(** [s.startsWith(p)] *)
Definition startsWith (s p : string) : bool := String.prefix p s.

(** [s.endsWith(suffix)] *)
Definition endsWith (s suffix : string) : bool :=
  let n := String.length s in
  let m := String.length suffix in
  if (m <=? n)%nat then String.eqb (String.substring (n - m) m s) suffix
  else false.

(** [s.includes(needle)] *)
Fixpoint includes (s needle : string) : bool :=
  String.prefix needle s
  || match s with
     | EmptyString => false
     | String _ rest => includes rest needle
     end.

(** [s.slice(1)] *)
Definition slice1 (s : string) : string :=
  match s with EmptyString => EmptyString | String _ rest => rest end.

Definition lower_ascii (c : ascii) : ascii :=
  let n := N_of_ascii c in
  if ((65 <=? n) && (n <=? 90))%N then ascii_of_N (n + 32) else c.

(** [s.toLowerCase()] on ASCII text. *)
Fixpoint toLowerCase (s : string) : string :=
  match s with
  | EmptyString => EmptyString
  | String c rest => String (lower_ascii c) (toLowerCase rest)
  end.

(** [s.split(sep)] for a one-character separator. *)
Fixpoint split (sep : ascii) (s : string) : list string :=
  match s with
  | EmptyString => [EmptyString]
  | String c rest =>
      let r := split sep rest in
      if Ascii.eqb c sep then EmptyString :: r
      else match r with
           | h :: tl => String c h :: tl
           | [] => [String c EmptyString]
           end
  end.

(** [parts.join(sep)] *)
Fixpoint join (sep : string) (parts : list string) : string :=
  match parts with
  | [] => EmptyString
  | [p] => p
  | p :: ps => p ++ sep ++ join sep ps
  end.

(** Decimal rendering of an integer, as [toString] prints it. *)
Definition of_Z (z : Z) : string := NilZero.string_of_int (Z.to_int z).

Fixpoint repeat0 (n : nat) : string :=
  match n with O => EmptyString | S k => String "0" (repeat0 k) end.

(** [s.padStart(width, '0')] *)
Definition padStart0 (width : nat) (s : string) : string :=
  repeat0 (width - String.length s) ++ s.

(** The default comparison of [Array.prototype.sort] on strings. *)
Definition leb (a b : string) : bool :=
  match String.compare a b with Gt => false | _ => true end.

Fixpoint insert_sorted (x : string) (l : list string) : list string :=
  match l with
  | [] => [x]
  | y :: tl => if leb x y then x :: l else y :: insert_sorted x tl
  end.

(** [arr.sort()] on an array of strings. *)
Definition sort (l : list string) : list string :=
  fold_right insert_sorted [] l.

End Str.

(* ===================================================================== *)
(** ** Node's [path] module, POSIX flavour *)
(* ===================================================================== *)

Module Path.

Local Open Scope string_scope.

Definition isAbsolute (p : string) : bool := Str.startsWith p "/".

(** [normalizeString]: the segment stack is kept innermost first. *)
Fixpoint normalizeSegments (allowAboveRoot : bool)
         (segs : list string) (acc : list string) : list string :=
  match segs with
  | [] => rev acc
  | seg :: rest =>
      if String.eqb seg "" || String.eqb seg "." then
        normalizeSegments allowAboveRoot rest acc
      else if String.eqb seg ".." then
        match acc with
        | top :: below =>
            if String.eqb top ".." then
              normalizeSegments allowAboveRoot rest
                (if allowAboveRoot then ".." :: acc else acc)
            else normalizeSegments allowAboveRoot rest below
        | [] =>
            normalizeSegments allowAboveRoot rest
              (if allowAboveRoot then [".."] else [])
        end
      else normalizeSegments allowAboveRoot rest (seg :: acc)
  end.

Definition normalizeString (p : string) (allowAboveRoot : bool) : string :=
  Str.join "/" (normalizeSegments allowAboveRoot (Str.split "/" p) []).

(** [path.normalize] *)
Definition normalize (p : string) : string :=
  if String.eqb p "" then "."
  else
    let abs := isAbsolute p in
    let trailing := Str.endsWith p "/" in
    let body := normalizeString p (negb abs) in
    if String.eqb body "" then
      if abs then "/" else if trailing then "./" else "."
    else
      let body := if trailing then body ++ "/" else body in
      if abs then "/" ++ body else body.

(** [path.join(a, b)] *)
Definition join (a b : string) : string :=
  if String.eqb a "" then (if String.eqb b "" then "." else normalize b)
  else if String.eqb b "" then normalize a
  else normalize (a ++ "/" ++ b).

(** [path.resolve(p)] in a process whose working directory is [cwd]. *)
Definition resolve (cwd p : string) : string :=
  let full :=
    if isAbsolute p then p
    else if String.eqb p "" then cwd
    else cwd ++ "/" ++ p in
  if isAbsolute full then "/" ++ normalizeString full false
  else
    let body := normalizeString full true in
    if String.eqb body "" then "." else body.

(** The last non-empty segment: what [basename] and [extname] look at. *)
Definition lastPart (p : string) : string :=
  match filter (fun s => negb (String.eqb s "")) (rev (Str.split "/" p)) with
  | s :: _ => s
  | [] => ""
  end.

(** [path.basename(p)] *)
Definition basename (p : string) : string := lastPart p.

(** Cut a string at its last dot: the text before it, and the dot with
    what follows. *)
Fixpoint splitLastDot (s : string) : option (string * string) :=
  match s with
  | EmptyString => None
  | String c rest =>
      match splitLastDot rest with
      | Some (b, e) => Some (String c b, e)
      | None => if Ascii.eqb c "." then Some ("", s) else None
      end
  end.

(** [path.extname(p)] *)
Definition extname (p : string) : string :=
  let part := lastPart p in
  match splitLastDot part with
  | None => ""
  | Some (before, ext) =>
      if String.eqb before "" then ""
      else if String.eqb part ".." then ""
      else ext
  end.

End Path.

(* ===================================================================== *)
(** ** [src/utils/file-handler.ts]: formatters *)
(* ===================================================================== *)

(** [1024^e <= a / b] for positive [a] and [b]. *)
Definition pow1024_le (e a b : Z) : bool :=
  if 0 <=? e then 1024 ^ e * b <=? a else b <=? a * 1024 ^ (- e).

(** [Math.floor(Math.log(q) / Math.log(1024))] for a positive [q], computed
    exactly: the one or two candidates left by the bit lengths of the
    numerator and the denominator are told apart by a comparison.  (On
    doubles the quotient of the two logarithms is itself rounded, which can
    move the result by one for values within a few units in the last place
    of a power of 1024.) *)
Definition ilog1024 (q : Q) : Z :=
  let a := Qnum q in
  let b := Zpos (Qden q) in
  let c := (Z.log2 a - Z.log2 b - 1) / 10 in
  if pow1024_le (c + 1) a b then c + 1 else c.

(** The fraction digits of [toFixed], without the trailing zeros that the
    round trip through [parseFloat] drops. *)
Fixpoint stripZeros (digits : nat) (frac : Z) : string :=
  match digits with
  | O => ""
  | S d =>
      if frac mod 10 =? 0 then stripZeros d (frac / 10)
      else Str.padStart0 digits (Str.of_Z frac)
  end.

(** [parseFloat(x.toFixed(dm)).toString()] where [n] is [x] scaled by
    [10^dm] and rounded, for [n >= 0]. *)
Definition showFixed (dm : Z) (n : Z) : string :=
  let scale := 10 ^ dm in
  let frac := stripZeros (Z.to_nat dm) (n mod scale) in
  if String.eqb frac "" then Str.of_Z (n / scale)
  else Str.of_Z (n / scale) +:+ "." +:+ frac.

Definition sizes : list string := ["Bytes"; "KB"; "MB"; "GB"; "TB"].

(** [sizes[i]] inside a string concatenation. *)
Definition sizeName (i : Z) : string :=
  if i <? 0 then "undefined"
  else match sizes !! Z.to_nat i with
       | Some u => u
       | None => "undefined"
       end.

(** [formatBytes(bytes, decimals)] *)
Definition formatBytes' (bytes : number) (decimals : Z) : string :=
  if JS.eqb bytes (JS.of_Z 0) then "0 Bytes"
  else
    let dm := if decimals <? 0 then 0 else decimals in
    match bytes with
    | Num q =>
        if Qle_bool q 0 then "NaN undefined"
        else
          let i := ilog1024 q in
          let n := Qfloor (q / Qpower 1024 i * inject_Z (10 ^ dm) + (1 # 2)) in
          showFixed dm n +:+ " " +:+ sizeName i
    | _ => "NaN undefined"
    end.

(** [formatBytes(bytes)] with the default [decimals = 2]. *)
Definition formatBytes (bytes : number) : string := formatBytes' bytes 2.

(** [n.toString()] for the results of [Math.floor]: all the digits of the
    integer, which is what the source prints for the integers a double
    holds exactly (below [2^53]); beyond them it prints the shortest
    digits that give the double back. *)
Definition floorToString (x : number) : string :=
  match x with
  | NaN => "NaN"
  | PInf => "Infinity"
  | NInf => "-Infinity"
  | Num q => Str.of_Z (Qfloor q)
  end.

(** [formatDuration(seconds)], with exact quotients and remainders; see
    [floorToString] for the range on which the digits are those of the
    source. *)
Definition formatDuration (seconds : number) : string :=
  let hours := JS.floor (JS.div seconds (JS.of_Z 3600)) in
  let minutes :=
    JS.floor (JS.div (JS.rem seconds (JS.of_Z 3600)) (JS.of_Z 60)) in
  let secs := JS.floor (JS.rem seconds (JS.of_Z 60)) in
  let pad x := Str.padStart0 2 (floorToString x) in
  if JS.gtb hours (JS.of_Z 0) then
    pad hours +:+ ":" +:+ pad minutes +:+ ":" +:+ pad secs
  else pad minutes +:+ ":" +:+ pad secs.

(** [getFilename(filePath)] *)
Definition getFilename (filePath : string) : string := Path.basename filePath.

(* ===================================================================== *)
(** ** The global functions [parseInt] and [parseFloat], [Buffer] *)
(* ===================================================================== *)

Module Global.

Definition isSpace (c : ascii) : bool :=
  let n := N_of_ascii c in ((n =? 32) || ((9 <=? n) && (n <=? 13)))%N.

Fixpoint trimStart (s : string) : string :=
  match s with
  | String c rest => if isSpace c then trimStart rest else s
  | EmptyString => s
  end.

Definition digitValue (c : ascii) : option Z :=
  let n := N_of_ascii c in
  if ((48 <=? n) && (n <=? 57))%N then Some (Z.of_N n - 48) else None.

Definition hexValue (c : ascii) : option Z :=
  let n := N_of_ascii c in
  if ((48 <=? n) && (n <=? 57))%N then Some (Z.of_N n - 48)
  else if ((97 <=? n) && (n <=? 102))%N then Some (Z.of_N n - 87)
  else if ((65 <=? n) && (n <=? 70))%N then Some (Z.of_N n - 55)
  else None.

(** Read the longest run of digits: its value in the given radix, how
    many digits it has, and what follows it. *)
Fixpoint readDigits (value : ascii -> option Z) (radix : Z)
         (acc : Z) (count : nat) (s : string) : Z * nat * string :=
  match s with
  | String c rest =>
      match value c with
      | Some d => readDigits value radix (acc * radix + d) (S count) rest
      | None => (acc, count, s)
      end
  | EmptyString => (acc, count, s)
  end.

(** A leading sign: [true] for minus. *)
Definition readSign (s : string) : bool * string :=
  match s with
  | String "-" rest => (true, rest)
  | String "+" rest => (false, rest)
  | _ => (false, s)
  end.

Definition signed (minus : bool) (x : number) : number :=
  if minus then JS.neg x else x.

(** [parseInt(s)] without a radix argument. *)
Definition parseInt (s : string) : number :=
  let '(minus, body) := readSign (trimStart s) in
  let '(value, radix, digits) :=
    match body with
    | String "0" (String "x" rest) | String "0" (String "X" rest) =>
        (hexValue, 16, rest)
    | _ => (digitValue, 10, body)
    end in
  let '(n, count, _) := readDigits value radix 0 0 digits in
  match count with
  | O => NaN
  | _ => signed minus (JS.of_Z n)
  end.

(** The exponent part of a decimal literal, when it is complete. *)
Definition readExponent (s : string) : Z :=
  match s with
  | String "e" rest | String "E" rest =>
      let '(minus, body) := readSign rest in
      let '(n, count, _) := readDigits digitValue 10 0 0 body in
      match count with
      | O => 0
      | _ => if minus then - n else n
      end
  | _ => 0
  end.

(** [parseFloat(s)]: the longest prefix that is a decimal literal.  The
    value is the exact decimal, not its nearest double. *)
Definition parseFloat (s : string) : number :=
  let '(minus, body) := readSign (trimStart s) in
  if Str.startsWith body "Infinity" then signed minus PInf
  else
    let '(ip, ni, afterInt) := readDigits digitValue 10 0 0 body in
    let '(mant, nf, afterFrac) :=
      match afterInt with
      | String "." rest => readDigits digitValue 10 ip 0 rest
      | _ => (ip, O, afterInt)
      end in
    match (ni + nf)%nat with
    | O => NaN
    | _ =>
        let e := readExponent afterFrac - Z.of_nat nf in
        signed minus (Num (inject_Z mant * Qpower 10 e))
    end.

(** [parseFloat(undefined)] is [NaN], like [parseInt(undefined)]. *)
Definition parseFloat' (s : option string) : number :=
  match s with Some s => parseFloat s | None => NaN end.

Definition parseInt' (s : option string) : number :=
  match s with Some s => parseInt s | None => NaN end.

Definition base64Alphabet : string :=
  "ABCDEFGHIJKLMNOPQRSTUVWXYZabcdefghijklmnopqrstuvwxyz0123456789+/".

Definition base64Char (n : N) : ascii :=
  match String.get (N.to_nat n) base64Alphabet with
  | Some c => c
  | None => "="%char
  end.

(** [buffer.toString('base64')] *)
Fixpoint base64 (bytes : list N) : string :=
  match bytes with
  | [] => EmptyString
  | [a] =>
      String (base64Char (a / 4))
        (String (base64Char (a mod 4 * 16)) "==")
  | [a; b] =>
      String (base64Char (a / 4))
        (String (base64Char (a mod 4 * 16 + b / 16))
           (String (base64Char (b mod 16 * 4)) "="))
  | a :: b :: c :: rest =>
      String (base64Char (a / 4))
        (String (base64Char (a mod 4 * 16 + b / 16))
           (String (base64Char (b mod 16 * 4 + c / 64))
              (String (base64Char (c mod 64)) (base64 rest))))
  end%N.

Definition bytesOf (s : string) : list N :=
  map N_of_ascii (list_ascii_of_string s).

End Global.

(* ===================================================================== *)
(** ** [src/types/index.ts] *)
(* ===================================================================== *)

Inductive ErrorCode : Type :=
| FILE_NOT_FOUND
| INVALID_PATH
| UNSUPPORTED_FORMAT
| FFMPEG_NOT_FOUND
| FFMPEG_ERROR
| TRANSCRIPTION_ERROR
| TIMEOUT
| UNKNOWN_ERROR.

(** The shapes given to [VideoError.details] in the modelled code. *)
Inductive ErrorDetails : Type :=
| RangeDetails (value min max : number)
| ExtensionDetails (extension : string)
| OriginalError (originalError : string).

Module VideoError.
Record t : Type := mk {
  code : ErrorCode;
  message : text;
  details : option ErrorDetails;
  suggestion : option text
}.
End VideoError.

Definition SUPPORTED_VIDEO_FORMATS : list string :=
  [".mp4"; ".webm"; ".mov"; ".avi"; ".mkv"; ".m4v";
   ".flv"; ".wmv"; ".gif"; ".mpeg"; ".mpg"; ".3gp"].

Inductive CodecType : Type := video | audio | subtitle | data.

(** The fields of a probe stream that the pipeline reads. *)
Module FFprobeStream.
Record t : Type := mk {
  index : number;
  codec_name : option string;
  codec_type : CodecType;
  width : option number;
  height : option number;
  r_frame_rate : option string
}.
End FFprobeStream.

(** The container-level fields; a field absent from the probe document is
    [None]. *)
Module FFprobeFormat.
Record t : Type := mk {
  filename : string;
  format_name : string;
  duration : option string;
  size : option string;
  bit_rate : option string;
  creation_time : option string
}.
End FFprobeFormat.

Module FFprobeResult.
Record t : Type := mk {
  streams : list FFprobeStream.t;
  format : FFprobeFormat.t
}.
End FFprobeResult.

Module VideoMetadata.
Record t : Type := mk {
  filename : string;
  filepath : string;
  duration : string;
  duration_seconds : number;
  resolution : text;
  width : number;
  height : number;
  fps : number;
  codec : string;
  audio_codec : option string;
  file_size : string;
  file_size_bytes : number;
  has_audio : bool;
  bitrate : string;
  creation_time : option string
}.
End VideoMetadata.

Module ExtractedFrame.
Record t : Type := mk {
  index : nat;
  timestamp : string;
  timestamp_seconds : number;
  image : string;
  mime_type : string
}.
End ExtractedFrame.

(* ===================================================================== *)
(** ** The host: environment, executables, file system *)
(* ===================================================================== *)

Inductive node : Type :=
| File (content : string)
| Dir (entries : list string).

(** How a spawned process ends: a [close] event with its exit code ([None]
    when it was killed by a signal) and what it printed, or an [error]
    event when it could not be started. *)
Inductive spawned : Type :=
| Closed (code : option Z) (stdout stderr : string)
| SpawnError (message : string).

Record Host : Type := {
  VIDEO_BASE_DIR : option string;
  HOME : option string;
  USERPROFILE : option string;
  cwd : string;
  tmpdir : string;
  (** the random suffix [mkdtempSync] picks at its n-th call *)
  mkdtempSuffix : nat -> string;
  (** [config.ffmpegPath] and [config.ffprobePath] *)
  ffmpegPath : option string;
  ffprobePath : option string;
  (** running the prober, which only reads the file system *)
  prober : string -> list text -> gmap string node -> spawned;
  (** running the decoder: how it ends, and the files it wrote, as paths
      with their contents *)
  decoder : string -> list text -> gmap string node
            -> spawned * list (string * string);
  (** [JSON.parse(stdout) as FFprobeResult], or the text of the syntax
      error *)
  JSON_parse : string -> string + FFprobeResult.t
}.

Inductive event : Type :=
| EvProbe (command : string) (argv : list text)
| EvDecode (command : string) (argv : list text)
| EvMkdtemp (dir : string)
| EvMkdir (dir : string)
| EvRm (dir : string).

Record World : Type := {
  fs : gmap string node;
  tmpCount : nat;
  log : list event
}.

(** Computations that read and change the world and may throw an [Error]
    with a message. *)
Inductive outcome (A : Type) : Type :=
| Ok (a : A)
| Throw (message : string).
Arguments Ok {A} a.
Arguments Throw {A} message.

Definition M (A : Type) : Type := World -> outcome A * World.

Definition ret {A} (a : A) : M A := fun w => (Ok a, w).

Definition bind {A B} (c : M A) (k : A -> M B) : M B :=
  fun w =>
    match c w with
    | (Ok a, w') => k a w'
    | (Throw e, w') => (Throw e, w')
    end.

Definition throw {A} (message : string) : M A := fun w => (Throw message, w).

(** [try { body } catch (error) { handler }] *)
Definition tryCatch {A} (body : M A) (handler : string -> M A) : M A :=
  fun w =>
    match body w with
    | (Ok a, w') => (Ok a, w')
    | (Throw e, w') => handler e w'
    end.

Definition gets {A} (f : World -> A) : M A := fun w => (Ok (f w), w).

Definition emit (e : event) : M unit :=
  fun w => (Ok tt, {| fs := fs w; tmpCount := tmpCount w; log := log w ++ [e] |}).

Definition setFs (f : gmap string node -> gmap string node) : M unit :=
  fun w => (Ok tt, {| fs := f (fs w); tmpCount := tmpCount w; log := log w |}).

Notation "'do' x <- c ; k" := (bind c (fun x => k))
  (at level 10, x name, c at level 100, k at level 200).
Notation "'exec' c ; k" := (bind c (fun _ => k))
  (at level 10, c at level 100, k at level 200).

Module Fs.
Section WithHost.
Context (h : Host).

(** The absolute path a file-system call operates on. *)
Definition canon (p : string) : string := Path.resolve (cwd h) p.

Definition parentOf (p : string) : string := Path.resolve "/" (p +:+ "/..").

Definition addEntry (name : string) (n : node) : node :=
  match n with
  | Dir l => if bool_decide (name ∈ l) then n else Dir (l ++ [name])
  | File _ => n
  end.

Definition removeEntry (name : string) (n : node) : node :=
  match n with
  | Dir l => Dir (filter (fun x => x ≠ name) l)
  | File _ => n
  end.

(** Put a node at a canonical path and list it in its parent. *)
Definition link (p : string) (n : node) (m : gmap string node)
  : gmap string node :=
  <[p := n]> (alter (addEntry (Path.basename p)) (parentOf p) m).

Definition under (p k : string) : bool :=
  String.eqb k p || String.prefix (p +:+ "/") k.

(** Remove a canonical path with everything below it. *)
Definition unlink (p : string) (m : gmap string node) : gmap string node :=
  filter (fun kv => under p kv.1 = false)
    (alter (removeEntry (Path.basename p)) (parentOf p) m).

(** What a path names; the empty path names nothing. *)
Definition lookupPath (m : gmap string node) (p : string) : option node :=
  if String.eqb p "" then None else m !! canon p.

(** [fs.existsSync] *)
Definition existsSync (m : gmap string node) (p : string) : bool :=
  match lookupPath m p with Some _ => true | None => false end.

(** [fs.statSync(p).isFile()], which throws when nothing is there. *)
Definition statSync_isFile (m : gmap string node) (p : string)
  : outcome bool :=
  match lookupPath m p with
  | Some (File _) => Ok true
  | Some (Dir _) => Ok false
  | None =>
      Throw ("ENOENT: no such file or directory, stat '" +:+ p +:+ "'")
  end.

(** [fs.readdirSync] on a given file system *)
Definition readdir (m : gmap string node) (p : string)
  : outcome (list string) :=
  match lookupPath m p with
  | Some (Dir l) => Ok l
  | Some (File _) =>
      Throw ("ENOTDIR: not a directory, scandir '" +:+ p +:+ "'")
  | None =>
      Throw ("ENOENT: no such file or directory, scandir '" +:+ p +:+ "'")
  end.

(** [fs.readFileSync] on a given file system *)
Definition readFile (m : gmap string node) (p : string) : outcome string :=
  match lookupPath m p with
  | Some (File c) => Ok c
  | Some (Dir _) => Throw "EISDIR: illegal operation on a directory, read"
  | None =>
      Throw ("ENOENT: no such file or directory, open '" +:+ p +:+ "'")
  end.

Definition readdirSync (p : string) : M (list string) :=
  fun w => (readdir (fs w) p, w).

Definition readFileSync (p : string) : M string :=
  fun w => (readFile (fs w) p, w).

(** Create the directories along a list of segments, below [cur]. *)
Fixpoint mkdirs (cur : string) (segs : list string) (m : gmap string node)
  : gmap string node :=
  match segs with
  | [] => m
  | seg :: rest =>
      let p := if String.eqb cur "/" then "/" +:+ seg
               else cur +:+ "/" +:+ seg in
      let m' := match m !! p with
                | Some _ => m
                | None => link p (Dir []) m
                end in
      mkdirs p rest m'
  end.

(** [fs.mkdirSync(p, { recursive: true })] *)
Definition mkdirSync (p : string) : M unit :=
  exec emit (EvMkdir p);
  setFs (mkdirs "/"
           (filter (fun s => s ≠ EmptyString) (Str.split "/" (canon p)))).

(** [fs.rmSync(p, { recursive: true, force: true })] *)
Definition rmSync (p : string) : M unit :=
  exec emit (EvRm p); setFs (unlink (canon p)).

(** [fs.mkdtempSync(prefix)] *)
Definition mkdtempSync (prefix : string) : M string :=
  fun w =>
    let dir := prefix +:+ mkdtempSuffix h (tmpCount w) in
    (Ok dir,
     {| fs := link (canon dir) (Dir []) (fs w);
        tmpCount := S (tmpCount w);
        log := log w ++ [EvMkdtemp dir] |}).

(** Apply the files a process wrote. *)
Definition writeAll (files : list (string * string))
           (m : gmap string node) : gmap string node :=
  fold_left (fun acc f => link (canon f.1) (File f.2) acc) files m.

(** Run the prober to its end. *)
Definition probe (command : string) (argv : list text) : M spawned :=
  fun w =>
    (Ok (prober h command argv (fs w)),
     {| fs := fs w; tmpCount := tmpCount w;
        log := log w ++ [EvProbe command argv] |}).

(** Run the decoder to its end. *)
Definition decode (command : string) (argv : list text) : M spawned :=
  fun w =>
    let r := decoder h command argv (fs w) in
    (Ok r.1,
     {| fs := writeAll r.2 (fs w); tmpCount := tmpCount w;
        log := log w ++ [EvDecode command argv] |}).

End WithHost.
End Fs.

(* ===================================================================== *)
(** ** [src/utils/file-handler.ts]: directories and files *)
(* ===================================================================== *)

Module FileHandler.
Section WithHost.
Context (h : Host).

(** [createTempDir()] with the default prefix *)
Definition createTempDir : M string :=
  Fs.mkdtempSync h (Path.join (tmpdir h) "mcp-video-").

(** [cleanupTempDir(tempDir)] *)
Definition cleanupTempDir (tempDir : string) : M unit :=
  do present <- gets (fun w => Fs.existsSync h (fs w) tempDir);
  if present then Fs.rmSync h tempDir else ret tt.

(** [readFileAsBase64(filePath)] *)
Definition readFileAsBase64 (filePath : string) : M string :=
  do buffer <- Fs.readFileSync h filePath;
  ret (Global.base64 (Global.bytesOf buffer)).

(** [listFilesWithExtension(dirPath, extension)] *)
Definition listFilesWithExtension (dirPath extension : string)
  : M (list string) :=
  do files <- Fs.readdirSync h dirPath;
  ret (Str.sort
         (map (fun file => Path.join dirPath file)
            (filter (fun file => Str.endsWith file extension = true) files))).

(** [ensureDir(dirPath)] *)
Definition ensureDir (dirPath : string) : M unit :=
  do present <- gets (fun w => Fs.existsSync h (fs w) dirPath);
  if present then ret tt else Fs.mkdirSync h dirPath.

(** The loop of [clearVideoDirectory] over the items of the directory. *)
Fixpoint removeItems (baseDir : string) (items : list string) : M unit :=
  match items with
  | [] => ret tt
  | item :: rest =>
      let itemPath := Path.join baseDir item in
      exec Fs.rmSync h itemPath;
      removeItems baseDir rest
  end.

(** [clearVideoDirectory(baseDir)] *)
Definition clearVideoDirectory (baseDir : string) : M unit :=
  do present <- gets (fun w => Fs.existsSync h (fs w) baseDir);
  if negb present then ret tt
  else
    do items <- Fs.readdirSync h baseDir;
    removeItems baseDir items.

(** [getFramesDir(videoFolder)] *)
Definition getFramesDir (videoFolder : string) : M string :=
  let framesDir := Path.join videoFolder "frames" in
  exec ensureDir framesDir;
  ret framesDir.

End WithHost.
End FileHandler.

(* ===================================================================== *)
(** ** [src/utils/validators.ts] *)
(* ===================================================================== *)

(** The options of [extract_frames]: the tool's input, and the argument of
    [validateExtractFramesOptions], which does not look at [output_dir]. *)
Module ExtractFramesInput.
Record t : Type := mk {
  path : string;
  interval : option number;
  max_frames : option number;
  quality : option number;
  width : option number;
  start_time : option number;
  end_time : option number;
  output_dir : option string
}.
End ExtractFramesInput.

(** A string-valued expression used as a condition: [undefined] and the
    empty string are falsy. *)
Definition truthyStr (s : option string) : bool :=
  match s with
  | Some s => negb (String.eqb s "")
  | None => false
  end.

Module Validators.
Section WithHost.
Context (h : Host) (m : gmap string node).

Definition getVideoBaseDir : option string := VIDEO_BASE_DIR h.

(** [fileExists(filePath)]: the [catch] turns a failing [statSync] into
    [false]. *)
Definition fileExists (filePath : string) : bool :=
  if Fs.existsSync h m filePath then
    match Fs.statSync_isFile h m filePath with
    | Ok b => b
    | Throw _ => false
    end
  else false.

(** The loop over [SUPPORTED_VIDEO_FORMATS] in [findWithExtensions]. *)
Fixpoint probeFormats (basePath : string) (formats : list string)
  : option string :=
  match formats with
  | [] => None
  | format :: rest =>
      let pathWithExt := basePath +:+ format in
      if fileExists pathWithExt then Some pathWithExt
      else probeFormats basePath rest
  end.

Definition findWithExtensions (basePath : string) : option string :=
  if fileExists basePath then Some basePath
  else
    let ext := Str.toLowerCase (Path.extname basePath) in
    if String.eqb ext "" then probeFormats basePath SUPPORTED_VIDEO_FORMATS
    else None.

(** [process.env.HOME || process.env.USERPROFILE || ''] *)
Definition homeDir : string :=
  if truthyStr (HOME h) then default "" (HOME h)
  else if truthyStr (USERPROFILE h) then default "" (USERPROFILE h)
  else "".

(** [resolveVideoPath(inputPath)]; [None] is [null]. *)
Definition resolveVideoPath (inputPath : string) : option string :=
  let baseDir := getVideoBaseDir in
  if Path.isAbsolute inputPath then findWithExtensions inputPath
  else if Str.startsWith inputPath "~" then
    findWithExtensions (Path.join homeDir (Str.slice1 inputPath))
  else if truthyStr baseDir then
    findWithExtensions (Path.join (default "" baseDir) inputPath)
  else findWithExtensions (Path.resolve (cwd h) inputPath).

(** [isSupportedFormat(filePath)] *)
Definition isSupportedFormat (filePath : string) : bool :=
  let ext := Str.toLowerCase (Path.extname filePath) in
  existsb (String.eqb ext) SUPPORTED_VIDEO_FORMATS.

(** [getFileExtension(filePath)] *)
Definition getFileExtension (filePath : string) : string :=
  Str.toLowerCase (Path.extname filePath).

(** [listAvailableVideos()] *)
Definition listAvailableVideos : list string :=
  let baseDir := getVideoBaseDir in
  if negb (truthyStr baseDir)
     || negb (Fs.existsSync h m (default "" baseDir)) then []
  else
    match Fs.readdir h m (default "" baseDir) with
    | Ok files => filter (fun file => isSupportedFormat file = true) files
    | Throw _ => []
    end.

(** [validateVideoPath(filePath)]; [None] is [null]. *)
Definition validateVideoPath (filePath : string) : option VideoError.t :=
  if String.eqb filePath "" then
    Some (VideoError.mk INVALID_PATH
            [Lit "Video path is required"]
            None
            (Some [Lit "Provide a valid file path to a video file"]))
  else
    match resolveVideoPath filePath with
    | None =>
        let baseDir := getVideoBaseDir in
        let availableVideos := listAvailableVideos in
        let suggestion :=
          if truthyStr baseDir then
            [Lit "Video not found in "; Lit (default "" baseDir); Lit "."]
            ++ (if (0 <? length availableVideos)%nat then
                  [Lit " Available videos: ";
                   Lit (Str.join ", " availableVideos)]
                else [Lit " No videos found in this directory."])
          else
            [Lit "Check that the file path is correct and the file exists."]
        in
        Some (VideoError.mk FILE_NOT_FOUND
                [Lit "Video not found: "; Lit filePath]
                None
                (Some suggestion))
    | Some resolvedPath =>
        if negb (isSupportedFormat resolvedPath) then
          let ext := getFileExtension resolvedPath in
          Some (VideoError.mk UNSUPPORTED_FORMAT
                  [Lit "Unsupported video format: "; Lit ext]
                  (Some (ExtensionDetails ext))
                  (Some [Lit "Supported formats: ";
                         Lit (Str.join ", " SUPPORTED_VIDEO_FORMATS)]))
        else None
    end.

End WithHost.

(** [validateRange(value, min, max, fieldName)] *)
Definition validateRange (value min max : number) (fieldName : string)
  : option VideoError.t :=
  if JS.isNaN value then
    Some (VideoError.mk INVALID_PATH
            [Lit fieldName; Lit " must be a number"]
            None
            (Some [Lit "Provide a number between "; Interp min;
                   Lit " and "; Interp max]))
  else if JS.ltb value min || JS.gtb value max then
    Some (VideoError.mk INVALID_PATH
            [Lit fieldName; Lit " must be between "; Interp min;
             Lit " and "; Interp max]
            (Some (RangeDetails value min max))
            (Some [Lit "Adjust "; Lit fieldName;
                   Lit " to be within the valid range"]))
  else None.

(** A check guarded by [if (options.field !== undefined)]. *)
Definition whenDefined (field : option number)
           (check : number -> option VideoError.t) : option VideoError.t :=
  match field with
  | Some value => check value
  | None => None
  end.

Definition startTimeError : VideoError.t :=
  VideoError.mk INVALID_PATH
    [Lit "start_time cannot be negative"]
    None
    (Some [Lit "Provide a non-negative start time in seconds"]).

Definition timeRangeError : VideoError.t :=
  VideoError.mk INVALID_PATH
    [Lit "end_time must be greater than start_time"]
    None
    (Some [Lit "Ensure end_time is after start_time"]).

(** [validateExtractFramesOptions(options)]; [None] is [null]. *)
Definition validateExtractFramesOptions (h : Host) (m : gmap string node)
           (options : ExtractFramesInput.t) : option VideoError.t :=
  match validateVideoPath h m (ExtractFramesInput.path options) with
  | Some pathError => Some pathError
  | None =>
  match whenDefined (ExtractFramesInput.interval options)
          (fun v => validateRange v (Num (1 # 10)) (JS.of_Z 60) "interval") with
  | Some intervalError => Some intervalError
  | None =>
  match whenDefined (ExtractFramesInput.max_frames options)
          (fun v => validateRange v (JS.of_Z 1) (JS.of_Z 500) "max_frames") with
  | Some maxFramesError => Some maxFramesError
  | None =>
  match whenDefined (ExtractFramesInput.quality options)
          (fun v => validateRange v (JS.of_Z 1) (JS.of_Z 100) "quality") with
  | Some qualityError => Some qualityError
  | None =>
  match whenDefined (ExtractFramesInput.width options)
          (fun v => validateRange v (JS.of_Z 100) (JS.of_Z 3840) "width") with
  | Some widthError => Some widthError
  | None =>
      if match ExtractFramesInput.start_time options with
         | Some st => JS.ltb st (JS.of_Z 0)
         | None => false
         end
      then Some startTimeError
      else
        match ExtractFramesInput.end_time options,
              ExtractFramesInput.start_time options with
        | Some et, Some st =>
            if JS.leb et st then Some timeRangeError else None
        | _, _ => None
        end
  end end end end end.

(** [normalizePath(filePath)] *)
Definition normalizePath (h : Host) (filePath : string) : string :=
  let filePath :=
    if Str.startsWith filePath "~" then
      Path.join (homeDir h) (Str.slice1 filePath)
    else filePath in
  Path.resolve (cwd h) filePath.

End Validators.

(* ===================================================================== *)
(** ** [src/processors/ffmpeg-processor.ts] *)
(* ===================================================================== *)

Module Processor.

(** The [options] argument of [extractFrames]. *)
Module Options.
Record t : Type := mk {
  interval : option number;
  maxFrames : option number;
  quality : option number;
  width : option number;
  startTime : option number;
  endTime : option number
}.
End Options.

(** [`${code}`] for an exit code *)
Definition showCode (code : option Z) : string :=
  match code with Some c => Str.of_Z c | None => "null" end.

(** [x?.toString()] inside a template: an absent value prints as
    [undefined]. *)
Definition interpOpt (x : option number) : piece :=
  match x with Some n => Interp n | None => Lit "undefined" end.

(** [x || 0] for an optional number *)
Definition orZero (x : option number) : number :=
  match x with Some n => JS.or_else n (JS.of_Z 0) | None => JS.of_Z 0 end.

(** [streams.find(s => s.codec_type === kind)] *)
Definition findStream (kind : CodecType) (streams : list FFprobeStream.t)
  : option FFprobeStream.t :=
  List.find (fun s => match FFprobeStream.codec_type s, kind with
                      | video, video | audio, audio
                      | subtitle, subtitle | data, data => true
                      | _, _ => false
                      end) streams.

(** The frame rate computed from [r_frame_rate], before rounding. *)
Definition parseFps (videoStream : option FFprobeStream.t) : number :=
  match videoStream with
  | Some vs =>
      if truthyStr (FFprobeStream.r_frame_rate vs) then
        match Str.split "/" (default "" (FFprobeStream.r_frame_rate vs)) with
        | num :: den :: _ =>
            if truthyStr (Some den) then
              JS.div (Global.parseInt num) (Global.parseInt den)
            else Global.parseFloat num
        | num :: [] => Global.parseFloat num
        | [] => JS.of_Z 0
        end
      else JS.of_Z 0
  | None => JS.of_Z 0
  end.

(** [parseVideoMetadata(filePath, probeResult)] *)
Definition parseVideoMetadata (h : Host) (filePath : string)
           (probeResult : FFprobeResult.t) : VideoMetadata.t :=
  let normalizedPath := Validators.normalizePath h filePath in
  let videoStream := findStream video (FFprobeResult.streams probeResult) in
  let audioStream := findStream audio (FFprobeResult.streams probeResult) in
  let format := FFprobeResult.format probeResult in
  let durationSeconds :=
    JS.or_else (Global.parseFloat' (FFprobeFormat.duration format))
      (JS.of_Z 0) in
  let fps := parseFps videoStream in
  let fileSizeBytes :=
    JS.or_else (Global.parseInt' (FFprobeFormat.size format)) (JS.of_Z 0) in
  VideoMetadata.mk
    (getFilename normalizedPath)
    normalizedPath
    (formatDuration durationSeconds)
    durationSeconds
    (match videoStream with
     | Some vs => [interpOpt (FFprobeStream.width vs); Lit "x";
                   interpOpt (FFprobeStream.height vs)]
     | None => [Lit "unknown"]
     end)
    (orZero (videoStream ≫= FFprobeStream.width))
    (orZero (videoStream ≫= FFprobeStream.height))
    (JS.div (JS.round (JS.mul fps (JS.of_Z 100))) (JS.of_Z 100))
    (let name := videoStream ≫= FFprobeStream.codec_name in
     if truthyStr name then default "" name else "unknown")
    (let name := audioStream ≫= FFprobeStream.codec_name in
     if truthyStr name then name else None)
    (formatBytes fileSizeBytes)
    fileSizeBytes
    (match audioStream with Some _ => true | None => false end)
    (if truthyStr (FFprobeFormat.bit_rate format) then
       formatBytes (Global.parseInt' (FFprobeFormat.bit_rate format)) +:+ "/s"
     else "unknown")
    (FFprobeFormat.creation_time format).

(** [createFfmpegError(error)], on the message of the error *)
Definition createFfmpegError (message : string) : VideoError.t :=
  if Str.includes message "not found" || Str.includes message "ENOENT" then
    VideoError.mk FFMPEG_NOT_FOUND
      [Lit "ffmpeg is not installed or not in PATH"]
      None
      (Some [Lit "Install ffmpeg: brew install ffmpeg (macOS) or apt install ffmpeg (Linux)"])
  else
    VideoError.mk FFMPEG_ERROR
      [Lit "FFmpeg error: "; Lit message]
      (Some (OriginalError message))
      None.

(** The frames read back after the decoder ran: the loop over
    [frameFiles], from index [i] on. *)
Fixpoint readFrames (h : Host) (startTime : option number)
         (interval : number) (i : nat) (frameFiles : list string)
  : M (list ExtractedFrame.t) :=
  match frameFiles with
  | [] => ret []
  | frameFile :: rest =>
      let timestampSeconds :=
        JS.add (orZero startTime) (JS.mul (JS.of_nat i) interval) in
      do image <- FileHandler.readFileAsBase64 h frameFile;
      do frames <- readFrames h startTime interval (S i) rest;
      ret (ExtractedFrame.mk i (formatDuration timestampSeconds)
             timestampSeconds image "image/jpeg" :: frames)
  end.

(** [Math.round((100 - quality) / 3.2 + 2)]: the value put after [-q:v]
    by both [extractFrames] and [extractFrameAtTime].  The arithmetic
    here is exact, where the source rounds each step to a double: the two
    agree on the integer qualities 1 to 100 ([Binary64.qualityToNative]
    below, and [quality_scale]), not on every fraction
    ([formula_is_not_exact_off_integers]). *)
Definition qualityToNative (quality : number) : number :=
  JS.round
    (JS.add (JS.div (JS.sub (JS.of_Z 100) quality) (Num (32 # 10)))
       (JS.of_Z 2)).

(** The argument vector [extractFrames] builds. *)
Definition extractArgs (normalizedPath outputPattern : string)
           (interval maxFrames quality width : number)
           (startTime endTime : option number) : list text :=
  (match startTime with
   | Some st => if JS.gtb st (JS.of_Z 0) then [[Lit "-ss"]; [Interp st]] else []
   | None => []
   end)
  ++ [[Lit "-i"]; [Lit normalizedPath]]
  ++ (match endTime, startTime with
      | Some et, Some st => [[Lit "-t"]; [Interp (JS.sub et st)]]
      | Some et, None => [[Lit "-t"]; [Interp et]]
      | None, _ => []
      end)
  ++ [[Lit "-vf"];
      [Lit "fps=1/"; Interp interval; Lit ","; Lit "scale=";
       Interp width; Lit ":-1"]]
  ++ [[Lit "-q:v"]; [Interp (qualityToNative quality)]]
  ++ [[Lit "-frames:v"]; [Interp maxFrames]]
  ++ [[Lit outputPattern]].

(** The argument vector [extractFrameAtTime] builds. *)
Definition frameAtTimeArgs (normalizedPath outputPath : string)
           (timestamp quality width : number) : list text :=
  [[Lit "-ss"]; [Interp timestamp];
   [Lit "-i"]; [Lit normalizedPath];
   [Lit "-frames:v"]; [Lit "1"];
   [Lit "-vf"]; [Lit "scale="; Interp width; Lit ":-1"];
   [Lit "-q:v"]; [Interp (qualityToNative quality)];
   [Lit outputPath]].

Section WithHost.
Context (h : Host).

(** [getVideoInfo(filePath)]: run the prober and parse its report. *)
Definition getVideoInfo (filePath : string) : M FFprobeResult.t :=
  let normalizedPath := Validators.normalizePath h filePath in
  let args := [[Lit "-v"]; [Lit "quiet"]; [Lit "-print_format"];
               [Lit "json"]; [Lit "-show_format"]; [Lit "-show_streams"];
               [Lit normalizedPath]] in
  do r <- Fs.probe h (if truthyStr (ffprobePath h)
                      then default "" (ffprobePath h) else "ffprobe") args;
  match r with
  | Closed code stdout stderr =>
      match code with
      | Some 0 =>
          match JSON_parse h stdout with
          | inr result => ret result
          | inl error =>
              throw ("Failed to parse ffprobe output: " +:+ error)
          end
      | _ =>
          throw ("ffprobe exited with code " +:+ showCode code +:+ ": "
                 +:+ stderr)
      end
  | SpawnError message => throw ("Failed to run ffprobe: " +:+ message)
  end.

(** [runFfmpeg(args)] *)
Definition runFfmpeg (args : list text) : M unit :=
  do r <- Fs.decode h (if truthyStr (ffmpegPath h)
                       then default "" (ffmpegPath h) else "ffmpeg")
            ([Lit "-y"] :: args);
  match r with
  | Closed code _ stderr =>
      match code with
      | Some 0 => ret tt
      | _ =>
          throw ("ffmpeg exited with code " +:+ showCode code +:+ ": "
                 +:+ stderr)
      end
  | SpawnError message => throw ("Failed to run ffmpeg: " +:+ message)
  end.

(** [extractFrames(filePath, options)]: the decoder always writes into a
    fresh temporary directory, which is removed when anything fails. *)
Definition extractFrames (filePath : string) (options : Options.t)
  : M (list ExtractedFrame.t * string) :=
  let normalizedPath := Validators.normalizePath h filePath in
  let interval := default (JS.of_Z 2) (Options.interval options) in
  let maxFrames := default (JS.of_Z 30) (Options.maxFrames options) in
  let quality := default (JS.of_Z 75) (Options.quality options) in
  let width := default (JS.of_Z 800) (Options.width options) in
  let startTime := Options.startTime options in
  let endTime := Options.endTime options in
  do tempDir <- FileHandler.createTempDir h;
  let outputPattern := Path.join tempDir "frame_%04d.jpg" in
  tryCatch
    (let args := extractArgs normalizedPath outputPattern
                   interval maxFrames quality width startTime endTime in
     exec runFfmpeg args;
     do frameFiles <- FileHandler.listFilesWithExtension h tempDir ".jpg";
     do frames <- readFrames h startTime interval 0 frameFiles;
     ret (frames, tempDir))
    (fun error =>
       exec FileHandler.cleanupTempDir h tempDir;
       throw error).

(** [extractFrameAtTime(filePath, timestamp, options)] *)
Definition extractFrameAtTime (filePath : string) (timestamp : number)
           (quality width : option number) : M ExtractedFrame.t :=
  let normalizedPath := Validators.normalizePath h filePath in
  let quality := default (JS.of_Z 85) quality in
  let width := default (JS.of_Z 1280) width in
  do tempDir <- FileHandler.createTempDir h;
  let outputPath := Path.join tempDir "frame.jpg" in
  tryCatch
    (let args := frameAtTimeArgs normalizedPath outputPath
                   timestamp quality width in
     exec runFfmpeg args;
     do present <- gets (fun w => Fs.existsSync h (fs w) outputPath);
     if negb present then
       throw "Failed to extract frame - output file not created"
     else
       do image <- FileHandler.readFileAsBase64 h outputPath;
       exec FileHandler.cleanupTempDir h tempDir;
       ret (ExtractedFrame.mk 0 (formatDuration timestamp) timestamp
              image "image/jpeg"))
    (fun error =>
       exec FileHandler.cleanupTempDir h tempDir;
       throw error).

End WithHost.
End Processor.

(* ===================================================================== *)
(** ** [src/tools/extract-frames.ts]: the [extract_frames] tool *)
(* ===================================================================== *)

Module Tool.

Module ExtractionInfo.
Record t : Type := mk {
  total_frames_extracted : nat;
  interval_used : number;
  quality : number;
  width : number
}.
End ExtractionInfo.

Module ExtractFramesResponse.
Record t : Type := mk {
  metadata : VideoMetadata.t;
  frames : list ExtractedFrame.t;
  extraction_info : ExtractionInfo.t;
  frame_paths : option (list string);
  output_directory : option string
}.
End ExtractFramesResponse.

(** [ExtractFramesResult]: [success: true] with a response, or
    [success: false] with an error. *)
Inductive ExtractFramesResult : Type :=
| Success (response : ExtractFramesResponse.t)
| Failure (error : VideoError.t).

(** The loop of [readExistingFramesFromDisk], from index [i] on. *)
Fixpoint readExistingFrom (h : Host) (interval startTime : number)
         (i : nat) (framePaths : list string) : M (list ExtractedFrame.t) :=
  match framePaths with
  | [] => ret []
  | frameFile :: rest =>
      let timestampSeconds :=
        JS.add startTime (JS.mul (JS.of_nat i) interval) in
      do image <- FileHandler.readFileAsBase64 h frameFile;
      do frames <- readExistingFrom h interval startTime (S i) rest;
      ret (ExtractedFrame.mk i (formatDuration timestampSeconds)
             timestampSeconds image "image/jpeg" :: frames)
  end.

(** The [options] object built from the input: the four parameters with
    a default are always defined in it. *)
Definition applyDefaults (input : ExtractFramesInput.t)
  : ExtractFramesInput.t :=
  ExtractFramesInput.mk
    (ExtractFramesInput.path input)
    (Some (default (JS.of_Z 2) (ExtractFramesInput.interval input)))
    (Some (default (JS.of_Z 30) (ExtractFramesInput.max_frames input)))
    (Some (default (JS.of_Z 75) (ExtractFramesInput.quality input)))
    (Some (default (JS.of_Z 800) (ExtractFramesInput.width input)))
    (ExtractFramesInput.start_time input)
    (ExtractFramesInput.end_time input)
    (ExtractFramesInput.output_dir input).

Section WithHost.
Context (h : Host).

(** [getExistingFrames(dirPath)] *)
Definition getExistingFrames (dirPath : string) : M (list string) :=
  tryCatch (FileHandler.listFilesWithExtension h dirPath ".jpg")
    (fun _ => ret []).

(** [readExistingFramesFromDisk(framePaths, interval, startTime = 0)] *)
Definition readExistingFramesFromDisk (framePaths : list string)
           (interval : number) (startTime : option number)
  : M (list ExtractedFrame.t) :=
  readExistingFrom h interval (default (JS.of_Z 0) startTime) 0 framePaths.

(** The [catch] block of [extractFrames], given the value the local
    variable [tempDir] has when the error arrives. *)
Definition onError (tempDir : option string) (usePersistentOutput : bool)
           (error : string) : M ExtractFramesResult :=
  exec (if truthyStr tempDir && negb usePersistentOutput
        then FileHandler.cleanupTempDir h (default "" tempDir)
        else ret tt);
  ret (Failure (Processor.createFfmpegError error)).

(** [extractFrames(input)].  The processor modelled above takes no output
    directory and returns no [framePaths], so a fresh extraction reports
    neither [frame_paths] nor [output_directory].  Every statement of the
    [try] block that can throw comes before the assignment to [tempDir],
    so the [catch] block always sees it [null]. *)
Definition extractFrames (input : ExtractFramesInput.t)
  : M ExtractFramesResult :=
  let options := applyDefaults input in
  let interval := default (JS.of_Z 2) (ExtractFramesInput.interval input) in
  let max_frames := default (JS.of_Z 30) (ExtractFramesInput.max_frames input) in
  let quality := default (JS.of_Z 75) (ExtractFramesInput.quality input) in
  let width := default (JS.of_Z 800) (ExtractFramesInput.width input) in
  let start_time := ExtractFramesInput.start_time input in
  let end_time := ExtractFramesInput.end_time input in
  let output_dir := ExtractFramesInput.output_dir input in
  do validationError <-
    gets (fun w => Validators.validateExtractFramesOptions h (fs w) options);
  match validationError with
  | Some error => ret (Failure error)
  | None =>
  do resolved <-
    gets (fun w => Validators.resolveVideoPath h (fs w)
                     (ExtractFramesInput.path options));
  if negb (truthyStr resolved) then
    ret (Failure
           (VideoError.mk FILE_NOT_FOUND
              [Lit "Could not resolve video path: ";
               Lit (ExtractFramesInput.path options)]
              None None))
  else
  let resolvedPath := default "" resolved in
  let usePersistentOutput := truthyStr output_dir in
  tryCatch
    (do probeResult <- Processor.getVideoInfo h resolvedPath;
     let metadata := Processor.parseVideoMetadata h resolvedPath probeResult in
     if match start_time with
        | Some st => JS.geb st (VideoMetadata.duration_seconds metadata)
        | None => false
        end
     then
       ret (Failure
              (VideoError.mk INVALID_PATH
                 [Lit "start_time ("; Processor.interpOpt start_time;
                  Lit "s) exceeds video duration (";
                  Interp (VideoMetadata.duration_seconds metadata);
                  Lit "s)"]
                 None
                 (Some [Lit "Use a start_time less than ";
                        Interp (VideoMetadata.duration_seconds metadata);
                        Lit " seconds"])))
     else
       do existingFramePaths <-
         (if usePersistentOutput
          then getExistingFrames (default "" output_dir)
          else ret []);
       if usePersistentOutput && (0 <? length existingFramePaths)%nat then
         do frames <-
           readExistingFramesFromDisk existingFramePaths interval start_time;
         ret (Success
                (ExtractFramesResponse.mk metadata frames
                   (ExtractionInfo.mk (length frames) interval quality width)
                   (Some existingFramePaths)
                   output_dir))
       else
         exec (if usePersistentOutput
               then FileHandler.ensureDir h (default "" output_dir)
               else ret tt);
         do result <-
           Processor.extractFrames h resolvedPath
             (Processor.Options.mk (Some interval) (Some max_frames)
                (Some quality) (Some width) start_time end_time);
         let tempDir := result.2 in
         let frames := result.1 in
         exec (if negb usePersistentOutput
               then FileHandler.cleanupTempDir h tempDir
               else ret tt);
         ret (Success
                (ExtractFramesResponse.mk metadata frames
                   (ExtractionInfo.mk (length frames) interval quality width)
                   None None)))
    (onError None usePersistentOutput)
  end.

End WithHost.
End Tool.

(* ===================================================================== *)
(** ** [src/tools/get-video-info.ts]: the [get_video_info] tool *)
(* ===================================================================== *)

Module GetVideoInfoInput.
Record t : Type := mk {
  path : string
}.
End GetVideoInfoInput.

Module InfoTool.

(** [GetVideoInfoResult]: [success: true] with the metadata, or
    [success: false] with an error. *)
Inductive GetVideoInfoResult : Type :=
| Success (metadata : VideoMetadata.t)
| Failure (error : VideoError.t).

Section WithHost.
Context (h : Host).

(** [getVideoInfo(input)] *)
Definition getVideoInfo (input : GetVideoInfoInput.t) : M GetVideoInfoResult :=
  do validationError <-
    gets (fun w => Validators.validateVideoPath h (fs w)
                     (GetVideoInfoInput.path input));
  match validationError with
  | Some error => ret (Failure error)
  | None =>
  do resolved <-
    gets (fun w => Validators.resolveVideoPath h (fs w)
                     (GetVideoInfoInput.path input));
  if negb (truthyStr resolved) then
    ret (Failure
           (VideoError.mk FILE_NOT_FOUND
              [Lit "Could not resolve video path: ";
               Lit (GetVideoInfoInput.path input)]
              None None))
  else
  let resolvedPath := default "" resolved in
  tryCatch
    (do probeResult <- Processor.getVideoInfo h resolvedPath;
     let metadata := Processor.parseVideoMetadata h resolvedPath probeResult in
     ret (Success metadata))
    (fun error => ret (Failure (Processor.createFfmpegError error)))
  end.

End WithHost.
End InfoTool.

(* ===================================================================== *)
(** ** The quality scale on IEEE doubles *)
(* ===================================================================== *)

(** The same transform evaluated with the binary64 operations of the
    standard library's executable specification of IEEE arithmetic, to
    compare the exact model with what a JavaScript engine computes. *)
Module Binary64.

Definition prec : Z := 53.
Definition emax : Z := 1024.

(** The double nearest to an integer. *)
Definition ofZ (z : Z) : spec_float := binary_normalize prec emax z 0 false.

(** The literal [3.2]: the double nearest to 32 / 10. *)
Definition lit_3_2 : spec_float := SFdiv prec emax (ofZ 32) (ofZ 10).

(** The exact value of a finite double. *)
Definition toQ (x : spec_float) : option Q :=
  match x with
  | S754_zero _ => Some 0%Q
  | S754_finite s m e =>
      Some (inject_Z (if s then Z.neg m else Z.pos m) * Qpower 2 e)%Q
  | _ => None
  end.

(** [Math.round] of a finite double. *)
Definition round (x : spec_float) : option Z :=
  option_map (fun q => Qfloor (q + (1 # 2))) (toQ x).

(** [Math.round((100 - quality) / 3.2 + 2)] on a double. *)
Definition nativeOf (quality : spec_float) : option Z :=
  round (SFadd prec emax
           (SFdiv prec emax (SFsub prec emax (ofZ 100) quality) lit_3_2)
           (ofZ 2)).

(** [Math.round((100 - quality) / 3.2 + 2)] for an integer quality. *)
Definition qualityToNative (quality : Z) : option Z :=
  nativeOf (ofZ quality).

End Binary64.

(* ===================================================================== *)
(** ** Vocabulary of the specification *)
(* ===================================================================== *)

(** The quality transform as the specification words it, on a finite
    quality: [round((100 - q) / 3.2 + 2)], rounding to the nearest integer. *)
Definition spec_native (q : Q) : Z :=
  Qfloor ((100 - q) / (32 # 10) + 2 + (1 # 2)).


(** [needle] occurs in [s]. *)
Definition contains (s needle : string) : Prop :=
  exists pre post, s = pre +:+ needle +:+ post.

(** The first error of a sequence of checks: fail-fast validation. *)
Fixpoint firstError (checks : list (option VideoError.t))
  : option VideoError.t :=
  match checks with
  | [] => None
  | Some e :: _ => Some e
  | None :: rest => firstError rest
  end.

(** The checks of [validateExtractFramesOptions], in the order of the
    source text. *)
Definition checksInOrder (h : Host) (m : gmap string node)
           (options : ExtractFramesInput.t) : list (option VideoError.t) :=
  [ Validators.validateVideoPath h m (ExtractFramesInput.path options);
    Validators.whenDefined (ExtractFramesInput.interval options)
      (fun v => Validators.validateRange v (Num (1 # 10)) (JS.of_Z 60) "interval");
    Validators.whenDefined (ExtractFramesInput.max_frames options)
      (fun v => Validators.validateRange v (JS.of_Z 1) (JS.of_Z 500) "max_frames");
    Validators.whenDefined (ExtractFramesInput.quality options)
      (fun v => Validators.validateRange v (JS.of_Z 1) (JS.of_Z 100) "quality");
    Validators.whenDefined (ExtractFramesInput.width options)
      (fun v => Validators.validateRange v (JS.of_Z 100) (JS.of_Z 3840) "width");
    match ExtractFramesInput.start_time options with
    | Some st =>
        if JS.ltb st (JS.of_Z 0) then Some Validators.startTimeError else None
    | None => None
    end;
    match ExtractFramesInput.end_time options,
          ExtractFramesInput.start_time options with
    | Some et, Some st =>
        if JS.leb et st then Some Validators.timeRangeError else None
    | _, _ => None
    end ].

(** An optional parameter that is present and equal to an integer. *)
Definition given (field : option number) (z : Z) : Prop :=
  exists v, field = Some v /\ JS.eqb v (JS.of_Z z) = true.

(** Two numbers with the same value. *)
Definition sameNumber (x y : number) : Prop :=
  match x, y with
  | NaN, NaN | PInf, PInf | NInf, NInf => True
  | Num a, Num b => a == b
  | _, _ => False
  end.

(** The image files of a directory as [listFilesWithExtension] returns
    them, read off a file system. *)
Definition jpgFiles (dirPath : string) (names : list string) : list string :=
  Str.sort
    (map (fun file => Path.join dirPath file)
       (filter (fun file => Str.endsWith file ".jpg" = true) names)).

(** The frame built for the file at position [i]. *)
Definition frameAt (start interval : number) (i : nat) (content : string)
  : ExtractedFrame.t :=
  let ts := JS.add start (JS.mul (JS.of_nat i) interval) in
  ExtractedFrame.mk i (formatDuration ts) ts
    (Global.base64 (Global.bytesOf content)) "image/jpeg".

(** A list of frames is the list of files, read from [m], frame by frame. *)
Definition framesOf (h : Host) (m : gmap string node)
           (start interval : number) (paths : list string)
           (frames : list ExtractedFrame.t) : Prop :=
  length frames = length paths /\
  forall i f, frames !! i = Some f ->
    exists p c, paths !! i = Some p /\ Fs.readFile h m p = Ok c /\
                f = frameAt start interval i c.



(** The candidate the resolver starts from, by the shape of the input. *)
Definition candidateOf (h : Host) (inputPath : string) : string :=
  if Path.isAbsolute inputPath then inputPath
  else if Str.startsWith inputPath "~" then
    Path.join (Validators.homeDir h) (Str.slice1 inputPath)
  else if truthyStr (VIDEO_BASE_DIR h) then
    Path.join (default "" (VIDEO_BASE_DIR h)) inputPath
  else Path.resolve (cwd h) inputPath.

(** The world after the prober ran on [filePath]. *)
Definition probed (h : Host) (filePath : string) (w : World) : World :=
  (Processor.getVideoInfo h filePath w).2.

(** The executable [runFfmpeg] spawns. *)
Definition decoderCommand (h : Host) : string :=
  if truthyStr (ffmpegPath h) then default "" (ffmpegPath h) else "ffmpeg".

(** The input with another [end_time]. *)
Definition withEndTime (endTime : option number) (input : ExtractFramesInput.t)
  : ExtractFramesInput.t :=
  ExtractFramesInput.mk
    (ExtractFramesInput.path input)
    (ExtractFramesInput.interval input)
    (ExtractFramesInput.max_frames input)
    (ExtractFramesInput.quality input)
    (ExtractFramesInput.width input)
    (ExtractFramesInput.start_time input)
    endTime
    (ExtractFramesInput.output_dir input).

(** A decoder run made for [input] has the argument vector that
    [extractFrames] builds from the parameters of [input]. *)
Definition decodesFor (input : ExtractFramesInput.t) (e : event) : Prop :=
  match e with
  | EvDecode _ argv =>
      exists normalizedPath outputPattern,
        argv = [Lit "-y"]
               :: Processor.extractArgs normalizedPath outputPattern
                    (default (JS.of_Z 2) (ExtractFramesInput.interval input))
                    (default (JS.of_Z 30) (ExtractFramesInput.max_frames input))
                    (default (JS.of_Z 75) (ExtractFramesInput.quality input))
                    (default (JS.of_Z 800) (ExtractFramesInput.width input))
                    (ExtractFramesInput.start_time input)
                    (ExtractFramesInput.end_time input)
  | _ => True
  end.

(** [w'] continues the log of [w] with events that all satisfy [P]. *)
Definition logged (P : event -> Prop) (w w' : World) : Prop :=
  exists evs, log w' = log w ++ evs /\ Forall P evs.

(** [HH:MM:SS], or [MM:SS] under one hour, of a whole number of seconds,
    by integer division. *)
Definition clock (seconds : Z) : string :=
  let pad z := Str.padStart0 2 (Str.of_Z z) in
  let hours := seconds / 3600 in
  let minutes := (seconds mod 3600) / 60 in
  let secs := seconds mod 60 in
  if 0 <? hours then
    pad hours +:+ ":" +:+ pad minutes +:+ ":" +:+ pad secs
  else pad minutes +:+ ":" +:+ pad secs.

(** A present value that is a finite number within [[lo, hi]]. *)
Definition withinRange (field : option number) (lo hi : Q) : Prop :=
  forall v, field = Some v -> exists q, v = Num q /\ (lo <= q <= hi)%Q.

Definition isProbe (e : event) : bool :=
  match e with EvProbe _ _ => true | _ => false end.

Definition isMkdtemp (e : event) : bool :=
  match e with EvMkdtemp _ => true | _ => false end.

(** The value of a run of decimal digits read after [acc]. *)
Fixpoint valueOf (d : Decimal.uint) (acc : Z) : Z :=
  match d with
  | Decimal.Nil => acc
  | Decimal.D0 l => valueOf l (acc * 10 + 0)
  | Decimal.D1 l => valueOf l (acc * 10 + 1)
  | Decimal.D2 l => valueOf l (acc * 10 + 2)
  | Decimal.D3 l => valueOf l (acc * 10 + 3)
  | Decimal.D4 l => valueOf l (acc * 10 + 4)
  | Decimal.D5 l => valueOf l (acc * 10 + 5)
  | Decimal.D6 l => valueOf l (acc * 10 + 6)
  | Decimal.D7 l => valueOf l (acc * 10 + 7)
  | Decimal.D8 l => valueOf l (acc * 10 + 8)
  | Decimal.D9 l => valueOf l (acc * 10 + 9)
  end.

(** The digits of a positive number, as [toString] prints them. *)
Definition digitsOf (p : positive) : string :=
  NilEmpty.string_of_uint (Pos.to_uint p).

(* ===================================================================== *)
(** ** A small installation used for the concrete checks *)
(* ===================================================================== *)

Module Demo.

Definition probeDoc : FFprobeResult.t :=
  FFprobeResult.mk
    [FFprobeStream.mk (JS.of_Z 0) (Some "h264") video
       (Some (JS.of_Z 1920)) (Some (JS.of_Z 1080)) (Some "30000/1001");
     FFprobeStream.mk (JS.of_Z 1) (Some "aac") audio None None None]
    (FFprobeFormat.mk "/videos/demo.mp4" "mov,mp4" (Some "60.500000")
       (Some "1536") (Some "128000") None).

(** A probe document whose audio stream has no codec name and whose
    container reports a negative duration. *)
Definition oddDoc : FFprobeResult.t :=
  FFprobeResult.mk
    [FFprobeStream.mk (JS.of_Z 0) None audio None None None]
    (FFprobeFormat.mk "/videos/odd.mp4" "mov,mp4" (Some "-1.5")
       (Some "10") None None).

Definition lastLit (argv : list text) : string :=
  match last argv with
  | Some [Lit s] => s
  | _ => ""
  end.

(** A decoder that writes three frames next to its output pattern. *)
Definition decoder3 (argv : list text) : spawned * list (string * string) :=
  let dir := Path.resolve "/" (lastLit argv +:+ "/..") in
  (Closed (Some 0) "" "",
   [(dir +:+ "/frame_0002.jpg", "two");
    (dir +:+ "/frame_0001.jpg", "one");
    (dir +:+ "/frame_0003.jpg", "three")]).

Definition host : Host := {|
  VIDEO_BASE_DIR := Some "/videos";
  HOME := Some "/home/u";
  USERPROFILE := None;
  cwd := "/work";
  tmpdir := "/tmp";
  mkdtempSuffix := fun n => "t" +:+ Str.of_Z (Z.of_nat n);
  ffmpegPath := None;
  ffprobePath := None;
  prober := fun _ _ _ => Closed (Some 0) "{}" "";
  decoder := fun _ argv _ => decoder3 argv;
  JSON_parse := fun _ => inr probeDoc
|}.

Definition frameNames : list string :=
  ["frame_0003.jpg"; "frame_0001.jpg"; "frame_0002.jpg";
   "frame_0005.jpg"; "frame_0004.jpg"; "notes.txt"].

Definition disk : gmap string node :=
  list_to_map
    [("/videos", Dir ["demo.mp4"; "demo.webm"; "clip.mov"; "frames"; "empty"]);
     ("/videos/demo.mp4", File "video");
     ("/videos/demo.webm", File "video");
     ("/videos/clip.mov", File "video");
     ("/videos/empty", Dir []);
     ("/videos/frames", Dir frameNames);
     ("/videos/frames/frame_0001.jpg", File "a");
     ("/videos/frames/frame_0002.jpg", File "b");
     ("/videos/frames/frame_0003.jpg", File "c");
     ("/videos/frames/frame_0004.jpg", File "d");
     ("/videos/frames/frame_0005.jpg", File "e");
     ("/videos/frames/notes.txt", File "n");
     ("/tmp", Dir [])].

Definition world : World := {| fs := disk; tmpCount := 0; log := [] |}.

(** [start_time = 5], [interval = 2], [max_frames = 3]. *)
Definition request (out : option string) : ExtractFramesInput.t :=
  ExtractFramesInput.mk "demo" (Some (JS.of_Z 2)) (Some (JS.of_Z 3))
    None None (Some (JS.of_Z 5)) None out.

(** No [start_time], and an [end_time] that is not positive. *)
Definition openEnded (et : number) : ExtractFramesInput.t :=
  ExtractFramesInput.mk "demo" None None None None None (Some et) None.

End Demo.

(* ===================================================================== *)
(** ** Further installations and requests for the concrete checks *)
(* ===================================================================== *)

Module Cases.

(** A request that starts after the end of the one-minute video and names
    a directory that already holds frames. *)
Definition lateStart : ExtractFramesInput.t :=
  ExtractFramesInput.mk "demo" None None None None (Some (JS.of_Z 100)) None
    (Some "/videos/frames").

(** An installation whose decoder gives up on a truncated file. *)
Definition truncated : Host := {|
  VIDEO_BASE_DIR := Some "/videos";
  HOME := Some "/home/u";
  USERPROFILE := None;
  cwd := "/work";
  tmpdir := "/tmp";
  mkdtempSuffix := fun n => "t" +:+ Str.of_Z (Z.of_nat n);
  ffmpegPath := None;
  ffprobePath := None;
  prober := fun _ _ _ => Closed (Some 0) "{}" "";
  decoder := fun _ _ _ => (Closed (Some 1) "" "moov atom not found", []);
  JSON_parse := fun _ => inr Demo.probeDoc
|}.

(** An installation whose decoder closes with code 0 and writes nothing. *)
Definition silent : Host := {|
  VIDEO_BASE_DIR := Some "/videos";
  HOME := Some "/home/u";
  USERPROFILE := None;
  cwd := "/work";
  tmpdir := "/tmp";
  mkdtempSuffix := fun n => "t" +:+ Str.of_Z (Z.of_nat n);
  ffmpegPath := None;
  ffprobePath := None;
  prober := fun _ _ _ => Closed (Some 0) "{}" "";
  decoder := fun _ _ _ => (Closed (Some 0) "" "", []);
  JSON_parse := fun _ => inr Demo.probeDoc
|}.

(** The double [12 + 2^-49], a quality that validation accepts. *)
Definition offInteger : spec_float :=
  binary_normalize Binary64.prec Binary64.emax (12 * 2 ^ 49 + 1) (-49) false.

(** A probe document of a file without any stream. *)
Definition bareDoc : FFprobeResult.t :=
  FFprobeResult.mk []
    (FFprobeFormat.mk "/videos/bare.mp4" "mov,mp4" None None None None).

End Cases.

(* ===================================================================== *)
(** * Properties *)
(* ===================================================================== *)

(* --------------------------------------------------------------------- *)
(** ** The quality scale *)
(* --------------------------------------------------------------------- *)

Section Quality.

Local Open Scope Q_scope.







(** Off the integers the formula is not exact on doubles: at the quality
    [12 + 2^-49] the source computes 30, where the formula gives 29. *)
Lemma formula_is_not_exact_off_integers :
  (exists q, Binary64.toQ Cases.offInteger = Some q /\ q == 12 + (1 # 2 ^ 49)) /\
  Binary64.nativeOf Cases.offInteger = Some 30%Z /\
  spec_native (12 + (1 # 2 ^ 49)) = 29%Z.
Proof.
  split; [|split].
  - eexists. split; [vm_compute; reflexivity|]. vm_compute. reflexivity.
  - vm_compute. reflexivity.
  - vm_compute. reflexivity.
Qed.




End Quality.

(* --------------------------------------------------------------------- *)
(** ** The error classifier *)
(* --------------------------------------------------------------------- *)

Section Classifier.

Lemma prefix_app (p post : string) : String.prefix p (p +:+ post) = true.
Proof.
  induction p as [|c p IH]; simpl.
  - now destruct post.
  - destruct (ascii_dec c c) as [_|Hne]; [exact IH | now destruct Hne].
Qed.

Lemma prefix_split (p s : string) :
  String.prefix p s = true -> exists post, s = p +:+ post.
Proof.
  revert s. induction p as [|c p IH]; intros s Hp.
  - now exists s.
  - destruct s as [|d s]; simpl in Hp; [discriminate|].
    destruct (ascii_dec c d) as [->|_]; [|discriminate].
    destruct (IH _ Hp) as [post ->]. now exists post.
Qed.

Lemma includes_nil (needle : string) :
  Str.includes "" needle = String.prefix needle "" || false.
Proof. reflexivity. Qed.

Lemma includes_cons (c : ascii) (s needle : string) :
  Str.includes (String c s) needle
  = String.prefix needle (String c s) || Str.includes s needle.
Proof. reflexivity. Qed.

Lemma includes_contains (s needle : string) :
  Str.includes s needle = true <-> contains s needle.
Proof.
  split.
  - induction s as [|c s IH]; intros H.
    + rewrite includes_nil in H.
      apply orb_true_iff in H as [H|H]; [|discriminate].
      destruct (prefix_split _ _ H) as [post Hpost].
      exists "", post. exact Hpost.
    + rewrite includes_cons in H.
      apply orb_true_iff in H as [H|H].
      * destruct (prefix_split _ _ H) as [post Hpost].
        exists "", post. exact Hpost.
      * destruct (IH H) as (pre & post & ->). now exists (String c pre), post.
  - intros (pre & post & ->).
    induction pre as [|c pre IH].
    + change ("" +:+ needle +:+ post) with (needle +:+ post).
      destruct (needle +:+ post) eqn:E.
      * rewrite includes_nil, <- E, prefix_app. reflexivity.
      * rewrite includes_cons, <- E, prefix_app. reflexivity.
    + change (String c pre +:+ needle +:+ post)
        with (String c (pre +:+ needle +:+ post)).
      rewrite includes_cons, IH. apply orb_true_r.
Qed.

(** C7 (as amended).  A failure is classified as a missing toolchain
    exactly when its text contains "not found" or "ENOENT"; any other
    failure is the generic execution error, whose details carry the raw
    text. *)
Theorem classifier_kinds (message : string) :
  (VideoError.code (Processor.createFfmpegError message) = FFMPEG_NOT_FOUND
   <-> contains message "not found" \/ contains message "ENOENT") /\
  (VideoError.code (Processor.createFfmpegError message) = FFMPEG_NOT_FOUND
   \/ Processor.createFfmpegError message
      = VideoError.mk FFMPEG_ERROR [Lit "FFmpeg error: "; Lit message]
          (Some (OriginalError message)) None).
Proof.
  unfold Processor.createFfmpegError.
  rewrite <- !includes_contains.
  destruct (Str.includes message "not found") eqn:E1;
    destruct (Str.includes message "ENOENT") eqn:E2; simpl.
  all: split; [split|]; auto.
  - discriminate.
  - intros [H|H]; discriminate H.
Qed.

(** C7 as stated fails: a text containing "no such file" is not
    classified as a missing toolchain. *)
Lemma no_such_file_is_generic :
  ~ (VideoError.code
       (Processor.createFfmpegError "open: no such file or directory")
     = FFMPEG_NOT_FOUND
     <-> contains "open: no such file or directory" "not found"
         \/ contains "open: no such file or directory" "no such file").
Proof.
  intros [_ H].
  assert (Hc : contains "open: no such file or directory" "no such file").
  { apply includes_contains. reflexivity. }
  specialize (H (or_intror Hc)). vm_compute in H. discriminate H.
Qed.

End Classifier.

(* --------------------------------------------------------------------- *)
(** ** The metadata normalizer *)
(* --------------------------------------------------------------------- *)

Section Metadata.

Lemma or_else_not_NaN (x d : number) :
  JS.isNaN d = false -> JS.isNaN (JS.or_else x d) = false.
Proof.
  intros Hd. unfold JS.or_else. now destruct x; simpl; try destruct (negb _).
Qed.

Lemma or_else_nonneg (x : number) :
  JS.ltb x (JS.of_Z 0) = false ->
  JS.geb (JS.or_else x (JS.of_Z 0)) (JS.of_Z 0) = true.
Proof.
  destruct x as [| | |q]; simpl; try reflexivity; try discriminate.
  intros H. apply negb_false_iff in H.
  unfold JS.or_else; simpl. now destruct (negb (Qeq_bool q 0)).
Qed.

(** C6 (as amended).  The normalized duration is never [NaN]; it is the
    parsed duration, or 0 when that is [NaN] or zero, hence non-negative
    unless the probe reports a negative duration.  [has_audio] says that
    an audio stream exists, and [audio_codec] is non-null exactly when
    that stream names its codec. *)
Theorem metadata_invariant (h : Host) (filePath : string)
        (doc : FFprobeResult.t) :
  let md := Processor.parseVideoMetadata h filePath doc in
  let parsed :=
    Global.parseFloat' (FFprobeFormat.duration (FFprobeResult.format doc)) in
  let audioStream := Processor.findStream audio (FFprobeResult.streams doc) in
  JS.isNaN (VideoMetadata.duration_seconds md) = false /\
  VideoMetadata.duration_seconds md = JS.or_else parsed (JS.of_Z 0) /\
  (JS.ltb parsed (JS.of_Z 0) = false ->
   JS.geb (VideoMetadata.duration_seconds md) (JS.of_Z 0) = true) /\
  (VideoMetadata.has_audio md = true <-> is_Some audioStream) /\
  (is_Some (VideoMetadata.audio_codec md) <->
   exists s name, audioStream = Some s /\
                  FFprobeStream.codec_name s = Some name /\ name <> "") /\
  (is_Some (VideoMetadata.audio_codec md) -> VideoMetadata.has_audio md = true).
Proof.
  cbn zeta. unfold Processor.parseVideoMetadata; simpl.
  set (a := Processor.findStream audio (FFprobeResult.streams doc)).
  assert (Hcodec :
    is_Some (if truthyStr (a ≫= FFprobeStream.codec_name)
             then a ≫= FFprobeStream.codec_name else None) <->
    exists s name, a = Some s /\
                   FFprobeStream.codec_name s = Some name /\ name <> "").
  { destruct a as [s|]; simpl.
    - destruct (FFprobeStream.codec_name s) as [name|] eqn:En; simpl.
      + destruct (String.eqb_spec name "") as [->|Hne]; simpl.
        * split; [intros [x Hx]; discriminate Hx|].
          intros (s' & n' & Hs & Hn & Hne). congruence.
        * split; [intros _; exists s, name; auto | eauto].
      + split; [intros [x Hx]; discriminate Hx|].
        intros (s' & n' & Hs & Hn & _). congruence.
    - split; [intros [x Hx]; discriminate Hx|].
      intros (s' & n' & Hs & _). discriminate Hs. }
  repeat split.
  - now apply or_else_not_NaN.
  - apply or_else_nonneg.
  - destruct a; [eauto | discriminate].
  - destruct a; [reflexivity | intros [x Hx]; discriminate Hx].
  - apply Hcodec.
  - apply Hcodec.
  - intros Hs. apply Hcodec in Hs as (s & name & -> & _). reflexivity.
Qed.

Lemma metadata_invariant_witness :
  JS.geb (VideoMetadata.duration_seconds
            (Processor.parseVideoMetadata Demo.host "/videos/demo.mp4"
               Demo.probeDoc)) (JS.of_Z 0) = true /\
  VideoMetadata.has_audio
    (Processor.parseVideoMetadata Demo.host "/videos/demo.mp4"
       Demo.probeDoc) = true.
Proof.
  pose proof (metadata_invariant Demo.host "/videos/demo.mp4" Demo.probeDoc)
    as (_ & _ & Hdur & _ & _ & Haudio).
  split.
  - apply Hdur. reflexivity.
  - apply Haudio. exists "aac". reflexivity.
Defined.

(** C6 as stated fails on a document whose container reports a negative
    duration and whose audio stream has no codec name. *)
Lemma odd_probe_breaks_invariant :
  let md := Processor.parseVideoMetadata Demo.host "/videos/odd.mp4"
              Demo.oddDoc in
  ~ (JS.geb (VideoMetadata.duration_seconds md) (JS.of_Z 0) = true) /\
  ~ (VideoMetadata.has_audio md
     = match VideoMetadata.audio_codec md with
       | Some _ => true
       | None => false
       end).
Proof.
  split; intros H; vm_compute in H; discriminate H.
Qed.

End Metadata.

(* --------------------------------------------------------------------- *)
(** ** Parameter validation *)
(* --------------------------------------------------------------------- *)

Section Validation.

Context (h : Host) (m : gmap string node).

Lemma validate_is_firstError (options : ExtractFramesInput.t) :
  Validators.validateExtractFramesOptions h m options
  = firstError (checksInOrder h m options).
Proof.
  unfold Validators.validateExtractFramesOptions, checksInOrder, firstError.
  destruct (Validators.validateVideoPath _ _ _); [reflexivity|].
  do 4 (destruct (Validators.whenDefined _ _); [reflexivity|]).
  destruct (ExtractFramesInput.start_time options) as [st|];
    [destruct (JS.ltb st (JS.of_Z 0)); [reflexivity|] |];
    (destruct (ExtractFramesInput.end_time options) as [et|];
     [|reflexivity]); try reflexivity.
  now destruct (JS.leb et st).
Qed.

Lemma firstError_In (checks : list (option VideoError.t)) (e : VideoError.t) :
  firstError checks = Some e -> In (Some e) checks.
Proof.
  induction checks as [|[e'|] rest IH]; simpl; intros H.
  - discriminate.
  - left. exact H.
  - right. auto.
Qed.

Lemma firstError_finds (checks : list (option VideoError.t)) (e : VideoError.t) :
  In (Some e) checks -> exists e', firstError checks = Some e'.
Proof.
  induction checks as [|[e'|] rest IH]; simpl; intros H.
  - destruct H.
  - eauto.
  - destruct H as [H|H]; [discriminate | auto].
Qed.

Lemma validateRange_code (value min max : number) (fieldName : string)
      (e : VideoError.t) :
  Validators.validateRange value min max fieldName = Some e ->
  VideoError.code e = INVALID_PATH.
Proof.
  unfold Validators.validateRange.
  destruct (JS.isNaN value); [intros [= <-]; reflexivity|].
  destruct (JS.ltb value min || JS.gtb value max);
    [intros [= <-]; reflexivity | discriminate].
Qed.

(** Every check after the path check reports [INVALID_PATH]. *)
Lemma parameter_checks_code (options : ExtractFramesInput.t)
      (e : VideoError.t) :
  In (Some e) (tl (checksInOrder h m options)) ->
  VideoError.code e = INVALID_PATH.
Proof.
  unfold checksInOrder, tl, Validators.whenDefined.
  intros H. repeat destruct H as [H|H]; try contradiction.
  1-4: match type of H with
       | match ?f with Some _ => _ | None => _ end = _ =>
           destruct f; [eapply validateRange_code; exact H | discriminate]
       end.
  - destruct (ExtractFramesInput.start_time options) as [st|]; [|discriminate].
    destruct (JS.ltb st (JS.of_Z 0)); [|discriminate].
    injection H as <-. reflexivity.
  - destruct (ExtractFramesInput.end_time options) as [et|]; [|discriminate].
    destruct (ExtractFramesInput.start_time options) as [st|]; [|discriminate].
    destruct (JS.leb et st); [|discriminate].
    injection H as <-. reflexivity.
Qed.

Lemma eqb_of_Z_inv (v : number) (z : Z) :
  JS.eqb v (JS.of_Z z) = true -> exists q, v = Num q /\ (q == inject_Z z)%Q.
Proof.
  destruct v as [| | |q]; simpl; try discriminate.
  intros H. exists q. split; [reflexivity | now apply Qeq_bool_iff].
Qed.

(** A present value equal to an integer outside [[lo, hi]] fails the range
    check. *)
Lemma given_out_of_range (field : option number) (z : Z)
      (lo hi : Q) (fieldName : string) :
  given field z ->
  (inject_Z z < lo \/ hi < inject_Z z)%Q ->
  exists e,
    Validators.whenDefined field
      (fun v => Validators.validateRange v (Num lo) (Num hi) fieldName)
    = Some e.
Proof.
  intros (v & -> & Hv) Hout.
  destruct (eqb_of_Z_inv _ _ Hv) as (q & -> & Hq).
  unfold Validators.whenDefined, Validators.validateRange; simpl.
  assert (Hb : negb (Qle_bool lo q) || negb (Qle_bool q hi) = true).
  { apply orb_true_iff.
    destruct Hout as [Hlt|Hlt]; [left|right]; apply negb_true_iff;
      apply not_true_is_false; rewrite Qle_bool_iff; rewrite Hq; lra. }
  rewrite Hb. eauto.
Qed.

(** C4.  Validation returns the first error met in the fixed order of its
    checks and no other; and once the path is accepted, each of
    [interval = 0], [interval = 61], [quality = 0], [quality = 101],
    [width = 50], [max_frames = 0], [max_frames = 501] and
    [end_time <= start_time] is rejected with an error whose code is
    [INVALID_PATH]. *)
Theorem validation_rejects (options : ExtractFramesInput.t) :
  Validators.validateVideoPath h m (ExtractFramesInput.path options) = None ->
  given (ExtractFramesInput.interval options) 0
  \/ given (ExtractFramesInput.interval options) 61
  \/ given (ExtractFramesInput.quality options) 0
  \/ given (ExtractFramesInput.quality options) 101
  \/ given (ExtractFramesInput.width options) 50
  \/ given (ExtractFramesInput.max_frames options) 0
  \/ given (ExtractFramesInput.max_frames options) 501
  \/ (exists st et,
        ExtractFramesInput.start_time options = Some st /\
        ExtractFramesInput.end_time options = Some et /\
        JS.leb et st = true) ->
  Validators.validateExtractFramesOptions h m options
  = firstError (checksInOrder h m options) /\
  exists e,
    Validators.validateExtractFramesOptions h m options = Some e /\
    VideoError.code e = INVALID_PATH.
Proof.
  intros Hpath Hbad.
  split; [apply validate_is_firstError|].
  rewrite validate_is_firstError.
  assert (Hsome : exists e, In (Some e) (tl (checksInOrder h m options))).
  { unfold checksInOrder, tl.
    destruct Hbad as [H|[H|[H|[H|[H|[H|[H|H]]]]]]].
    - destruct (given_out_of_range _ _ (1 # 10) 60 "interval" H) as [e He];
        [left; reflexivity|].
      exists e. rewrite <- He. simpl; auto.
    - destruct (given_out_of_range _ _ (1 # 10) 60 "interval" H) as [e He];
        [right; reflexivity|].
      exists e. rewrite <- He. simpl; auto.
    - destruct (given_out_of_range _ _ 1 100 "quality" H) as [e He];
        [left; reflexivity|].
      exists e. rewrite <- He. simpl; auto.
    - destruct (given_out_of_range _ _ 1 100 "quality" H) as [e He];
        [right; reflexivity|].
      exists e. rewrite <- He. simpl; auto.
    - destruct (given_out_of_range _ _ 100 3840 "width" H) as [e He];
        [left; reflexivity|].
      exists e. rewrite <- He. simpl; auto 6.
    - destruct (given_out_of_range _ _ 1 500 "max_frames" H) as [e He];
        [left; reflexivity|].
      exists e. rewrite <- He. simpl; auto.
    - destruct (given_out_of_range _ _ 1 500 "max_frames" H) as [e He];
        [right; reflexivity|].
      exists e. rewrite <- He. simpl; auto.
    - destruct H as (st & et & -> & -> & Hle). rewrite Hle.
      exists Validators.timeRangeError. simpl. auto 8. }
  destruct Hsome as [e0 Hin].
  destruct (firstError_finds (checksInOrder h m options) e0) as [e He].
  { unfold checksInOrder in *. right. exact Hin. }
  exists e. split; [exact He|].
  apply firstError_In in He.
  apply (parameter_checks_code options).
  unfold checksInOrder in *. destruct He as [He|He]; [|exact He].
  rewrite Hpath in He. discriminate He.
Qed.

End Validation.

Lemma validation_rejects_witness :
  exists e,
    Validators.validateExtractFramesOptions Demo.host Demo.disk
      (ExtractFramesInput.mk "demo" (Some (JS.of_Z 2)) (Some (JS.of_Z 501))
         None (Some (JS.of_Z 50)) None None None) = Some e /\
    VideoError.code e = INVALID_PATH.
Proof.
  apply (validation_rejects Demo.host Demo.disk
           (ExtractFramesInput.mk "demo" (Some (JS.of_Z 2))
              (Some (JS.of_Z 501)) None (Some (JS.of_Z 50)) None None None)).
  - vm_compute. reflexivity.
  - do 4 right. left. exists (JS.of_Z 50). split; reflexivity.
Defined.

(* --------------------------------------------------------------------- *)
(** ** Path resolution *)
(* --------------------------------------------------------------------- *)

Section Resolution.

Context (h : Host) (m : gmap string node).

Lemma resolve_by_candidate (inputPath : string) :
  Validators.resolveVideoPath h m inputPath
  = Validators.findWithExtensions h m (candidateOf h inputPath).
Proof.
  unfold Validators.resolveVideoPath, candidateOf, Validators.getVideoBaseDir.
  destruct (Path.isAbsolute inputPath); [reflexivity|].
  destruct (Str.startsWith inputPath "~"); [reflexivity|].
  now destruct (truthyStr (VIDEO_BASE_DIR h)).
Qed.

(** The loop returns the first format, in list order, whose file exists. *)
Lemma probeFormats_first (basePath : string) (formats : list string) :
  match Validators.probeFormats h m basePath formats with
  | Some r =>
      exists before ext after,
        formats = before ++ ext :: after /\
        r = basePath +:+ ext /\
        Validators.fileExists h m r = true /\
        Forall (fun e => Validators.fileExists h m (basePath +:+ e) = false)
          before
  | None =>
      Forall (fun e => Validators.fileExists h m (basePath +:+ e) = false)
        formats
  end.
Proof.
  induction formats as [|format rest IH]; simpl.
  - constructor.
  - destruct (Validators.fileExists h m (basePath +:+ format)) eqn:E.
    + exists [], format, rest. repeat split; auto.
    + destruct (Validators.probeFormats h m basePath rest) as [r|].
      * destruct IH as (before & ext & after & -> & -> & Hex & Hno).
        exists (format :: before), ext, after. repeat split; auto.
      * constructor; assumption.
Qed.

Lemma toLowerCase_empty (s : string) :
  Str.toLowerCase s = "" <-> s = "".
Proof.
  destruct s; simpl; split; intros H; try reflexivity; discriminate H.
Qed.

(** C5.  An absolute path that names an existing regular file is
    returned unchanged; for a candidate without extension that is not
    itself a file, the supported extensions are tried in the order of
    their declaration and the first one whose file exists is returned;
    and when neither the candidate nor any extended candidate exists the
    result is [null].  The resolver is a total function: it has no way to
    throw. *)
Theorem resolver_behaviour (inputPath : string) :
  (Path.isAbsolute inputPath = true ->
   Validators.fileExists h m inputPath = true ->
   Validators.resolveVideoPath h m inputPath = Some inputPath) /\
  (Validators.fileExists h m (candidateOf h inputPath) = false ->
   Path.extname (candidateOf h inputPath) = "" ->
   match Validators.resolveVideoPath h m inputPath with
   | Some r =>
       exists before ext after,
         SUPPORTED_VIDEO_FORMATS = before ++ ext :: after /\
         r = candidateOf h inputPath +:+ ext /\
         Validators.fileExists h m r = true /\
         Forall (fun e => Validators.fileExists h m
                            (candidateOf h inputPath +:+ e) = false) before
   | None =>
       Forall (fun e => Validators.fileExists h m
                          (candidateOf h inputPath +:+ e) = false)
         SUPPORTED_VIDEO_FORMATS
   end) /\
  (Validators.fileExists h m (candidateOf h inputPath) = false ->
   (Path.extname (candidateOf h inputPath) = "" ->
    Forall (fun e => Validators.fileExists h m
                       (candidateOf h inputPath +:+ e) = false)
      SUPPORTED_VIDEO_FORMATS) ->
   Validators.resolveVideoPath h m inputPath = None).
Proof.
  rewrite resolve_by_candidate. unfold Validators.findWithExtensions.
  repeat split.
  - intros Habs Hex. unfold candidateOf. rewrite Habs, Hex. reflexivity.
  - intros Hno Hext. rewrite Hno, Hext.
    exact (probeFormats_first (candidateOf h inputPath)
             SUPPORTED_VIDEO_FORMATS).
  - intros Hno Hall. rewrite Hno.
    destruct (String.eqb_spec (Str.toLowerCase
                                 (Path.extname (candidateOf h inputPath))) "")
      as [He|He]; [|reflexivity].
    apply (proj1 (toLowerCase_empty _)) in He. specialize (Hall He).
    pose proof (probeFormats_first (candidateOf h inputPath)
                  SUPPORTED_VIDEO_FORMATS) as Hp.
    destruct (Validators.probeFormats h m (candidateOf h inputPath)
                SUPPORTED_VIDEO_FORMATS) as [r|]; [|reflexivity].
    destruct Hp as (before & ext & after & Heq & -> & Hex & _).
    rewrite Forall_forall in Hall.
    rewrite Hall in Hex; [discriminate Hex|].
    rewrite Heq. set_solver.
Qed.

End Resolution.

(** With both [demo.mp4] and [demo.webm] present, the bare name [demo]
    resolves to the [.mp4] file, which comes first in the list; an absolute
    path to an existing file is returned as it is; a name nothing matches
    gives [null]. *)
Lemma resolver_behaviour_witness :
  Validators.resolveVideoPath Demo.host Demo.disk "/videos/clip.mov"
  = Some "/videos/clip.mov" /\
  Validators.resolveVideoPath Demo.host Demo.disk "demo"
  = Some "/videos/demo.mp4" /\
  Validators.resolveVideoPath Demo.host Demo.disk "missing.mp4" = None.
Proof.
  split; [|split].
  - apply (resolver_behaviour Demo.host Demo.disk "/videos/clip.mov");
      vm_compute; reflexivity.
  - pose proof (resolver_behaviour Demo.host Demo.disk "demo") as (_ & H & _).
    specialize (H eq_refl eq_refl).
    destruct (Validators.resolveVideoPath Demo.host Demo.disk "demo")
      as [r|] eqn:E.
    + vm_compute in E. exact (eq_sym E).
    + vm_compute in E. discriminate E.
  - apply (resolver_behaviour Demo.host Demo.disk "missing.mp4").
    + vm_compute. reflexivity.
    + intros Hext. vm_compute in Hext. discriminate Hext.
Defined.

(* --------------------------------------------------------------------- *)
(** ** The byte formatter *)
(* --------------------------------------------------------------------- *)

Section Bytes.

Lemma pow1024 (k : Z) : 0 <= k -> 1024 ^ k = 2 ^ (10 * k).
Proof. intros Hk. now rewrite Z.pow_mul_r by lia. Qed.

(** On a positive integer [ilog1024] is the integer logarithm in base
    1024. *)
Lemma ilog1024_spec (b : Z) :
  0 < b ->
  0 <= ilog1024 (inject_Z b) /\
  1024 ^ ilog1024 (inject_Z b) <= b < 1024 ^ (ilog1024 (inject_Z b) + 1).
Proof.
  intros Hb. unfold ilog1024. simpl Qnum. simpl Qden.
  change (Z.log2 1) with 0. rewrite Z.sub_0_r.
  destruct (Z.log2_spec b Hb) as [Hlo Hhi].
  pose proof (Z.log2_nonneg b) as HL.
  set (L := Z.log2 b) in *.
  set (c := (L - 1) / 10).
  assert (Hc : 10 * c <= L - 1 < 10 * c + 10).
  { pose proof (Z.mul_div_le (L - 1) 10 eq_refl).
    pose proof (Z.mul_succ_div_gt (L - 1) 10 eq_refl). fold c in H, H0. lia. }
  unfold pow1024_le.
  destruct (0 <=? c + 1) eqn:E0; [|apply Z.leb_gt in E0; lia].
  rewrite Z.mul_1_r.
  destruct (1024 ^ (c + 1) <=? b) eqn:E.
  - apply Z.leb_le in E. split; [lia|]. split; [exact E|].
    eapply Z.lt_le_trans; [exact Hhi|].
    rewrite pow1024 by lia. apply Z.pow_le_mono_r; lia.
  - apply Z.leb_gt in E.
    assert (0 <= c).
    { destruct (Z.eq_dec c (-1)) as [Hm|Hm]; [|lia].
      rewrite Hm in E. simpl in E. lia. }
    split; [assumption|]. split; [|exact E].
    rewrite pow1024 by lia.
    eapply Z.le_trans; [|exact Hlo]. apply Z.pow_le_mono_r; lia.
Qed.

(** The value printed, scaled by 100: the quotient by the unit, rounded
    to the nearest hundredth. *)
Lemma scaled_value (b i : Z) :
  0 <= i ->
  Qfloor (inject_Z b / Qpower 1024 i * inject_Z (10 ^ 2) + (1 # 2))
  = (200 * b + 1024 ^ i) / (2 * 1024 ^ i).
Proof.
  intros Hi.
  assert (HP : 0 < 1024 ^ i) by (apply Z.pow_pos_nonneg; lia).
  set (P := 1024 ^ i) in *.
  assert (Hq : (Qpower 1024 i == inject_Z P)%Q).
  { unfold P. now rewrite (Zpower_Qpower 1024 i Hi). }
  assert (Hne : ~ (inject_Z P == 0)%Q).
  { intros H0. unfold Qeq in H0. simpl in H0. lia. }
  transitivity (Qfloor ((200 * b + P) # Z.to_pos (2 * P))).
  - apply Qfloor_comp. rewrite Hq.
    rewrite (Qmake_Qdiv (200 * b + P)).
    rewrite Z2Pos.id by lia.
    rewrite !inject_Z_plus, !inject_Z_mult.
    change (inject_Z (10 ^ 2)) with 100%Q.
    change (inject_Z 200) with 200%Q. change (inject_Z 2) with 2%Q.
    field. exact Hne.
  - unfold Qfloor. now rewrite Z2Pos.id by lia.
Qed.

Lemma formatBytes_positive (b : Z) :
  0 < b ->
  formatBytes (JS.of_Z b)
  = showFixed 2 ((200 * b + 1024 ^ ilog1024 (inject_Z b))
                 / (2 * 1024 ^ ilog1024 (inject_Z b)))
    +:+ " " +:+ sizeName (ilog1024 (inject_Z b)).
Proof.
  intros Hb. unfold formatBytes, formatBytes', JS.of_Z, JS.eqb.
  assert (E0 : Qeq_bool (inject_Z b) (inject_Z 0) = false).
  { apply not_true_is_false. rewrite Qeq_bool_iff.
    unfold Qeq. simpl. lia. }
  assert (E1 : Qle_bool (inject_Z b) 0 = false).
  { unfold Qle_bool. simpl. rewrite Z.mul_1_r. apply Z.leb_gt. exact Hb. }
  rewrite E0, E1.
  change (if 2 <? 0 then 0 else 2) with 2.
  destruct (ilog1024_spec b Hb) as [Hi _].
  cbv zeta. now rewrite (scaled_value b _ Hi).
Qed.




End Bytes.


(* --------------------------------------------------------------------- *)
(** ** Reading frames back from disk *)
(* --------------------------------------------------------------------- *)

Section Frames.
Context (h : Host).

Lemma readFileAsBase64_run (p : string) (w : World) :
  FileHandler.readFileAsBase64 h p w
  = (match Fs.readFile h (fs w) p with
     | Ok c => Ok (Global.base64 (Global.bytesOf c))
     | Throw e => Throw e
     end, w).
Proof.
  unfold FileHandler.readFileAsBase64, bind, Fs.readFileSync, ret.
  now destruct (Fs.readFile h (fs w) p).
Qed.

Lemma readExistingFrom_spec (interval start : number) (paths : list string) :
  forall (i : nat) (w : World),
  exists r,
    Tool.readExistingFrom h interval start i paths w = (r, w) /\
    forall frames, r = Ok frames ->
      length frames = length paths /\
      forall k f, frames !! k = Some f ->
        exists p c, paths !! k = Some p /\
                    Fs.readFile h (fs w) p = Ok c /\
                    f = frameAt start interval (i + k) c.
Proof.
  induction paths as [|p rest IH]; intros i w.
  - exists (Ok []). split; [reflexivity|].
    intros frames [= <-]. split; [reflexivity|]. intros k f Hk.
    discriminate Hk.
  - cbn [Tool.readExistingFrom]. unfold bind at 1.
    rewrite readFileAsBase64_run.
    destruct (Fs.readFile h (fs w) p) as [c|e] eqn:Hc.
    + unfold bind at 1.
      destruct (IH (S i) w) as (r & Hr & Hspec). rewrite Hr.
      destruct r as [frames|e].
      * eexists. split; [reflexivity|].
        intros frames' [= <-].
        destruct (Hspec frames eq_refl) as [Hlen Hat].
        split; [simpl; congruence|].
        intros [|k] f Hk; simpl in Hk.
        -- injection Hk as <-. exists p, c. rewrite Nat.add_0_r.
           repeat split; auto.
        -- destruct (Hat k f Hk) as (p' & c' & Hp' & Hc' & ->).
           exists p', c'. replace (i + S k)%nat with (S i + k)%nat by lia.
           repeat split; auto.
      * eexists. split; [reflexivity|]. intros frames Hf. discriminate Hf.
    + eexists. split; [reflexivity|]. intros frames Hf. discriminate Hf.
Qed.

Lemma readFrames_readExisting (startTime : option number) (interval : number)
      (paths : list string) :
  forall (i : nat) (w : World),
    Processor.readFrames h startTime interval i paths w
    = Tool.readExistingFrom h interval (Processor.orZero startTime) i paths w.
Proof.
  induction paths as [|p rest IH]; intros i w; [reflexivity|].
  cbn [Processor.readFrames Tool.readExistingFrom]. unfold bind.
  destruct (FileHandler.readFileAsBase64 h p w) as [[c|e] w1]; [|reflexivity].
  now rewrite IH.
Qed.

End Frames.

(* --------------------------------------------------------------------- *)
(** ** Runs of the tool on a populated output directory *)
(* --------------------------------------------------------------------- *)

(** Close a case in which the tool answers with a failure. *)
Ltac failed :=
  do 4 (split; [first [reflexivity | assumption]|]);
  let resp := fresh "resp" in
  let H := fresh "H" in
  intros resp H; discriminate H.

Section ToolRuns.
Context (h : Host).

Lemma getVideoInfo_world (filePath : string) (w : World) :
  fs (probed h filePath w) = fs w /\
  tmpCount (probed h filePath w) = tmpCount w /\
  exists command argv,
    log (probed h filePath w) = log w ++ [EvProbe command argv].
Proof.
  unfold probed, Processor.getVideoInfo, bind, Fs.probe.
  repeat match goal with
         | |- context [match ?x with _ => _ end] => destruct x
         end; simpl; eauto.
Qed.

Lemma getExistingFrames_hit (d : string) (names : list string) (w : World) :
  Fs.readdir h (fs w) d = Ok names ->
  Tool.getExistingFrames h d w = (Ok (jpgFiles d names), w).
Proof.
  intros Hdir.
  unfold Tool.getExistingFrames, tryCatch, FileHandler.listFilesWithExtension,
    bind, Fs.readdirSync, ret.
  rewrite Hdir. reflexivity.
Qed.

Lemma tool_cache_hit (input : ExtractFramesInput.t) (w : World)
      (d : string) (names : list string) :
  ExtractFramesInput.output_dir input = Some d ->
  d <> "" ->
  Fs.readdir h (fs w) d = Ok names ->
  jpgFiles d names <> [] ->
  exists res w',
    Tool.extractFrames h input w = (Ok res, w') /\
    fs w' = fs w /\
    tmpCount w' = tmpCount w /\
    (exists evs, log w' = log w ++ evs /\
                 Forall (fun e => exists c a, e = EvProbe c a) evs) /\
    forall resp, res = Tool.Success resp ->
      framesOf h (fs w)
        (default (JS.of_Z 0) (ExtractFramesInput.start_time input))
        (default (JS.of_Z 2) (ExtractFramesInput.interval input))
        (jpgFiles d names) (Tool.ExtractFramesResponse.frames resp) /\
      Tool.ExtractFramesResponse.frame_paths resp = Some (jpgFiles d names) /\
      Tool.ExtractFramesResponse.output_directory resp = Some d /\
      Tool.ExtractFramesResponse.extraction_info resp
      = Tool.ExtractionInfo.mk
          (length (Tool.ExtractFramesResponse.frames resp))
          (default (JS.of_Z 2) (ExtractFramesInput.interval input))
          (default (JS.of_Z 75) (ExtractFramesInput.quality input))
          (default (JS.of_Z 800) (ExtractFramesInput.width input)).
Proof.
  intros Hout Hd Hdir Hjpg.
  assert (Hnoev : exists evs : list event,
             log w = log w ++ evs /\
             Forall (fun e => exists c a, e = EvProbe c a) evs).
  { exists []. split; [now rewrite app_nil_r | constructor]. }
  unfold Tool.extractFrames, bind at 1, gets at 1.
  destruct (Validators.validateExtractFramesOptions h (fs w)
              (Tool.applyDefaults input)) as [e|].
  { exists (Tool.Failure e), w. failed. }
  unfold bind at 1, gets at 1.
  destruct (negb (truthyStr (Validators.resolveVideoPath h (fs w)
              (ExtractFramesInput.path (Tool.applyDefaults input))))).
  { eexists _, w. failed. }
  set (rp := default "" (Validators.resolveVideoPath h (fs w)
               (ExtractFramesInput.path (Tool.applyDefaults input)))).
  destruct (getVideoInfo_world rp w) as (Hfs & Htmp & cmd & argv & Hlog).
  assert (Hev : exists evs : list event,
             log (probed h rp w) = log w ++ evs /\
             Forall (fun e => exists c a, e = EvProbe c a) evs).
  { exists [EvProbe cmd argv]. split; [exact Hlog|].
    constructor; [eauto | constructor]. }
  unfold tryCatch, bind at 1.
  unfold probed in *.
  destruct (Processor.getVideoInfo h rp w) as [[doc|err] w1]; simpl in *.
  2:{ eexists _, w1. failed. }
  destruct (match ExtractFramesInput.start_time input with
            | Some st => JS.geb st _
            | None => false
            end).
  { eexists _, w1. failed. }
  rewrite Hout.
  assert (Htruthy : truthyStr (Some d) = true).
  { simpl. now destruct (String.eqb_spec d ""). }
  rewrite Htruthy. cbn [default].
  unfold bind at 1.
  change (id d) with d.
  rewrite (getExistingFrames_hit d names w1) by now rewrite Hfs.
  assert (Hpos : (0 <? length (jpgFiles d names))%nat = true).
  { destruct (jpgFiles d names); [contradiction | reflexivity]. }
  rewrite Hpos. cbn [andb].
  unfold bind at 1, Tool.readExistingFramesFromDisk.
  destruct (readExistingFrom_spec h
              (default (JS.of_Z 2) (ExtractFramesInput.interval input))
              (default (JS.of_Z 0) (ExtractFramesInput.start_time input))
              (jpgFiles d names) 0%nat w1) as (r & Hr & Hspec).
  rewrite Hr.
  destruct r as [frames|err].
  - eexists _, w1. do 4 (split; [first [reflexivity | assumption]|]).
    intros resp [= <-]. simpl.
    destruct (Hspec frames eq_refl) as [Hlen Hat].
    repeat split; auto.
    intros i f Hi. rewrite <- Hfs. apply (Hat i f Hi).
  - eexists _, w1. failed.
Qed.

End ToolRuns.

(* --------------------------------------------------------------------- *)
(** ** Successful runs *)
(* --------------------------------------------------------------------- *)

Section Success.
Context (h : Host).

(** The tool always answers: whatever is thrown inside its [try] block
    becomes a failure result. *)
Lemma tool_answers (input : ExtractFramesInput.t) (w : World) :
  exists res w', Tool.extractFrames h input w = (Ok res, w').
Proof.
  unfold Tool.extractFrames, bind at 1, gets at 1.
  destruct (Validators.validateExtractFramesOptions h (fs w) _);
    [eexists _, _; reflexivity|].
  unfold bind at 1, gets at 1.
  destruct (negb (truthyStr _)); [eexists _, _; reflexivity|].
  unfold tryCatch.
  match goal with
  | |- exists res w', (let (o, w0) := ?body w in _) = _ =>
      destruct (body w) as [[res|err] w1]
  end.
  - eexists _, _; reflexivity.
  - unfold Tool.onError. cbn [truthyStr andb]. unfold bind, ret.
    eexists _, _; reflexivity.
Qed.





End Success.

(* --------------------------------------------------------------------- *)
(** ** Frame indices and timestamps *)
(* --------------------------------------------------------------------- *)

Section Timestamps.
Context (h : Host).


Lemma validateRange_accepts (v : number) (lo hi : Q) (fieldName : string) :
  Validators.validateRange v (Num lo) (Num hi) fieldName = None ->
  exists q, v = Num q /\ (lo <= q <= hi)%Q.
Proof.
  unfold Validators.validateRange.
  destruct v as [| | |q]; simpl; try discriminate.
  destruct (negb (Qle_bool lo q)) eqn:E1; [discriminate|].
  destruct (negb (Qle_bool q hi)) eqn:E2; [discriminate|].
  intros _. exists q. split; [reflexivity|].
  apply negb_false_iff in E1, E2. apply Qle_bool_iff in E1, E2. auto.
Qed.



Lemma timestamp_value (s q : Q) (i : nat) :
  JS.add (Num s) (JS.mul (JS.of_nat i) (Num q))
  = Num (s + inject_Z (Z.of_nat i) * q).
Proof. reflexivity. Qed.


End Timestamps.

(* --------------------------------------------------------------------- *)
(** ** The order of the frame files *)
(* --------------------------------------------------------------------- *)

Section Sorting.

Lemma leb_total (a b : string) : Str.leb a b = false -> Str.leb b a = true.
Proof.
  unfold Str.leb. rewrite (String.compare_antisym b a).
  now destruct (String.compare a b).
Qed.

Lemma insert_sorted_perm (x : string) (l : list string) :
  Permutation (Str.insert_sorted x l) (x :: l).
Proof.
  induction l as [|y tl IH]; simpl; [reflexivity|].
  destruct (Str.leb x y); [reflexivity|].
  rewrite IH. apply perm_swap.
Qed.

Lemma sort_perm (l : list string) : Permutation (Str.sort l) l.
Proof.
  induction l as [|x tl IH]; simpl; [reflexivity|].
  rewrite insert_sorted_perm. now constructor.
Qed.

Lemma insert_sorted_sorted (x : string) (l : list string) :
  Sorted (fun a b => Str.leb a b = true) l ->
  Sorted (fun a b => Str.leb a b = true) (Str.insert_sorted x l).
Proof.
  induction 1 as [|y tl Htl IH Hhd]; simpl.
  - repeat constructor.
  - destruct (Str.leb x y) eqn:E.
    + repeat constructor; assumption.
    + constructor; [exact IH|].
      destruct tl as [|z tl']; simpl.
      * constructor. now apply leb_total.
      * destruct (Str.leb x z).
        -- constructor. now apply leb_total.
        -- inversion Hhd; subst. now constructor.
Qed.

Lemma sort_sorted (l : list string) :
  Sorted (fun a b => Str.leb a b = true) (Str.sort l).
Proof.
  induction l as [|x tl IH]; simpl; [constructor|].
  now apply insert_sorted_sorted.
Qed.

Lemma jpgFiles_length (d : string) (names : list string) :
  length (jpgFiles d names)
  = length (filter (fun file => Str.endsWith file ".jpg" = true) names).
Proof.
  unfold jpgFiles.
  rewrite (Permutation_length (sort_perm _)). apply length_map.
Qed.

Lemma jpgFiles_nonempty (d : string) (names : list string) :
  Exists (fun file => Str.endsWith file ".jpg" = true) names ->
  jpgFiles d names <> [].
Proof.
  intros Hex Hnil.
  apply (f_equal (@length string)) in Hnil.
  rewrite jpgFiles_length in Hnil.
  induction Hex as [x l Hx|x l _ IH].
  - rewrite filter_cons_True in Hnil by exact Hx. discriminate Hnil.
  - rewrite filter_cons in Hnil. destruct (decide _); [discriminate Hnil|auto].
Qed.

End Sorting.


(* --------------------------------------------------------------------- *)
(** ** When a cache hit succeeds *)
(* --------------------------------------------------------------------- *)

Section CacheHitSucceeds.
Context (h : Host).



End CacheHitSucceeds.

(* --------------------------------------------------------------------- *)
(** ** The persistent output directory as a cache *)
(* --------------------------------------------------------------------- *)

Section CacheHit.
Context (h : Host).


(** C10.  On a cache hit the answer has one frame per existing [.jpg]
    file and [total_frames_extracted] is that number, whatever
    [max_frames] is: the cap only becomes the [-frames:v] argument of a
    decoder run. *)
Theorem cache_hit_ignores_max_frames (input : ExtractFramesInput.t)
        (w w' : World) (d : string) (names : list string)
        (resp : Tool.ExtractFramesResponse.t) :
  ExtractFramesInput.output_dir input = Some d ->
  d <> "" ->
  Fs.readdir h (fs w) d = Ok names ->
  Exists (fun file => Str.endsWith file ".jpg" = true) names ->
  Tool.extractFrames h input w = (Ok (Tool.Success resp), w') ->
  length (Tool.ExtractFramesResponse.frames resp)
  = length (filter (fun file => Str.endsWith file ".jpg" = true) names) /\
  Tool.ExtractionInfo.total_frames_extracted
    (Tool.ExtractFramesResponse.extraction_info resp)
  = length (filter (fun file => Str.endsWith file ".jpg" = true) names) /\
  forall normalizedPath outputPattern interval maxFrames quality width
         startTime endTime,
    exists before,
      Processor.extractArgs normalizedPath outputPattern interval maxFrames
        quality width startTime endTime
      = before ++ [[Lit "-frames:v"]; [Interp maxFrames]; [Lit outputPattern]].
Proof.
  intros Hout Hd Hdir Hex Hrun.
  destruct (tool_cache_hit h input w d names Hout Hd Hdir
              (jpgFiles_nonempty d names Hex))
    as (res & w1 & Hrun' & _ & _ & _ & Hresp).
  rewrite Hrun in Hrun'. injection Hrun' as <- <-.
  destruct (Hresp resp eq_refl) as ((Hlen & _) & _ & _ & Hinfo).
  rewrite Hinfo. simpl. rewrite Hlen, jpgFiles_length.
  repeat split.
  intros. unfold Processor.extractArgs.
  match goal with
  | |- exists before, ?a ++ ?b ++ ?c ++ ?d ++ ?e ++ _ = _ =>
      exists (a ++ b ++ c ++ d ++ e)
  end.
  rewrite <- !app_assoc. reflexivity.
Qed.

End CacheHit.


Lemma cache_hit_ignores_max_frames_witness :
  exists resp w',
    Tool.extractFrames Demo.host (Demo.request (Some "/videos/frames"))
      Demo.world = (Ok (Tool.Success resp), w') /\
    ExtractFramesInput.max_frames (Demo.request (Some "/videos/frames"))
    = Some (JS.of_Z 3) /\
    length (Tool.ExtractFramesResponse.frames resp) = 5%nat.
Proof.
  destruct (Tool.extractFrames Demo.host (Demo.request (Some "/videos/frames"))
              Demo.world) as [[[resp|e]|e] w'] eqn:Hrun;
    try (vm_compute in Hrun; discriminate Hrun).
  exists resp, w'. split; [reflexivity|]. split; [reflexivity|].
  destruct (cache_hit_ignores_max_frames Demo.host
              (Demo.request (Some "/videos/frames")) Demo.world w'
              "/videos/frames" Demo.frameNames resp)
    as (Hlen & _).
  - reflexivity.
  - discriminate.
  - reflexivity.
  - constructor. reflexivity.
  - exact Hrun.
  - rewrite Hlen. reflexivity.
Defined.

(* --------------------------------------------------------------------- *)
(** ** What a run adds to the event log *)
(* --------------------------------------------------------------------- *)

Section Logs.
Context (h : Host) (P : event -> Prop).

Lemma logged_refl (w : World) : logged P w w.
Proof. exists []. split; [now rewrite app_nil_r | constructor]. Qed.

Lemma logged_trans (w1 w2 w3 : World) :
  logged P w1 w2 -> logged P w2 w3 -> logged P w1 w3.
Proof.
  intros (e1 & H1 & F1) (e2 & H2 & F2). exists (e1 ++ e2). split.
  - now rewrite H2, H1, app_assoc.
  - now apply Forall_app.
Qed.

Lemma logged_one (w w' : World) (e : event) :
  log w' = log w ++ [e] -> P e -> logged P w w'.
Proof. intros Hl He. exists [e]. split; [exact Hl | now constructor]. Qed.

Lemma cleanupTempDir_logged (dir : string) (w : World) :
  (forall d, P (EvRm d)) ->
  exists w', FileHandler.cleanupTempDir h dir w = (Ok tt, w') /\
             logged P w w'.
Proof.
  intros Hrm. unfold FileHandler.cleanupTempDir, bind, gets.
  destruct (Fs.existsSync h (fs w) dir).
  - eexists. split; [reflexivity|].
    eapply logged_one; [reflexivity | apply Hrm].
  - eexists. split; [reflexivity | apply logged_refl].
Qed.

Lemma ensureDir_logged (dir : string) (w : World) :
  (forall d, P (EvMkdir d)) ->
  exists w', FileHandler.ensureDir h dir w = (Ok tt, w') /\ logged P w w'.
Proof.
  intros Hmk. unfold FileHandler.ensureDir, bind, gets.
  destruct (Fs.existsSync h (fs w) dir).
  - eexists. split; [reflexivity | apply logged_refl].
  - eexists. split; [reflexivity|].
    eapply logged_one; [reflexivity | apply Hmk].
Qed.

Lemma getVideoInfo_logged (filePath : string) (w : World) :
  (forall c a, P (EvProbe c a)) ->
  logged P w (Processor.getVideoInfo h filePath w).2.
Proof.
  intros Hp.
  destruct (getVideoInfo_world h filePath w) as (_ & _ & c & a & Hlog).
  eapply logged_one; [exact Hlog | apply Hp].
Qed.

Lemma getExistingFrames_world (d : string) (w : World) :
  exists files, Tool.getExistingFrames h d w = (Ok files, w).
Proof.
  unfold Tool.getExistingFrames, tryCatch, FileHandler.listFilesWithExtension,
    bind, Fs.readdirSync, ret.
  destruct (Fs.readdir h (fs w) d); eauto.
Qed.

Lemma listFiles_world (d ext : string) (w : World) :
  (FileHandler.listFilesWithExtension h d ext w).2 = w.
Proof.
  unfold FileHandler.listFilesWithExtension, bind, Fs.readdirSync, ret.
  now destruct (Fs.readdir h (fs w) d).
Qed.

Lemma processor_logged (filePath : string) (options : Processor.Options.t)
      (w : World) :
  (forall d, P (EvMkdtemp d)) ->
  (forall d, P (EvRm d)) ->
  (forall outputPattern,
     P (EvDecode (decoderCommand h)
          ([Lit "-y"]
           :: Processor.extractArgs (Validators.normalizePath h filePath)
                outputPattern
                (default (JS.of_Z 2) (Processor.Options.interval options))
                (default (JS.of_Z 30) (Processor.Options.maxFrames options))
                (default (JS.of_Z 75) (Processor.Options.quality options))
                (default (JS.of_Z 800) (Processor.Options.width options))
                (Processor.Options.startTime options)
                (Processor.Options.endTime options)))) ->
  logged P w (Processor.extractFrames h filePath options w).2.
Proof.
  intros Htmp Hrm Hdec.
  unfold Processor.extractFrames, bind at 1.
  unfold FileHandler.createTempDir, Fs.mkdtempSync.
  set (dir := Path.join (tmpdir h) "mcp-video-" +:+ _).
  set (w1 := {| fs := _; tmpCount := _; log := log w ++ [EvMkdtemp dir] |}).
  assert (H1 : logged P w w1) by (eapply logged_one; [reflexivity | apply Htmp]).
  unfold tryCatch, bind at 1.
  unfold Processor.runFfmpeg at 1, bind at 1, Fs.decode.
  fold (decoderCommand h).
  set (argv := [Lit "-y"] :: _).
  set (w2 := {| fs := _; tmpCount := _;
                log := log w1 ++ [EvDecode (decoderCommand h) argv] |}).
  assert (H2 : logged P w w2).
  { eapply logged_trans; [exact H1|].
    eapply logged_one; [reflexivity | apply Hdec]. }
  assert (Hfail : forall e w3, logged P w w3 ->
            logged P w ((exec FileHandler.cleanupTempDir h dir;
                         throw (A:=list ExtractedFrame.t * string) e) w3).2).
  { intros e w3 H3. unfold bind.
    destruct (cleanupTempDir_logged dir w3 Hrm) as (w4 & -> & H4).
    simpl. eapply logged_trans; eassumption. }
  destruct (decoder h (decoderCommand h) argv (fs w1)).1
    as [[[| |]|] so se|msg]; try (apply Hfail; exact H2).
  unfold ret at 1, bind at 1.
  pose proof (listFiles_world dir ".jpg" w2) as Hl.
  destruct (FileHandler.listFilesWithExtension h dir ".jpg" w2)
    as [[files|e] w3]; simpl in Hl; subst w3; [|apply Hfail; exact H2].
  unfold bind at 1. rewrite readFrames_readExisting.
  destruct (readExistingFrom_spec h
              (default (JS.of_Z 2) (Processor.Options.interval options))
              (Processor.orZero (Processor.Options.startTime options))
              files 0%nat w2) as (r & -> & _).
  destruct r as [frames|e]; [exact H2 | apply Hfail; exact H2].
Qed.

(** Every event a call of the tool adds to the log satisfies [P], when
    [P] holds of the probe, of directory creation and removal, and of
    the decoder run built from the parameters of the input. *)
Lemma tool_logged (input : ExtractFramesInput.t) (w : World) :
  (forall c a, P (EvProbe c a)) ->
  (forall d, P (EvMkdtemp d)) ->
  (forall d, P (EvMkdir d)) ->
  (forall d, P (EvRm d)) ->
  (forall c a, decodesFor input (EvDecode c a) -> P (EvDecode c a)) ->
  logged P w (Tool.extractFrames h input w).2.
Proof.
  intros Hprobe Htmp Hmk Hrm Hdec.
  unfold Tool.extractFrames, bind at 1, gets at 1.
  destruct (Validators.validateExtractFramesOptions h (fs w) _);
    [apply logged_refl|].
  unfold bind at 1, gets at 1.
  destruct (negb (truthyStr _)); [apply logged_refl|].
  set (rp := default "" _).
  pose proof (getVideoInfo_logged rp w Hprobe) as H1.
  unfold tryCatch, bind at 1.
  destruct (Processor.getVideoInfo h rp w) as [[doc|err] w1]; simpl in H1;
    [|exact H1].
  destruct (match ExtractFramesInput.start_time input with
            | Some st => JS.geb st _
            | None => false
            end); [exact H1|].
  unfold bind at 1.
  assert (Hex : exists files,
             (if truthyStr (ExtractFramesInput.output_dir input)
              then Tool.getExistingFrames h
                     (default "" (ExtractFramesInput.output_dir input))
              else ret []) w1 = (Ok files, w1)).
  { destruct (truthyStr _); [apply getExistingFrames_world | now exists []]. }
  destruct Hex as [files ->].
  destruct (truthyStr (ExtractFramesInput.output_dir input)
            && (0 <? length files)%nat).
  - unfold bind at 1, Tool.readExistingFramesFromDisk.
    destruct (readExistingFrom_spec h
                (default (JS.of_Z 2) (ExtractFramesInput.interval input))
                (default (JS.of_Z 0) (ExtractFramesInput.start_time input))
                files 0%nat w1) as (r & -> & _).
    destruct r; exact H1.
  - unfold bind at 1.
    assert (Hen : exists w2,
               (if truthyStr (ExtractFramesInput.output_dir input)
                then FileHandler.ensureDir h
                       (default "" (ExtractFramesInput.output_dir input))
                else ret tt) w1 = (Ok tt, w2) /\ logged P w1 w2).
    { destruct (truthyStr _); [now apply ensureDir_logged|].
      exists w1. split; [reflexivity | apply logged_refl]. }
    destruct Hen as (w2 & -> & H2).
    unfold bind at 1.
    match goal with
    | |- context [Processor.extractFrames h rp ?o w2] =>
        pose proof (processor_logged rp o w2 Htmp Hrm) as H3
    end.
    simpl in H3.
    assert (H13 : logged P w (Processor.extractFrames h rp
               (Processor.Options.mk
                  (Some (default (JS.of_Z 2) (ExtractFramesInput.interval input)))
                  (Some (default (JS.of_Z 30) (ExtractFramesInput.max_frames input)))
                  (Some (default (JS.of_Z 75) (ExtractFramesInput.quality input)))
                  (Some (default (JS.of_Z 800) (ExtractFramesInput.width input)))
                  (ExtractFramesInput.start_time input)
                  (ExtractFramesInput.end_time input)) w2).2).
    { eapply logged_trans; [exact H1|]. eapply logged_trans; [exact H2|].
      apply H3. intros o. apply Hdec. simpl. eauto. }
    destruct (Processor.extractFrames h rp _ w2) as [[[frames tempDir]|e] w3];
      simpl in H13; [|exact H13].
    unfold bind at 1. cbn [fst snd].
    assert (Hcl : exists w4,
               (if negb (truthyStr (ExtractFramesInput.output_dir input))
                then FileHandler.cleanupTempDir h tempDir
                else ret tt) w3 = (Ok tt, w4) /\ logged P w3 w4).
    { destruct (negb _); [now apply cleanupTempDir_logged|].
      exists w3. split; [reflexivity | apply logged_refl]. }
    destruct Hcl as (w4 & -> & H4). simpl.
    eapply logged_trans; eassumption.
Qed.

End Logs.

(* --------------------------------------------------------------------- *)
(** ** The time window handed to the decoder *)
(* --------------------------------------------------------------------- *)

Section Decodes.
Context (h : Host).

(** A run of the processor logs the creation of its directory, then the
    decoder run. *)
Lemma processor_decodes (filePath : string) (options : Processor.Options.t)
      (w : World) :
  exists dir evs,
    log (Processor.extractFrames h filePath options w).2
    = log w
      ++ EvMkdtemp dir
      :: EvDecode (decoderCommand h)
           ([Lit "-y"]
            :: Processor.extractArgs (Validators.normalizePath h filePath)
                 (Path.join dir "frame_%04d.jpg")
                 (default (JS.of_Z 2) (Processor.Options.interval options))
                 (default (JS.of_Z 30) (Processor.Options.maxFrames options))
                 (default (JS.of_Z 75) (Processor.Options.quality options))
                 (default (JS.of_Z 800) (Processor.Options.width options))
                 (Processor.Options.startTime options)
                 (Processor.Options.endTime options))
      :: evs.
Proof.
  unfold Processor.extractFrames, bind at 1.
  unfold FileHandler.createTempDir, Fs.mkdtempSync.
  set (dir := Path.join (tmpdir h) "mcp-video-" +:+ _).
  set (w1 := {| fs := _; tmpCount := _; log := log w ++ [EvMkdtemp dir] |}).
  unfold tryCatch, bind at 1.
  unfold Processor.runFfmpeg at 1, bind at 1, Fs.decode.
  fold (decoderCommand h).
  set (argv := [Lit "-y"] :: _).
  set (w2 := {| fs := _; tmpCount := _;
                log := log w1 ++ [EvDecode (decoderCommand h) argv] |}).
  exists dir.
  assert (H2 : log w2 = log w ++ EvMkdtemp dir
                        :: EvDecode (decoderCommand h) argv :: []).
  { simpl. now rewrite <- app_assoc. }
  assert (Hkeep : forall w3 : World, logged (fun _ => True) w2 w3 ->
            exists evs, log w3 = log w ++ EvMkdtemp dir
                                 :: EvDecode (decoderCommand h) argv :: evs).
  { intros w3 (evs & Hl & _). exists evs. rewrite Hl, H2.
    now rewrite <- app_assoc. }
  assert (Hfail : forall e w3, logged (fun _ => True) w2 w3 ->
            logged (fun _ => True) w2
              ((exec FileHandler.cleanupTempDir h dir;
                throw (A:=list ExtractedFrame.t * string) e) w3).2).
  { intros e w3 H3. unfold bind.
    destruct (cleanupTempDir_logged h (fun _ => True) dir w3 (fun _ => I))
      as (w4 & -> & H4).
    simpl. eapply logged_trans; eassumption. }
  apply Hkeep.
  destruct (decoder h (decoderCommand h) argv (fs w1)).1
    as [[[| |]|] so se|msg]; try (apply Hfail; apply logged_refl).
  unfold ret at 1, bind at 1.
  pose proof (listFiles_world h dir ".jpg" w2) as Hl.
  destruct (FileHandler.listFilesWithExtension h dir ".jpg" w2)
    as [[files|e] w3]; simpl in Hl; subst w3;
    [|apply Hfail; apply logged_refl].
  unfold bind at 1. rewrite readFrames_readExisting.
  destruct (readExistingFrom_spec h
              (default (JS.of_Z 2) (Processor.Options.interval options))
              (Processor.orZero (Processor.Options.startTime options))
              files 0%nat w2) as (r & -> & _).
  destruct r as [frames|e]; [apply logged_refl | apply Hfail; apply logged_refl].
Qed.

(** A valid request without output directory, on a video that probes
    well, reaches the decoder. *)
Lemma tool_reaches_decoder (input : ExtractFramesInput.t) (w : World)
      (rp : string) (doc : FFprobeResult.t) :
  truthyStr (ExtractFramesInput.output_dir input) = false ->
  Validators.validateExtractFramesOptions h (fs w) (Tool.applyDefaults input)
  = None ->
  Validators.resolveVideoPath h (fs w) (ExtractFramesInput.path input)
  = Some rp ->
  rp <> "" ->
  (Processor.getVideoInfo h rp w).1 = Ok doc ->
  (forall st, ExtractFramesInput.start_time input = Some st ->
     JS.geb st (VideoMetadata.duration_seconds
                  (Processor.parseVideoMetadata h rp doc)) = false) ->
  exists c argv, In (EvDecode c argv) (log (Tool.extractFrames h input w).2).
Proof.
  intros Hout Hvalid Hres Hrp Hprobe Hstart.
  unfold Tool.extractFrames, bind at 1, gets at 1. rewrite Hvalid.
  unfold bind at 1, gets at 1.
  change (ExtractFramesInput.path (Tool.applyDefaults input))
    with (ExtractFramesInput.path input).
  rewrite Hres.
  assert (Ht : truthyStr (Some rp) = true).
  { simpl. now destruct (String.eqb_spec rp ""). }
  rewrite Ht. cbn [negb default]. change (id rp) with rp.
  unfold tryCatch, bind at 1.
  destruct (Processor.getVideoInfo h rp w) as [r w1]; simpl in Hprobe.
  subst r.
  assert (Hc : match ExtractFramesInput.start_time input with
               | Some st =>
                   JS.geb st (VideoMetadata.duration_seconds
                                (Processor.parseVideoMetadata h rp doc))
               | None => false
               end = false).
  { destruct (ExtractFramesInput.start_time input); auto. }
  rewrite Hc, Hout. cbn [andb negb].
  unfold bind at 1, ret at 1. unfold bind at 1, ret at 1. unfold bind at 1.
  match goal with
  | |- context [Processor.extractFrames h rp ?o w1] =>
      destruct (processor_decodes rp o w1) as (dir & evs & Hlog)
  end.
  destruct (Processor.extractFrames h rp _ w1) as [[[frames tempDir]|e] w2];
    simpl in Hlog.
  - unfold bind at 1. cbn [fst snd].
    destruct (cleanupTempDir_logged h (fun _ => True) tempDir w2 (fun _ => I))
      as (w3 & -> & (evs' & Hl3 & _)).
    simpl. rewrite Hl3, Hlog. eexists _, _.
    apply in_or_app. left. apply in_or_app. right. right. left. reflexivity.
  - simpl. rewrite Hlog. eexists _, _.
    apply in_or_app. right. right. left. reflexivity.
Qed.

Lemma validation_ignores_end_time (m : gmap string node)
      (input : ExtractFramesInput.t) (endTime : option number) :
  ExtractFramesInput.start_time input = None ->
  Validators.validateExtractFramesOptions h m (Tool.applyDefaults input)
  = Validators.validateExtractFramesOptions h m
      (Tool.applyDefaults (withEndTime endTime input)).
Proof.
  intros Hst.
  unfold Validators.validateExtractFramesOptions, Tool.applyDefaults,
    withEndTime; simpl.
  rewrite Hst.
  repeat match goal with
         | |- context [match ?c with Some _ => _ | None => _ end] =>
             destruct c; try reflexivity
         end.
Qed.

(** C9.  Without [start_time], validation does not look at [end_time]:
    the verdict is the one for the same request without [end_time], so a
    request whose other parameters are valid is accepted with a zero or
    negative [end_time].  Every decoder run the call makes then carries
    that value, as it is, right after [-t] behind the input file; and a
    valid request without output directory on a video that probes well
    does make such a run. *)
Theorem end_time_alone_is_unchecked (input : ExtractFramesInput.t)
        (w : World) (et : number) :
  ExtractFramesInput.start_time input = None ->
  ExtractFramesInput.end_time input = Some et ->
  JS.leb et (JS.of_Z 0) = true ->
  Validators.validateExtractFramesOptions h (fs w)
    (Tool.applyDefaults (withEndTime None input)) = None ->
  Validators.validateExtractFramesOptions h (fs w) (Tool.applyDefaults input)
  = None /\
  (forall c argv,
     In (EvDecode c argv) (log (Tool.extractFrames h input w).2) ->
     In (EvDecode c argv) (log w) \/
     exists normalizedPath rest,
       argv = [Lit "-y"] :: [Lit "-i"] :: [Lit normalizedPath]
              :: [Lit "-t"] :: [Interp et] :: rest) /\
  (forall rp doc,
     truthyStr (ExtractFramesInput.output_dir input) = false ->
     Validators.resolveVideoPath h (fs w) (ExtractFramesInput.path input)
     = Some rp ->
     rp <> "" ->
     (Processor.getVideoInfo h rp w).1 = Ok doc ->
     exists c argv,
       In (EvDecode c argv) (log (Tool.extractFrames h input w).2)).
Proof.
  intros Hst Het Hle Hother.
  assert (Hvalid : Validators.validateExtractFramesOptions h (fs w)
                     (Tool.applyDefaults input) = None).
  { now rewrite (validation_ignores_end_time (fs w) input None Hst). }
  split; [exact Hvalid|]. split.
  - intros c argv Hin.
    destruct (tool_logged h
                (fun e => match e with
                          | EvDecode _ a =>
                              exists normalizedPath rest,
                                a = [Lit "-y"] :: [Lit "-i"]
                                    :: [Lit normalizedPath]
                                    :: [Lit "-t"] :: [Interp et] :: rest
                          | _ => True
                          end) input w) as (evs & Hlog & Hall); auto.
    { intros c' a' (p & o & ->). rewrite Hst, Het. simpl. eauto. }
    rewrite Hlog in Hin. apply in_app_or in Hin as [Hin|Hin]; [now left|].
    right. rewrite Forall_forall in Hall.
    apply (Hall (EvDecode c argv)). now apply list_elem_of_In.
  - intros rp doc Hout Hres Hrp Hprobe.
    apply (tool_reaches_decoder input w rp doc); auto.
    intros st Hs. rewrite Hst in Hs. discriminate Hs.
Qed.

End Decodes.

Lemma end_time_alone_is_unchecked_witness :
  Validators.validateExtractFramesOptions Demo.host (fs Demo.world)
    (Tool.applyDefaults (Demo.openEnded (JS.of_Z (-3)))) = None /\
  exists c argv,
    In (EvDecode c argv)
       (log (Tool.extractFrames Demo.host (Demo.openEnded (JS.of_Z (-3)))
               Demo.world).2).
Proof.
  destruct (end_time_alone_is_unchecked Demo.host
              (Demo.openEnded (JS.of_Z (-3))) Demo.world (JS.of_Z (-3)))
    as (Hvalid & _ & Hruns).
  - reflexivity.
  - reflexivity.
  - reflexivity.
  - vm_compute. reflexivity.
  - split; [exact Hvalid|].
    apply (Hruns "/videos/demo.mp4" Demo.probeDoc).
    + reflexivity.
    + vm_compute. reflexivity.
    + discriminate.
    + vm_compute. reflexivity.
Defined.

(* --------------------------------------------------------------------- *)
(** ** What the resolver and the path check return *)
(* --------------------------------------------------------------------- *)

Section ResolverResults.
Context (h : Host) (m : gmap string node).

Lemma fileExists_nonempty (p : string) :
  Validators.fileExists h m p = true -> p <> "".
Proof.
  intros Hex ->. unfold Validators.fileExists, Fs.existsSync, Fs.lookupPath in Hex.
  simpl in Hex. discriminate Hex.
Qed.

Lemma findWithExtensions_sound (basePath r : string) :
  Validators.findWithExtensions h m basePath = Some r ->
  Validators.fileExists h m r = true /\
  (r = basePath \/
   Path.extname basePath = "" /\
   exists ext, In ext SUPPORTED_VIDEO_FORMATS /\ r = basePath +:+ ext).
Proof.
  unfold Validators.findWithExtensions.
  destruct (Validators.fileExists h m basePath) eqn:Hex.
  - intros [= <-]. auto.
  - destruct (String.eqb_spec
                (Str.toLowerCase (Path.extname basePath)) "") as [He|He];
      [|discriminate].
    apply (proj1 (toLowerCase_empty _)) in He.
    pose proof (probeFormats_first h m basePath SUPPORTED_VIDEO_FORMATS) as Hp.
    destruct (Validators.probeFormats h m basePath SUPPORTED_VIDEO_FORMATS)
      as [r'|]; [|discriminate].
    intros [= ->].
    destruct Hp as (before & ext & after & Heq & -> & Hfile & _).
    split; [exact Hfile|]. right. split; [exact He|].
    exists ext. split; [|reflexivity].
    rewrite Heq. apply in_or_app. right. left. reflexivity.
Qed.

Lemma resolved_is_file (inputPath r : string) :
  Validators.resolveVideoPath h m inputPath = Some r ->
  Validators.fileExists h m r = true /\ r <> "".
Proof.
  rewrite resolve_by_candidate. intros Hr.
  destruct (findWithExtensions_sound _ _ Hr) as [Hex _].
  split; [exact Hex | now apply fileExists_nonempty].
Qed.

(** X1.  Whatever the resolver returns names an existing regular file, and
    is either the candidate itself or, for a candidate without extension,
    the candidate followed by one of the supported extensions. *)
Theorem resolved_path_exists (inputPath r : string) :
  Validators.resolveVideoPath h m inputPath = Some r ->
  r <> "" /\
  Validators.fileExists h m r = true /\
  (r = candidateOf h inputPath \/
   Path.extname (candidateOf h inputPath) = "" /\
   exists ext, In ext SUPPORTED_VIDEO_FORMATS /\
               r = candidateOf h inputPath +:+ ext).
Proof.
  rewrite resolve_by_candidate. intros Hr.
  destruct (findWithExtensions_sound _ _ Hr) as [Hex Hshape].
  split; [now apply fileExists_nonempty|]. auto.
Qed.

Lemma isAbsolute_inv (p : string) :
  Path.isAbsolute p = true <-> exists rest, p = String "/" rest.
Proof.
  unfold Path.isAbsolute, Str.startsWith. split.
  - destruct p as [|c p]; [discriminate|].
    cbn [String.prefix]. destruct (ascii_dec "/" c) as [<-|_]; [|discriminate].
    intros _. now exists p.
  - intros [rest ->]. cbn [String.prefix].
    destruct (ascii_dec "/" "/") as [_|Hn]; [|now destruct Hn].
    now destruct rest.
Qed.

Lemma isAbsolute_app (p ext : string) :
  Path.isAbsolute p = true -> Path.isAbsolute (p +:+ ext) = true.
Proof.
  intros [rest ->]%isAbsolute_inv. apply isAbsolute_inv.
  exists (rest +:+ ext). reflexivity.
Qed.

Lemma normalize_absolute (p : string) :
  Path.isAbsolute p = true -> Path.isAbsolute (Path.normalize p) = true.
Proof.
  intros Habs. unfold Path.normalize.
  destruct (String.eqb_spec p "") as [->|_]; [discriminate Habs|].
  rewrite Habs. cbn [negb].
  destruct (String.eqb (Path.normalizeString p false) ""); [reflexivity|].
  apply isAbsolute_inv. eexists. reflexivity.
Qed.

Lemma join_absolute (a b : string) :
  Path.isAbsolute a = true -> Path.isAbsolute (Path.join a b) = true.
Proof.
  intros Habs. unfold Path.join.
  destruct (String.eqb_spec a "") as [->|_]; [discriminate Habs|].
  destruct (String.eqb b "").
  - now apply normalize_absolute.
  - apply normalize_absolute. now apply isAbsolute_app.
Qed.

Lemma resolve_absolute (p : string) :
  Path.isAbsolute (cwd h) = true ->
  Path.isAbsolute (Path.resolve (cwd h) p) = true.
Proof.
  intros Hcwd. unfold Path.resolve.
  assert (Hfull : Path.isAbsolute
                    (if Path.isAbsolute p then p
                     else if String.eqb p "" then cwd h
                          else cwd h +:+ "/" +:+ p) = true).
  { destruct (Path.isAbsolute p) eqn:E; [exact E|].
    destruct (String.eqb p ""); [exact Hcwd|]. now apply isAbsolute_app. }
  rewrite Hfull. apply isAbsolute_inv. eexists. reflexivity.
Qed.

(** X2.  Resolution is idempotent on its own answers whenever the answer
    is an absolute path; and the answer is absolute for every input when
    the working directory, the home directory and the configured base
    directory are absolute. *)
Theorem resolution_idempotent (inputPath r : string) :
  Validators.resolveVideoPath h m inputPath = Some r ->
  (Path.isAbsolute r = true ->
   Validators.resolveVideoPath h m r = Some r) /\
  (Path.isAbsolute (cwd h) = true ->
   Path.isAbsolute (Validators.homeDir h) = true ->
   (truthyStr (VIDEO_BASE_DIR h) = true ->
    Path.isAbsolute (default "" (VIDEO_BASE_DIR h)) = true) ->
   Path.isAbsolute r = true).
Proof.
  intros Hr.
  destruct (resolved_is_file _ _ Hr) as [Hex _].
  rewrite resolve_by_candidate in Hr.
  destruct (findWithExtensions_sound _ _ Hr) as [_ Hshape].
  split.
  - intros Habs. rewrite resolve_by_candidate.
    unfold candidateOf. rewrite Habs.
    unfold Validators.findWithExtensions. now rewrite Hex.
  - intros Hcwd Hhome Hbase.
    assert (Hcand : Path.isAbsolute (candidateOf h inputPath) = true).
    { unfold candidateOf.
      destruct (Path.isAbsolute inputPath) eqn:E; [exact E|].
      destruct (Str.startsWith inputPath "~"); [now apply join_absolute|].
      destruct (truthyStr (VIDEO_BASE_DIR h)) eqn:Eb.
      - apply join_absolute. now apply Hbase.
      - now apply resolve_absolute. }
    destruct Hshape as [->|(_ & ext & _ & ->)]; [exact Hcand|].
    now apply isAbsolute_app.
Qed.

(** X3.  The path check accepts exactly the non-empty paths that resolve to
    an existing file with a supported extension, compared without regard
    to case; an empty path is [INVALID_PATH], an unresolved one
    [FILE_NOT_FOUND], and a resolved file of another kind
    [UNSUPPORTED_FORMAT] with the lower-cased extension in its details. *)
Theorem path_check_verdicts (filePath : string) :
  match Validators.validateVideoPath h m filePath with
  | None =>
      filePath <> "" /\
      exists r, Validators.resolveVideoPath h m filePath = Some r /\
                r <> "" /\
                Validators.fileExists h m r = true /\
                In (Str.toLowerCase (Path.extname r)) SUPPORTED_VIDEO_FORMATS
  | Some e =>
      (filePath = "" /\ VideoError.code e = INVALID_PATH) \/
      (filePath <> "" /\
       Validators.resolveVideoPath h m filePath = None /\
       VideoError.code e = FILE_NOT_FOUND) \/
      (exists r, Validators.resolveVideoPath h m filePath = Some r /\
                 ~ In (Str.toLowerCase (Path.extname r))
                      SUPPORTED_VIDEO_FORMATS /\
                 VideoError.code e = UNSUPPORTED_FORMAT /\
                 VideoError.details e
                 = Some (ExtensionDetails (Str.toLowerCase (Path.extname r))))
  end.
Proof.
  unfold Validators.validateVideoPath.
  destruct (String.eqb_spec filePath "") as [->|Hne]; [left; auto|].
  destruct (Validators.resolveVideoPath h m filePath) as [r|] eqn:Hr.
  - assert (Hsup : Validators.isSupportedFormat r = true <->
                   In (Str.toLowerCase (Path.extname r))
                      SUPPORTED_VIDEO_FORMATS).
    { unfold Validators.isSupportedFormat. rewrite existsb_exists. split.
      - intros (x & Hin & Hx). apply String.eqb_eq in Hx. now subst.
      - intros Hin. eexists. split; [exact Hin | apply String.eqb_refl]. }
    destruct (Validators.isSupportedFormat r) eqn:Es; simpl.
    + split; [exact Hne|]. exists r.
      destruct (resolved_is_file _ _ Hr) as [Hex Hr0].
      repeat split; auto. now apply Hsup.
    + right. right. exists r. repeat split; auto.
      intros Hin. apply Hsup in Hin. discriminate Hin.
  - right. left. auto.
Qed.

End ResolverResults.

Lemma resolved_path_exists_witness :
  Validators.fileExists Demo.host Demo.disk "/videos/demo.mp4" = true.
Proof.
  apply (resolved_path_exists Demo.host Demo.disk "demo" "/videos/demo.mp4").
  vm_compute. reflexivity.
Defined.

Lemma resolution_idempotent_witness :
  Validators.resolveVideoPath Demo.host Demo.disk "/videos/demo.mp4"
  = Some "/videos/demo.mp4".
Proof.
  apply (resolution_idempotent Demo.host Demo.disk "demo" "/videos/demo.mp4").
  - vm_compute. reflexivity.
  - reflexivity.
Defined.

(* --------------------------------------------------------------------- *)
(** ** Which requests the option check accepts *)
(* --------------------------------------------------------------------- *)

Section Acceptance.
Context (h : Host) (m : gmap string node).

Lemma validateRange_within (field : option number) (lo hi : Q)
      (fieldName : string) :
  Validators.whenDefined field
    (fun v => Validators.validateRange v (Num lo) (Num hi) fieldName) = None
  <-> withinRange field lo hi.
Proof.
  unfold withinRange, Validators.whenDefined. split.
  - destruct field as [v|]; [|discriminate].
    intros Hv v' [= <-]. now apply validateRange_accepts in Hv.
  - destruct field as [v|]; [|reflexivity].
    intros Hin. destruct (Hin v eq_refl) as (q & -> & Hlo & Hhi).
    unfold Validators.validateRange; simpl.
    apply Qle_bool_iff in Hlo, Hhi. now rewrite Hlo, Hhi.
Qed.

(** X4.  The option check accepts a request exactly when its path is
    accepted, each of [interval], [max_frames], [quality] and [width] that
    is present is a finite number within its bounds (fractions included),
    a present [start_time] is not below zero, and, when both are present,
    [end_time] is not at or below [start_time]. *)
Theorem validation_accepts_iff (options : ExtractFramesInput.t) :
  Validators.validateExtractFramesOptions h m options = None
  <->
  Validators.validateVideoPath h m (ExtractFramesInput.path options) = None /\
  withinRange (ExtractFramesInput.interval options) (1 # 10) 60 /\
  withinRange (ExtractFramesInput.max_frames options) 1 500 /\
  withinRange (ExtractFramesInput.quality options) 1 100 /\
  withinRange (ExtractFramesInput.width options) 100 3840 /\
  (forall st, ExtractFramesInput.start_time options = Some st ->
              JS.ltb st (JS.of_Z 0) = false) /\
  (forall st et, ExtractFramesInput.start_time options = Some st ->
                 ExtractFramesInput.end_time options = Some et ->
                 JS.leb et st = false).
Proof.
  rewrite <- (validateRange_within _ (1 # 10) 60 "interval").
  unfold Validators.validateExtractFramesOptions.
  change (JS.of_Z 60) with (Num 60).
  change (JS.of_Z 1) with (Num 1).
  change (JS.of_Z 500) with (Num 500).
  change (JS.of_Z 100) with (Num 100).
  change (JS.of_Z 3840) with (Num 3840).
  rewrite <- (validateRange_within _ 1 500 "max_frames").
  rewrite <- (validateRange_within _ 1 100 "quality").
  rewrite <- (validateRange_within _ 100 3840 "width").
  destruct (Validators.validateVideoPath h m _);
    [split; [discriminate | intros [H _]; discriminate H]|].
  destruct (Validators.whenDefined (ExtractFramesInput.interval options) _);
    [split; [discriminate | intros (_ & H & _); discriminate H]|].
  destruct (Validators.whenDefined (ExtractFramesInput.max_frames options) _);
    [split; [discriminate | intros (_ & _ & H & _); discriminate H]|].
  destruct (Validators.whenDefined (ExtractFramesInput.quality options) _);
    [split; [discriminate | intros (_ & _ & _ & H & _); discriminate H]|].
  destruct (Validators.whenDefined (ExtractFramesInput.width options) _);
    [split; [discriminate | intros (_ & _ & _ & _ & H & _); discriminate H]|].
  destruct (ExtractFramesInput.start_time options) as [st|].
  - destruct (JS.ltb st (JS.of_Z 0)) eqn:Hneg.
    + split; [discriminate|].
      intros (_ & _ & _ & _ & _ & H & _).
      specialize (H st eq_refl). congruence.
    + destruct (ExtractFramesInput.end_time options) as [et|].
      * destruct (JS.leb et st) eqn:Hle.
        -- split; [discriminate|].
           intros (_ & _ & _ & _ & _ & _ & H).
           specialize (H st et eq_refl eq_refl). congruence.
        -- split; [|reflexivity]. intros _.
           repeat split; try reflexivity.
           ++ now intros ? [= <-].
           ++ now intros ? ? [= <-] [= <-].
      * split; [|reflexivity]. intros _.
        repeat split; try reflexivity.
        -- now intros ? [= <-].
        -- intros ? ? _ H. discriminate H.
  - split; [|now destruct (ExtractFramesInput.end_time options)]. intros _.
    repeat split; try reflexivity.
    + intros ? H. discriminate H.
    + intros ? ? H. discriminate H.
Qed.

End Acceptance.

(* --------------------------------------------------------------------- *)
(** ** Removing and creating directories *)
(* --------------------------------------------------------------------- *)

Section Disk.
Context (h : Host).

Lemma under_refl (p : string) : Fs.under p p = true.
Proof. unfold Fs.under. now rewrite String.eqb_refl. Qed.

Lemma unlink_lookup (p k : string) (m : gmap string node) :
  Fs.unlink p m !! k
  = if Fs.under p k then None
    else alter (Fs.removeEntry (Path.basename p)) (Fs.parentOf p) m !! k.
Proof.
  unfold Fs.unlink.
  destruct (Fs.under p k) eqn:Hu.
  - apply map_lookup_filter_None. right. intros x _. simpl. congruence.
  - destruct (alter _ _ m !! k) as [x|] eqn:Hx.
    + apply map_lookup_filter_Some. split; [exact Hx | exact Hu].
    + apply map_lookup_filter_None. now left.
Qed.

Lemma unlink_gone (p : string) (m : gmap string node) :
  Fs.unlink p m !! p = None.
Proof. now rewrite unlink_lookup, under_refl. Qed.

Lemma unlink_elsewhere (p k : string) (m : gmap string node) :
  Fs.under p k = false -> k <> Fs.parentOf p ->
  Fs.unlink p m !! k = m !! k.
Proof.
  intros Hu Hk. rewrite unlink_lookup, Hu.
  now rewrite lookup_alter_ne.
Qed.

Lemma unlink_absent (p k : string) (m : gmap string node) :
  m !! k = None -> Fs.unlink p m !! k = None.
Proof.
  intros Hk. rewrite unlink_lookup.
  destruct (Fs.under p k); [reflexivity|].
  destruct (decide (Fs.parentOf p = k)) as [->|Hne].
  - now rewrite lookup_alter_eq, Hk.
  - now rewrite lookup_alter_ne.
Qed.

Lemma link_present (p k : string) (n : node) (m : gmap string node) :
  is_Some (m !! k) -> is_Some (Fs.link p n m !! k).
Proof.
  intros Hk. unfold Fs.link.
  destruct (decide (p = k)) as [->|Hne].
  - rewrite lookup_insert_eq. eauto.
  - rewrite lookup_insert_ne by exact Hne.
    destruct (decide (Fs.parentOf p = k)) as [->|Hne'].
    + rewrite lookup_alter_eq. destruct Hk as [x ->]. simpl. eauto.
    + now rewrite lookup_alter_ne.
Qed.

Lemma link_here (p : string) (n : node) (m : gmap string node) :
  Fs.link p n m !! p = Some n.
Proof. unfold Fs.link. now rewrite lookup_insert_eq. Qed.

Lemma writeAll_present (files : list (string * string)) (k : string)
      (m : gmap string node) :
  is_Some (m !! k) -> is_Some (Fs.writeAll h files m !! k).
Proof.
  unfold Fs.writeAll. revert m.
  induction files as [|f rest IH]; intros m Hk; [exact Hk|].
  simpl. apply IH. now apply link_present.
Qed.

Lemma existsSync_lookup (m : gmap string node) (p : string) :
  Fs.existsSync h m p = true <-> p <> "" /\ is_Some (m !! Fs.canon h p).
Proof.
  unfold Fs.existsSync, Fs.lookupPath.
  destruct (String.eqb_spec p "") as [->|Hne].
  - split; [discriminate | now intros [[] _]].
  - destruct (m !! Fs.canon h p) as [x|].
    + split; eauto.
    + split; [discriminate | intros [_ [x Hx]]; discriminate Hx].
Qed.

(** What [cleanupTempDir] leaves behind. *)
Lemma cleanupTempDir_run (tempDir : string) (w : World) :
  exists w',
    FileHandler.cleanupTempDir h tempDir w = (Ok tt, w') /\
    tmpCount w' = tmpCount w /\
    (if Fs.existsSync h (fs w) tempDir
     then log w' = log w ++ [EvRm tempDir] /\
          fs w' = Fs.unlink (Fs.canon h tempDir) (fs w)
     else w' = w) /\
    Fs.existsSync h (fs w') tempDir = false.
Proof.
  unfold FileHandler.cleanupTempDir, bind, gets.
  destruct (Fs.existsSync h (fs w) tempDir) eqn:Hex.
  - eexists. split; [reflexivity|]. simpl. repeat split.
    apply not_true_is_false. intros [_ [x Hx]]%existsSync_lookup.
    rewrite unlink_gone in Hx. discriminate Hx.
  - exists w. unfold ret. auto.
Qed.

(** X5.  Cleaning up a directory removes it with everything below it and
    leaves every other path as it was, the listing of its parent apart;
    a directory that does not exist is left alone, without a removal. *)
Theorem cleanup_is_confined (tempDir : string) (w : World) :
  let w' := (FileHandler.cleanupTempDir h tempDir w).2 in
  Fs.existsSync h (fs w') tempDir = false /\
  (forall k, Fs.under (Fs.canon h tempDir) k = true ->
             Fs.existsSync h (fs w) tempDir = true ->
             fs w' !! k = None) /\
  (forall k, Fs.under (Fs.canon h tempDir) k = false ->
             k <> Fs.parentOf (Fs.canon h tempDir) ->
             fs w' !! k = fs w !! k) /\
  (Fs.existsSync h (fs w) tempDir = false -> w' = w) /\
  log w' = log w ++ (if Fs.existsSync h (fs w) tempDir
                     then [EvRm tempDir] else []).
Proof.
  destruct (cleanupTempDir_run tempDir w) as (w' & Hrun & _ & Hcase & Hgone).
  rewrite Hrun. cbn [snd].
  destruct (Fs.existsSync h (fs w) tempDir).
  - destruct Hcase as [Hlog Hfs]. repeat split; auto.
    + intros k Hk _. now rewrite Hfs, unlink_lookup, Hk.
    + intros k Hk Hp. rewrite Hfs. now apply unlink_elsewhere.
    + discriminate.
  - subst w'. repeat split; auto.
    + discriminate.
    + now rewrite app_nil_r.
Qed.

Lemma join_nonempty (a b : string) : Path.join a b <> "".
Proof.
  assert (Hn : forall p, Path.normalize p <> "").
  { intros p. unfold Path.normalize.
    destruct (String.eqb p ""); [discriminate|].
    destruct (String.eqb _ "") eqn:Hb.
    - destruct (Path.isAbsolute p); [discriminate|].
      destruct (Str.endsWith p "/"); discriminate.
    - apply String.eqb_neq in Hb.
      destruct (Path.isAbsolute p); [discriminate|].
      destruct (Str.endsWith p "/"); [|exact Hb].
      destruct (Path.normalizeString p _); [now destruct Hb | discriminate]. }
  unfold Path.join.
  destruct (String.eqb a "").
  - destruct (String.eqb b ""); [discriminate | apply Hn].
  - destruct (String.eqb b ""); apply Hn.
Qed.

Lemma app_nonempty (a b : string) : a <> "" -> a +:+ b <> "".
Proof. destruct a; [congruence | discriminate]. Qed.

(** [createTempDir] makes the directory it names. *)
Lemma createTempDir_run (w : World) :
  exists dir w',
    FileHandler.createTempDir h w = (Ok dir, w') /\
    dir = Path.join (tmpdir h) "mcp-video-" +:+ mkdtempSuffix h (tmpCount w) /\
    dir <> "" /\
    log w' = log w ++ [EvMkdtemp dir] /\
    fs w' !! Fs.canon h dir = Some (Dir []).
Proof.
  unfold FileHandler.createTempDir, Fs.mkdtempSync.
  eexists _, _. split; [reflexivity|]. split; [reflexivity|]. simpl.
  split; [apply app_nonempty, join_nonempty|].
  split; [reflexivity | apply link_here].
Qed.

End Disk.

(* --------------------------------------------------------------------- *)
(** ** The run of [extract_frames], case by case *)
(* --------------------------------------------------------------------- *)

Section ToolCases.
Context (h : Host).

Lemma truthyStr_Some (s : string) : s <> "" -> truthyStr (Some s) = true.
Proof. intros Hs. simpl. now destruct (String.eqb_spec s ""). Qed.

Lemma path_accepted_resolves (m : gmap string node) (filePath : string) :
  Validators.validateVideoPath h m filePath = None ->
  exists r, Validators.resolveVideoPath h m filePath = Some r /\ r <> "".
Proof.
  unfold Validators.validateVideoPath.
  destruct (String.eqb filePath ""); [discriminate|].
  destruct (Validators.resolveVideoPath h m filePath) as [r|] eqn:Hr;
    [|discriminate].
  intros _. exists r. split; [reflexivity|].
  now destruct (resolved_is_file h m _ _ Hr).
Qed.

Lemma options_accepted_resolve (m : gmap string node)
      (options : ExtractFramesInput.t) :
  Validators.validateExtractFramesOptions h m options = None ->
  exists r, Validators.resolveVideoPath h m (ExtractFramesInput.path options)
            = Some r /\ r <> "".
Proof.
  intros Hv. apply path_accepted_resolves.
  unfold Validators.validateExtractFramesOptions in Hv.
  now destruct (Validators.validateVideoPath h m _).
Qed.

(** The run of [extract_frames], case by case. *)
Lemma tool_run (input : ExtractFramesInput.t) (w : World) :
  let interval := default (JS.of_Z 2) (ExtractFramesInput.interval input) in
  let max_frames := default (JS.of_Z 30) (ExtractFramesInput.max_frames input) in
  let quality := default (JS.of_Z 75) (ExtractFramesInput.quality input) in
  let width := default (JS.of_Z 800) (ExtractFramesInput.width input) in
  let start_time := ExtractFramesInput.start_time input in
  let output_dir := ExtractFramesInput.output_dir input in
  let run := Tool.extractFrames h input w in
  match Validators.validateExtractFramesOptions h (fs w)
          (Tool.applyDefaults input) with
  | Some e => run = (Ok (Tool.Failure e), w)
  | None =>
    exists rp,
      Validators.resolveVideoPath h (fs w) (ExtractFramesInput.path input)
      = Some rp /\ rp <> "" /\
    match Processor.getVideoInfo h rp w with
    | (Throw message, w1) =>
        run = (Ok (Tool.Failure (Processor.createFfmpegError message)), w1)
    | (Ok doc, w1) =>
      let metadata := Processor.parseVideoMetadata h rp doc in
      let info n := Tool.ExtractionInfo.mk n interval quality width in
      if match start_time with
         | Some st => JS.geb st (VideoMetadata.duration_seconds metadata)
         | None => false
         end
      then exists e, run = (Ok (Tool.Failure e), w1) /\
                     VideoError.code e = INVALID_PATH
      else
      exists files w2,
        let hit := truthyStr output_dir && (0 <? length files)%nat in
        (if truthyStr output_dir
         then Tool.getExistingFrames h (default "" output_dir) w1
              = (Ok files, w1) /\
              (if hit then w2 = w1
               else FileHandler.ensureDir h (default "" output_dir) w1
                    = (Ok tt, w2))
         else files = [] /\ w2 = w1) /\
        if hit then
          match Tool.readExistingFrom h interval
                  (default (JS.of_Z 0) start_time) 0 files w1 with
          | (Ok frames, _) =>
              run = (Ok (Tool.Success
                           (Tool.ExtractFramesResponse.mk metadata frames
                              (info (length frames)) (Some files) output_dir)),
                     w1)
          | (Throw message, _) =>
              run = (Ok (Tool.Failure (Processor.createFfmpegError message)),
                     w1)
          end
        else
          match Processor.extractFrames h rp
                  (Processor.Options.mk (Some interval) (Some max_frames)
                     (Some quality) (Some width) start_time
                     (ExtractFramesInput.end_time input)) w2 with
          | (Ok (frames, tempDir), w3) =>
              run = (Ok (Tool.Success
                           (Tool.ExtractFramesResponse.mk metadata frames
                              (info (length frames)) None None)),
                     if truthyStr output_dir then w3
                     else (FileHandler.cleanupTempDir h tempDir w3).2)
          | (Throw message, w3) =>
              run = (Ok (Tool.Failure (Processor.createFfmpegError message)),
                     w3)
          end
    end
  end.
Proof.
  intros interval max_frames quality width start_time output_dir run.
  assert (Hrun : run = Tool.extractFrames h input w) by reflexivity.
  clearbody run.
  unfold Tool.extractFrames, bind at 1, gets at 1 in Hrun.
  destruct (Validators.validateExtractFramesOptions h (fs w)
              (Tool.applyDefaults input)) as [e|] eqn:Hvalid; [exact Hrun|].
  destruct (options_accepted_resolve _ _ Hvalid) as (rp & Hres & Hrp).
  change (ExtractFramesInput.path (Tool.applyDefaults input))
    with (ExtractFramesInput.path input) in *.
  exists rp. split; [exact Hres|]. split; [exact Hrp|].
  unfold bind at 1, gets at 1 in Hrun.
  rewrite Hres, (truthyStr_Some rp Hrp) in Hrun.
  cbn [negb default] in Hrun. change (id rp) with rp in Hrun.
  unfold tryCatch, bind at 1 in Hrun.
  destruct (Processor.getVideoInfo h rp w) as [[doc|err] w1].
  2:{ unfold Tool.onError in Hrun. cbn [truthyStr andb] in Hrun. exact Hrun. }
  cbv zeta.
  fold start_time output_dir interval max_frames quality width in Hrun.
  destruct (match start_time with
            | Some st => JS.geb st _
            | None => false
            end).
  { eexists. split; [exact Hrun | reflexivity]. }
  destruct (truthyStr output_dir) eqn:Hout.
  - unfold bind at 1 in Hrun.
    destruct (getExistingFrames_world h (default "" output_dir) w1)
      as [files Hfiles].
    rewrite Hfiles in Hrun. cbn [andb] in Hrun.
    destruct (0 <? length files)%nat eqn:Hpos.
    + exists files, w1. cbn [andb]. rewrite Hpos.
      split; [split; [exact Hfiles | reflexivity]|].
      unfold bind at 1, Tool.readExistingFramesFromDisk in Hrun.
      destruct (readExistingFrom_spec h interval
                  (default (JS.of_Z 0) start_time) files 0%nat w1)
        as (r & Hr & _).
      rewrite Hr in Hrun |- *. destruct r as [frames|err]; [exact Hrun|].
      unfold Tool.onError in Hrun. cbn [truthyStr andb] in Hrun. exact Hrun.
    + unfold bind at 1 in Hrun.
      destruct (ensureDir_logged h (fun _ => True) (default "" output_dir) w1
                  (fun _ => I)) as (w2 & Hen & _).
      rewrite Hen in Hrun. exists files, w2. cbn [andb]. rewrite Hpos.
      split; [split; [exact Hfiles | exact Hen]|].
      unfold bind at 1 in Hrun.
      destruct (Processor.extractFrames h rp _ w2)
        as [[[frames tempDir]|err] w3].
      * unfold bind at 1 in Hrun. cbn [negb fst snd] in Hrun. exact Hrun.
      * unfold Tool.onError in Hrun. cbn [truthyStr andb] in Hrun. exact Hrun.
  - exists [], w1. cbn [andb]. split; [split; reflexivity|].
    unfold bind at 1, ret at 1 in Hrun.
    cbn [length Nat.ltb Nat.leb andb] in Hrun.
    unfold bind at 1, ret at 1 in Hrun. unfold bind at 1 in Hrun.
    destruct (Processor.extractFrames h rp _ w1)
      as [[[frames tempDir]|err] w3].
    + unfold bind at 1 in Hrun. cbn [negb fst snd] in Hrun.
      destruct (cleanupTempDir_logged h (fun _ => True) tempDir w3
                  (fun _ => I)) as (w4 & Hcl & _).
      rewrite Hcl in Hrun |- *. exact Hrun.
    + unfold Tool.onError in Hrun. cbn [truthyStr andb] in Hrun. exact Hrun.
Qed.

End ToolCases.

(* --------------------------------------------------------------------- *)
(** ** Frames, files and timestamps *)
(* --------------------------------------------------------------------- *)

Section FrameTimestamps.
Context (h : Host).




End FrameTimestamps.



(* --------------------------------------------------------------------- *)
(** ** The scratch directory of the processor *)
(* --------------------------------------------------------------------- *)

Section ProcessorRuns.
Context (h : Host).

(** The decoder run of [extractFrames] in a scratch directory [dir]. *)
Lemma processor_run (filePath : string) (options : Processor.Options.t)
      (w : World) :
  exists dir w1 argv,
    FileHandler.createTempDir h w = (Ok dir, w1) /\
    dir <> "" /\
    log w1 = log w ++ [EvMkdtemp dir] /\
    argv = [Lit "-y"]
           :: Processor.extractArgs (Validators.normalizePath h filePath)
                (Path.join dir "frame_%04d.jpg")
                (default (JS.of_Z 2) (Processor.Options.interval options))
                (default (JS.of_Z 30) (Processor.Options.maxFrames options))
                (default (JS.of_Z 75) (Processor.Options.quality options))
                (default (JS.of_Z 800) (Processor.Options.width options))
                (Processor.Options.startTime options)
                (Processor.Options.endTime options) /\
    let w2 := (Fs.decode h (decoderCommand h) argv w1).2 in
    Fs.existsSync h (fs w2) dir = true /\
    match Processor.extractFrames h filePath options w with
    | (Ok (frames, tempDir), w') =>
        tempDir = dir /\ w' = w2 /\
        exists stdout stderr,
          (decoder h (decoderCommand h) argv (fs w1)).1
          = Closed (Some 0) stdout stderr
    | (Throw message, w') =>
        w' = (FileHandler.cleanupTempDir h dir w2).2 /\
        match (decoder h (decoderCommand h) argv (fs w1)).1 with
        | SpawnError m => message = "Failed to run ffmpeg: " +:+ m
        | Closed (Some 0) _ _ => True
        | Closed code _ stderr =>
            message = "ffmpeg exited with code " +:+ Processor.showCode code
                      +:+ ": " +:+ stderr
        end
    end.
Proof.
  destruct (createTempDir_run h w) as (dir & w1 & Hmk & _ & Hdir & Hlog & Hin).
  exists dir, w1. eexists. split; [exact Hmk|]. split; [exact Hdir|].
  split; [exact Hlog|]. split; [reflexivity|].
  set (argv := [Lit "-y"] :: _).
  cbv zeta. split.
  { apply existsSync_lookup. split; [exact Hdir|].
    unfold Fs.decode. cbn [snd fs]. apply writeAll_present.
    rewrite Hin. eauto. }
  unfold Processor.extractFrames, bind at 1. rewrite Hmk.
  unfold tryCatch, bind at 1.
  unfold Processor.runFfmpeg at 1, bind at 1.
  fold (decoderCommand h). fold argv.
  assert (Hfail : forall (e : string) (w3 : World),
            (exec FileHandler.cleanupTempDir h dir;
             throw (A:=list ExtractedFrame.t * string) e) w3
            = (Throw e, (FileHandler.cleanupTempDir h dir w3).2)).
  { intros e w3. unfold bind.
    destruct (cleanupTempDir_run h dir w3) as (w4 & -> & _). reflexivity. }
  unfold Fs.decode at 1. cbn [fst].
  set (w2 := (Fs.decode h (decoderCommand h) argv w1).2).
  change {| fs := Fs.writeAll h (decoder h (decoderCommand h) argv (fs w1)).2
                    (fs w1);
            tmpCount := tmpCount w1;
            log := log w1 ++ [EvDecode (decoderCommand h) argv] |} with w2.
  destruct (decoder h (decoderCommand h) argv (fs w1)).1
    as [[[| |]|] so se|msg];
    try (unfold throw at 1; cbv beta iota; rewrite Hfail; split; reflexivity).
  unfold ret at 1, bind at 1.
  pose proof (listFiles_world h dir ".jpg" w2) as Hl.
  destruct (FileHandler.listFilesWithExtension h dir ".jpg" w2)
    as [[files|e] w3]; simpl in Hl; subst w3;
    [|rewrite Hfail; split; [reflexivity | exact I]].
  unfold bind at 1. rewrite readFrames_readExisting.
  destruct (readExistingFrom_spec h
              (default (JS.of_Z 2) (Processor.Options.interval options))
              (Processor.orZero (Processor.Options.startTime options))
              files 0%nat w2) as (r & -> & _).
  destruct r as [frames|e];
    [|rewrite Hfail; split; [reflexivity | exact I]].
  unfold ret. repeat split; eauto.
Qed.

(** X6.  Where the temporary directory exists, the processor works in one
    fresh directory below it.  When it returns, it hands that directory
    back, still existing, after exactly one decoder run that closed with
    code 0; when it throws, the directory is gone, and a decoder that
    could not be started or closed with another code is reported with its
    message or its code and error output. *)
Theorem processor_scratch_directory (filePath : string)
        (options : Processor.Options.t) (w : World) :
  Fs.existsSync h (fs w) (tmpdir h) = true ->
  exists dir c argv,
    match Processor.extractFrames h filePath options w with
    | (Ok (frames, tempDir), w') =>
        tempDir = dir /\
        Fs.existsSync h (fs w') dir = true /\
        log w' = log w ++ [EvMkdtemp dir; EvDecode c argv] /\
        exists stdout stderr,
          (decoder h c argv (fs (FileHandler.createTempDir h w).2)).1
          = Closed (Some 0) stdout stderr
    | (Throw message, w') =>
        Fs.existsSync h (fs w') dir = false /\
        log w' = log w ++ [EvMkdtemp dir; EvDecode c argv; EvRm dir] /\
        match (decoder h c argv (fs (FileHandler.createTempDir h w).2)).1 with
        | SpawnError m => message = "Failed to run ffmpeg: " +:+ m
        | Closed (Some 0) _ _ => True
        | Closed code _ stderr =>
            message = "ffmpeg exited with code " +:+ Processor.showCode code
                      +:+ ": " +:+ stderr
        end
    end.
Proof.
  intros _.
  destruct (processor_run filePath options w)
    as (dir & w1 & argv & Hmk & Hdir & Hlog1 & _ & Hex & Hrun).
  cbv zeta in Hex, Hrun.
  exists dir, (decoderCommand h), argv. rewrite Hmk. cbn [snd].
  set (w2 := (Fs.decode h (decoderCommand h) argv w1).2) in *.
  assert (Hlog2 : log w2
                  = log w ++ [EvMkdtemp dir; EvDecode (decoderCommand h) argv]).
  { subst w2. unfold Fs.decode. cbn [snd log]. rewrite Hlog1.
    now rewrite <- app_assoc. }
  destruct (Processor.extractFrames h filePath options w)
    as [[[frames tempDir]|message] w'].
  - destruct Hrun as (-> & -> & Hclosed). auto.
  - destruct Hrun as [-> Hmsg].
    destruct (cleanupTempDir_run h dir w2) as (w3 & Hcl & _ & Hcase & Hgone).
    rewrite Hcl. cbn [snd]. rewrite Hex in Hcase. destruct Hcase as [Hl _].
    split; [exact Hgone|]. split; [|exact Hmsg].
    rewrite Hl, Hlog2, <- app_assoc. reflexivity.
Qed.

End ProcessorRuns.

Lemma processor_scratch_directory_witness :
  exists dir c argv,
    match Processor.extractFrames Cases.truncated "/videos/demo.mp4"
            (Processor.Options.mk None None None None None None)
            Demo.world with
    | (Ok (frames, tempDir), w') =>
        tempDir = dir /\
        Fs.existsSync Cases.truncated (fs w') dir = true /\
        log w' = log Demo.world ++ [EvMkdtemp dir; EvDecode c argv] /\
        exists stdout stderr,
          (decoder Cases.truncated c argv
             (fs (FileHandler.createTempDir Cases.truncated Demo.world).2)).1
          = Closed (Some 0) stdout stderr
    | (Throw message, w') =>
        Fs.existsSync Cases.truncated (fs w') dir = false /\
        log w' = log Demo.world ++ [EvMkdtemp dir; EvDecode c argv; EvRm dir]
        /\
        match (decoder Cases.truncated c argv
                 (fs (FileHandler.createTempDir Cases.truncated
                        Demo.world).2)).1 with
        | SpawnError m => message = "Failed to run ffmpeg: " +:+ m
        | Closed (Some 0) _ _ => True
        | Closed code _ stderr =>
            message = "ffmpeg exited with code " +:+ Processor.showCode code
                      +:+ ": " +:+ stderr
        end
    end.
Proof.
  apply (processor_scratch_directory Cases.truncated "/videos/demo.mp4"
           (Processor.Options.mk None None None None None None) Demo.world).
  reflexivity.
Defined.

(* --------------------------------------------------------------------- *)
(** ** Traces and failures of [extract_frames] *)
(* --------------------------------------------------------------------- *)

Section ToolTraces.
Context (h : Host).


Lemma probe_run (filePath : string) (w : World) :
  exists r w1 c a,
    Processor.getVideoInfo h filePath w = (r, w1) /\
    fs w1 = fs w /\ tmpCount w1 = tmpCount w /\
    log w1 = log w ++ [EvProbe c a].
Proof.
  destruct (getVideoInfo_world h filePath w) as (Hfs & Htmp & c & a & Hlog).
  unfold probed in *.
  destruct (Processor.getVideoInfo h filePath w) as [r w1].
  exists r, w1, c, a. auto.
Qed.

(** X7.  Where the temporary directory exists, a call without output
    directory adds to the event log nothing, or one probe, or one probe
    followed by the creation of one scratch directory, one decoder run and
    the removal of that directory; the scratch directory never outlives
    the call, and a call that stops before the decoder leaves the file
    system as it was. *)
Theorem ephemeral_call_trace (input : ExtractFramesInput.t) (w : World) :
  Fs.existsSync h (fs w) (tmpdir h) = true ->
  truthyStr (ExtractFramesInput.output_dir input) = false ->
  let w' := (Tool.extractFrames h input w).2 in
  (log w' = log w /\ fs w' = fs w) \/
  (exists c a, log w' = log w ++ [EvProbe c a] /\ fs w' = fs w) \/
  (exists c a dir c' a',
     log w' = log w ++ [EvProbe c a; EvMkdtemp dir; EvDecode c' a'; EvRm dir]
     /\ Fs.existsSync h (fs w') dir = false).
Proof.
  intros _ Hout. pose proof (tool_run h input w) as Hrun. cbv zeta in Hrun.
  cbv zeta.
  destruct (Validators.validateExtractFramesOptions h (fs w) _) as [e|].
  { rewrite Hrun. left. auto. }
  destruct Hrun as (rp & _ & _ & Hrun).
  destruct (probe_run rp w) as (r & w1 & c & a & Hp & Hfs & _ & Hlog).
  rewrite Hp in Hrun.
  destruct r as [doc|message].
  2:{ rewrite Hrun. right. left. exists c, a. auto. }
  destruct (match ExtractFramesInput.start_time input with
            | Some st => JS.geb st _
            | None => false
            end).
  { destruct Hrun as (e & -> & _). right. left. exists c, a. auto. }
  destruct Hrun as (files & w2 & Hpre & Hrun).
  rewrite Hout in Hpre, Hrun. cbn [andb] in Hrun.
  destruct Hpre as [_ ->].
  match type of Hrun with
  | context [Processor.extractFrames h rp ?o w1] =>
      destruct (processor_run h rp o w1)
        as (dir & w1' & argv & _ & _ & Hlog1 & _ & Hex & Hproc)
  end.
  cbv zeta in Hex, Hproc.
  set (w2 := (Fs.decode h (decoderCommand h) argv w1').2) in *.
  assert (Hlog2 : log w2 = log w ++ [EvProbe c a; EvMkdtemp dir;
                                     EvDecode (decoderCommand h) argv]).
  { subst w2. unfold Fs.decode. cbn [snd log]. rewrite Hlog1, Hlog.
    now rewrite <- !app_assoc. }
  destruct (cleanupTempDir_run h dir w2) as (w3 & Hcl & _ & Hcase & Hgone).
  rewrite Hex in Hcase. destruct Hcase as [Hl3 _].
  assert (Hend : log w3 = log w ++ [EvProbe c a; EvMkdtemp dir;
                                    EvDecode (decoderCommand h) argv;
                                    EvRm dir]).
  { rewrite Hl3, Hlog2, <- app_assoc. reflexivity. }
  right. right. exists c, a, dir, (decoderCommand h), argv.
  destruct (Processor.extractFrames h rp _ w1)
    as [[[frames tempDir]|message] w4].
  - destruct Hproc as (-> & -> & _). rewrite Hrun, Hcl. cbn [snd]. auto.
  - destruct Hproc as [-> _]. rewrite Hrun, Hcl. cbn [snd]. auto.
Qed.

Lemma path_error_code (m : gmap string node) (filePath : string)
      (e : VideoError.t) :
  Validators.validateVideoPath h m filePath = Some e ->
  match VideoError.code e with
  | INVALID_PATH | UNSUPPORTED_FORMAT => True
  | FILE_NOT_FOUND =>
      VideoError.message e = [Lit "Video not found: "; Lit filePath]
  | _ => False
  end.
Proof.
  unfold Validators.validateVideoPath.
  destruct (String.eqb filePath ""); [now intros [= <-]|].
  destruct (Validators.resolveVideoPath h m filePath) as [r|];
    [|now intros [= <-]].
  destruct (negb (Validators.isSupportedFormat r)); [|discriminate].
  now intros [= <-].
Qed.

Lemma createFfmpegError_code (message : string) :
  VideoError.code (Processor.createFfmpegError message) = FFMPEG_NOT_FOUND \/
  VideoError.code (Processor.createFfmpegError message) = FFMPEG_ERROR.
Proof.
  unfold Processor.createFfmpegError.
  destruct (_ || _); auto.
Qed.

(** X8.  A failure of the tool is the error of the option check, with the
    world untouched; or the rejection of a [start_time] at or after the
    duration, coded [INVALID_PATH]; or the classification of a message
    thrown while probing, reading or decoding.  So the code is never
    [TRANSCRIPTION_ERROR], [TIMEOUT] or [UNKNOWN_ERROR], and a
    [FILE_NOT_FOUND] failure is always the one of the path check: the
    tool's own answer for an unresolved path is never given. *)
Theorem tool_failure_kinds (input : ExtractFramesInput.t) (w w' : World)
        (e : VideoError.t) :
  Tool.extractFrames h input w = (Ok (Tool.Failure e), w') ->
  ((Validators.validateExtractFramesOptions h (fs w)
      (Tool.applyDefaults input) = Some e /\ w' = w) \/
   (Validators.validateExtractFramesOptions h (fs w)
      (Tool.applyDefaults input) = None /\
    ((VideoError.code e = INVALID_PATH /\
      exists st, ExtractFramesInput.start_time input = Some st) \/
     exists message, e = Processor.createFfmpegError message))) /\
  match VideoError.code e with
  | FILE_NOT_FOUND =>
      VideoError.message e
      = [Lit "Video not found: "; Lit (ExtractFramesInput.path input)] /\
      w' = w
  | TRANSCRIPTION_ERROR | TIMEOUT | UNKNOWN_ERROR => False
  | _ => True
  end.
Proof.
  intros Hres.
  assert (Hkinds :
    (Validators.validateExtractFramesOptions h (fs w)
       (Tool.applyDefaults input) = Some e /\ w' = w) \/
    (Validators.validateExtractFramesOptions h (fs w)
       (Tool.applyDefaults input) = None /\
     ((VideoError.code e = INVALID_PATH /\
       exists st, ExtractFramesInput.start_time input = Some st) \/
      exists message, e = Processor.createFfmpegError message))).
  { pose proof (tool_run h input w) as Hrun. cbv zeta in Hrun.
    rewrite Hres in Hrun.
    destruct (Validators.validateExtractFramesOptions h (fs w) _) as [e'|].
    { injection Hrun as -> ->. left. auto. }
    right. split; [reflexivity|].
    destruct Hrun as (rp & _ & _ & Hrun).
    destruct (Processor.getVideoInfo h rp w) as [[doc|message] w1].
    2:{ injection Hrun as -> _. eauto. }
    destruct (ExtractFramesInput.start_time input) as [st|] eqn:Hst.
    - destruct (JS.geb st _).
      { destruct Hrun as (e' & [= -> _] & Hcode). left. eauto. }
      right. destruct Hrun as (files & w2 & _ & Hrun).
      destruct (_ && _).
      + destruct (Tool.readExistingFrom h _ _ 0 files w1) as [[fr|msg] w3];
          [discriminate Hrun | injection Hrun as -> _; eauto].
      + destruct (Processor.extractFrames h rp _ w2) as [[[fr td]|msg] w3];
          [discriminate Hrun | injection Hrun as -> _; eauto].
    - right. destruct Hrun as (files & w2 & _ & Hrun).
      destruct (_ && _).
      + destruct (Tool.readExistingFrom h _ _ 0 files w1) as [[fr|msg] w3];
          [discriminate Hrun | injection Hrun as -> _; eauto].
      + destruct (Processor.extractFrames h rp _ w2) as [[[fr td]|msg] w3];
          [discriminate Hrun | injection Hrun as -> _; eauto]. }
  split; [exact Hkinds|].
  destruct Hkinds as [[Hv ->]|[_ [[-> _]|[message ->]]]].
  - rewrite validate_is_firstError in Hv. apply firstError_In in Hv.
    unfold checksInOrder in Hv. destruct Hv as [Hv|Hv].
    + apply path_error_code in Hv. simpl in Hv.
      destruct (VideoError.code e); auto.
    + apply (parameter_checks_code h (fs w) (Tool.applyDefaults input)) in Hv.
      now rewrite Hv.
  - exact I.
  - destruct (createFfmpegError_code message) as [-> | ->]; exact I.
Qed.

(** X9.  A [start_time] at or after the duration of the video is refused
    with an [INVALID_PATH] error once the probe has run, before the output
    directory is looked at: the call logs the probe and nothing else, and
    leaves the file system as it was, cached frames or not. *)
Theorem late_start_is_rejected (input : ExtractFramesInput.t) (w : World)
        (rp : string) (doc : FFprobeResult.t) (st : number) :
  Validators.validateExtractFramesOptions h (fs w) (Tool.applyDefaults input)
  = None ->
  Validators.resolveVideoPath h (fs w) (ExtractFramesInput.path input)
  = Some rp ->
  (Processor.getVideoInfo h rp w).1 = Ok doc ->
  ExtractFramesInput.start_time input = Some st ->
  JS.geb st (VideoMetadata.duration_seconds
               (Processor.parseVideoMetadata h rp doc)) = true ->
  exists e w' c a,
    Tool.extractFrames h input w = (Ok (Tool.Failure e), w') /\
    VideoError.code e = INVALID_PATH /\
    fs w' = fs w /\
    log w' = log w ++ [EvProbe c a].
Proof.
  intros Hvalid Hres Hprobe Hst Hlate.
  pose proof (tool_run h input w) as Hrun. cbv zeta in Hrun.
  rewrite Hvalid in Hrun. destruct Hrun as (rp' & Hres' & _ & Hrun).
  rewrite Hres in Hres'. injection Hres' as <-.
  destruct (probe_run rp w) as (r & w1 & c & a & Hp & Hfs & _ & Hlog).
  rewrite Hp in Hrun, Hprobe. cbn [fst] in Hprobe. subst r.
  rewrite Hst, Hlate in Hrun. destruct Hrun as (e & Hrun & Hcode).
  exists e, w1, c, a. auto.
Qed.


(** X22.  A successful answer reports the parameters in effect: the
    interval, quality and width of the request, or their defaults 2, 75
    and 800, and the number of frames it carries; without output
    directory it names neither frame paths nor an output directory. *)
Theorem success_reports_parameters (input : ExtractFramesInput.t)
        (w w' : World) (resp : Tool.ExtractFramesResponse.t) :
  Tool.extractFrames h input w = (Ok (Tool.Success resp), w') ->
  Tool.ExtractFramesResponse.extraction_info resp
  = Tool.ExtractionInfo.mk
      (length (Tool.ExtractFramesResponse.frames resp))
      (default (JS.of_Z 2) (ExtractFramesInput.interval input))
      (default (JS.of_Z 75) (ExtractFramesInput.quality input))
      (default (JS.of_Z 800) (ExtractFramesInput.width input)) /\
  (truthyStr (ExtractFramesInput.output_dir input) = false ->
   Tool.ExtractFramesResponse.frame_paths resp = None /\
   Tool.ExtractFramesResponse.output_directory resp = None).
Proof.
  intros Hres.
  pose proof (tool_run h input w) as Hrun. cbv zeta in Hrun.
  rewrite Hres in Hrun.
  destruct (Validators.validateExtractFramesOptions h (fs w) _) as [e|];
    [discriminate Hrun|].
  destruct Hrun as (rp & _ & _ & Hrun).
  destruct (Processor.getVideoInfo h rp w) as [[doc|message] w1];
    [|discriminate Hrun].
  destruct (match ExtractFramesInput.start_time input with
            | Some st => JS.geb st _
            | None => false
            end).
  { destruct Hrun as (e & He & _). discriminate He. }
  destruct Hrun as (files & w2 & _ & Hrun).
  destruct (truthyStr (ExtractFramesInput.output_dir input)) eqn:Hout;
    cbn [andb] in Hrun.
  - destruct (0 <? length files)%nat.
    + destruct (Tool.readExistingFrom h _ _ 0 files w1) as [[fr|msg] w3];
        [|discriminate Hrun].
      injection Hrun as -> _. split; [reflexivity | discriminate].
    + destruct (Processor.extractFrames h rp _ w2) as [[[fr td]|msg] w3];
        [|discriminate Hrun].
      injection Hrun as -> _. split; [reflexivity | discriminate].
  - destruct (Processor.extractFrames h rp _ w2) as [[[fr td]|msg] w3];
      [|discriminate Hrun].
    injection Hrun as -> _. split; [reflexivity | auto].
Qed.

End ToolTraces.

Lemma ephemeral_call_trace_witness :
  exists c a dir c' a',
    log (Tool.extractFrames Demo.host (Demo.request None) Demo.world).2
    = [EvProbe c a; EvMkdtemp dir; EvDecode c' a'; EvRm dir] /\
    Fs.existsSync Demo.host
      (fs (Tool.extractFrames Demo.host (Demo.request None) Demo.world).2) dir
    = false.
Proof.
  destruct (ephemeral_call_trace Demo.host (Demo.request None) Demo.world)
    as [[Hl _]|[(c & a & Hl & _)|(c & a & dir & c' & a' & Hl & Hgone)]].
  - reflexivity.
  - reflexivity.
  - vm_compute in Hl. discriminate Hl.
  - vm_compute in Hl. discriminate Hl.
  - exists c, a, dir, c', a'. split; [exact Hl | exact Hgone].
Defined.

Lemma tool_failure_kinds_witness :
  exists e w',
    Tool.extractFrames Demo.host Cases.lateStart Demo.world
    = (Ok (Tool.Failure e), w') /\
    VideoError.code e = INVALID_PATH.
Proof.
  eexists _, _. split; [vm_compute; reflexivity|].
  match goal with
  | |- VideoError.code ?e = _ =>
      destruct (tool_failure_kinds Demo.host Cases.lateStart Demo.world
                  (probed Demo.host "/videos/demo.mp4" Demo.world) e)
        as [[[Hv _]|[_ [[Hc _]|[m Hm]]]] _]
  end.
  - vm_compute. reflexivity.
  - vm_compute in Hv. discriminate Hv.
  - exact Hc.
  - reflexivity.
Defined.

Lemma late_start_is_rejected_witness :
  exists e w' c a,
    Tool.extractFrames Demo.host Cases.lateStart Demo.world
    = (Ok (Tool.Failure e), w') /\
    VideoError.code e = INVALID_PATH /\
    fs w' = fs Demo.world /\
    log w' = log Demo.world ++ [EvProbe c a].
Proof.
  apply (late_start_is_rejected Demo.host Cases.lateStart Demo.world
           "/videos/demo.mp4" Demo.probeDoc (JS.of_Z 100));
    vm_compute; reflexivity.
Defined.


Lemma success_reports_parameters_witness :
  exists resp w',
    Tool.extractFrames Demo.host (Demo.request None) Demo.world
    = (Ok (Tool.Success resp), w') /\
    Tool.ExtractFramesResponse.extraction_info resp
    = Tool.ExtractionInfo.mk
        (length (Tool.ExtractFramesResponse.frames resp))
        (JS.of_Z 2) (JS.of_Z 75) (JS.of_Z 800).
Proof.
  destruct (Tool.extractFrames Demo.host (Demo.request None) Demo.world)
    as [[[resp|e]|m] w'] eqn:Hrun.
  - exists resp, w'. split; [reflexivity|].
    exact (proj1 (success_reports_parameters Demo.host (Demo.request None)
                    Demo.world w' resp Hrun)).
  - vm_compute in Hrun. discriminate Hrun.
  - vm_compute in Hrun. discriminate Hrun.
Defined.

(* --------------------------------------------------------------------- *)
(** ** [get_video_info] and the single frame *)
(* --------------------------------------------------------------------- *)

Section InfoRuns.
Context (h : Host).

(** The run of [get_video_info], case by case. *)
Lemma info_run (input : GetVideoInfoInput.t) (w : World) :
  let run := InfoTool.getVideoInfo h input w in
  match Validators.validateVideoPath h (fs w) (GetVideoInfoInput.path input)
  with
  | Some e => run = (Ok (InfoTool.Failure e), w)
  | None =>
    exists rp,
      Validators.resolveVideoPath h (fs w) (GetVideoInfoInput.path input)
      = Some rp /\ rp <> "" /\
      match Processor.getVideoInfo h rp w with
      | (Ok doc, w1) =>
          run = (Ok (InfoTool.Success
                       (Processor.parseVideoMetadata h rp doc)), w1)
      | (Throw message, w1) =>
          run = (Ok (InfoTool.Failure
                       (Processor.createFfmpegError message)), w1)
      end
  end.
Proof.
  intros run.
  assert (Hrun : run = InfoTool.getVideoInfo h input w) by reflexivity.
  clearbody run.
  unfold InfoTool.getVideoInfo, bind at 1, gets at 1 in Hrun.
  destruct (Validators.validateVideoPath h (fs w) _) as [e|] eqn:Hvalid;
    [exact Hrun|].
  destruct (path_accepted_resolves h _ _ Hvalid) as (rp & Hres & Hrp).
  exists rp. split; [exact Hres|]. split; [exact Hrp|].
  unfold bind at 1, gets at 1 in Hrun.
  rewrite Hres, (truthyStr_Some rp Hrp) in Hrun.
  cbn [negb default] in Hrun. change (id rp) with rp in Hrun.
  unfold tryCatch, bind at 1 in Hrun.
  destruct (Processor.getVideoInfo h rp w) as [[doc|message] w1]; exact Hrun.
Qed.

(** X11.  [get_video_info] always answers and only reads: the file system
    is left as it was, the event log gains at most one probe and never a
    decoder run, and a request the path check refuses is answered with
    that error without running anything; any other failure is the
    classification of a message thrown by the probe. *)
Theorem info_tool_only_reads (input : GetVideoInfoInput.t) (w : World) :
  exists res w',
    InfoTool.getVideoInfo h input w = (Ok res, w') /\
    fs w' = fs w /\
    tmpCount w' = tmpCount w /\
    (w' = w \/ exists c a, log w' = log w ++ [EvProbe c a]) /\
    (forall e,
       Validators.validateVideoPath h (fs w) (GetVideoInfoInput.path input)
       = Some e ->
       res = InfoTool.Failure e /\ w' = w) /\
    (forall e, res = InfoTool.Failure e ->
       Validators.validateVideoPath h (fs w) (GetVideoInfoInput.path input)
       = Some e \/
       exists message, e = Processor.createFfmpegError message).
Proof.
  pose proof (info_run input w) as Hrun. cbv zeta in Hrun.
  destruct (Validators.validateVideoPath h (fs w) _) as [e|].
  { eexists _, w. split; [exact Hrun|].
    do 3 (split; [auto|]). split.
    - now intros e' [= <-].
    - intros e' [= <-]. now left. }
  destruct Hrun as (rp & _ & _ & Hrun).
  destruct (probe_run h rp w) as (r & w1 & c & a & Hp & Hfs & Htmp & Hlog).
  rewrite Hp in Hrun.
  destruct r as [doc|message]; eexists _, w1;
    (split; [exact Hrun|]); (do 3 (split; [eauto|])); split;
    try (intros e He; discriminate He).
  intros e [= <-]. eauto.
Qed.

(** X12.  When [extract_frames] succeeds, [get_video_info] on the same
    path in the same world succeeds as well, with the very metadata the
    extraction reported. *)
Theorem tools_agree_on_metadata (input : ExtractFramesInput.t) (w w' : World)
        (resp : Tool.ExtractFramesResponse.t) :
  Tool.extractFrames h input w = (Ok (Tool.Success resp), w') ->
  (InfoTool.getVideoInfo h
     (GetVideoInfoInput.mk (ExtractFramesInput.path input)) w).1
  = Ok (InfoTool.Success (Tool.ExtractFramesResponse.metadata resp)).
Proof.
  intros Hres.
  pose proof (tool_run h input w) as Hrun. cbv zeta in Hrun.
  rewrite Hres in Hrun.
  pose proof (info_run (GetVideoInfoInput.mk (ExtractFramesInput.path input)) w)
    as Hinfo.
  cbv zeta in Hinfo. cbn [GetVideoInfoInput.path] in Hinfo.
  destruct (Validators.validateExtractFramesOptions h (fs w) _) as [e|] eqn:Hv;
    [discriminate Hrun|].
  assert (Hp : Validators.validateVideoPath h (fs w)
                 (ExtractFramesInput.path input) = None).
  { unfold Validators.validateExtractFramesOptions in Hv.
    change (ExtractFramesInput.path (Tool.applyDefaults input))
      with (ExtractFramesInput.path input) in Hv.
    now destruct (Validators.validateVideoPath h (fs w) _). }
  rewrite Hp in Hinfo.
  destruct Hrun as (rp & Hr & _ & Hrun).
  destruct Hinfo as (rp' & Hr' & _ & Hinfo).
  rewrite Hr in Hr'. injection Hr' as <-.
  destruct (Processor.getVideoInfo h rp w) as [[doc|message] w1];
    [|discriminate Hrun].
  rewrite Hinfo. cbn [fst]. do 2 f_equal.
  destruct (match ExtractFramesInput.start_time input with
            | Some st => JS.geb st _
            | None => false
            end).
  { destruct Hrun as (e & He & _). discriminate He. }
  destruct Hrun as (files & w2 & _ & Hrun).
  destruct (_ && _).
  - destruct (Tool.readExistingFrom h _ _ 0 files w1) as [[fr|msg] w3];
      [|discriminate Hrun].
    now injection Hrun as -> _.
  - destruct (Processor.extractFrames h rp _ w2) as [[[fr td]|msg] w3];
      [|discriminate Hrun].
    now injection Hrun as -> _.
Qed.

(** X13.  Where the temporary directory exists, [extractFrameAtTime]
    makes one scratch directory and runs the decoder once; the directory
    is removed before it returns or throws.
    A returned frame has index 0 and carries the requested time unchanged;
    a decoder that closes with code 0 without writing the output file
    gives the error [Failed to extract frame - output file not created]. *)
Theorem single_frame_run (filePath : string) (timestamp : number)
        (quality width : option number) (w : World) :
  Fs.existsSync h (fs w) (tmpdir h) = true ->
  exists dir c argv,
    let run := Processor.extractFrameAtTime h filePath timestamp quality width
                 w in
    let w1 := (FileHandler.createTempDir h w).2 in
    let w2 := (Fs.decode h c argv w1).2 in
    log run.2 = log w ++ [EvMkdtemp dir; EvDecode c argv; EvRm dir] /\
    Fs.existsSync h (fs run.2) dir = false /\
    last argv = Some [Lit (Path.join dir "frame.jpg")] /\
    match run.1 with
    | Ok frame =>
        ExtractedFrame.index frame = 0%nat /\
        ExtractedFrame.timestamp_seconds frame = timestamp /\
        ExtractedFrame.timestamp frame = formatDuration timestamp /\
        exists content,
          Fs.readFile h (fs w2) (Path.join dir "frame.jpg") = Ok content /\
          ExtractedFrame.image frame
          = Global.base64 (Global.bytesOf content)
    | Throw message =>
        forall stdout stderr,
          (decoder h c argv (fs w1)).1 = Closed (Some 0) stdout stderr ->
          Fs.existsSync h (fs w2) (Path.join dir "frame.jpg") = false ->
          message = "Failed to extract frame - output file not created"
    end.
Proof.
  intros _.
  destruct (createTempDir_run h w) as (dir & w1 & Hmk & _ & Hdir & Hlog1 & Hin).
  exists dir, (decoderCommand h).
  exists ([Lit "-y"]
          :: Processor.frameAtTimeArgs (Validators.normalizePath h filePath)
               (Path.join dir "frame.jpg") timestamp
               (default (JS.of_Z 85) quality) (default (JS.of_Z 1280) width)).
  set (argv := [Lit "-y"] :: _).
  cbv zeta. rewrite Hmk. cbn [snd].
  set (w2 := (Fs.decode h (decoderCommand h) argv w1).2).
  assert (Hlog2 : log w2
                  = log w ++ [EvMkdtemp dir; EvDecode (decoderCommand h) argv]).
  { subst w2. unfold Fs.decode. cbn [snd log]. rewrite Hlog1.
    now rewrite <- app_assoc. }
  assert (Hex : Fs.existsSync h (fs w2) dir = true).
  { apply existsSync_lookup. split; [exact Hdir|].
    subst w2. unfold Fs.decode. cbn [snd fs]. apply writeAll_present.
    rewrite Hin. eauto. }
  destruct (cleanupTempDir_run h dir w2) as (w3 & Hcl & _ & Hcase & Hgone).
  rewrite Hex in Hcase. destruct Hcase as [Hl3 _].
  assert (Hend : log w3 = log w ++ [EvMkdtemp dir;
                                    EvDecode (decoderCommand h) argv;
                                    EvRm dir]).
  { rewrite Hl3, Hlog2, <- app_assoc. reflexivity. }
  assert (Hfail : forall e : string,
            (exec FileHandler.cleanupTempDir h dir;
             throw (A:=ExtractedFrame.t) e) w2 = (Throw e, w3)).
  { intros e. unfold bind. now rewrite Hcl. }
  assert (Hrun :
    Processor.extractFrameAtTime h filePath timestamp quality width w
    = (match (decoder h (decoderCommand h) argv (fs w1)).1 with
       | Closed (Some 0) _ _ =>
           if Fs.existsSync h (fs w2) (Path.join dir "frame.jpg") then
             match Fs.readFile h (fs w2) (Path.join dir "frame.jpg") with
             | Ok content =>
                 Ok (ExtractedFrame.mk 0 (formatDuration timestamp) timestamp
                       (Global.base64 (Global.bytesOf content)) "image/jpeg")
             | Throw e => Throw e
             end
           else Throw "Failed to extract frame - output file not created"
       | Closed code _ stderr =>
           Throw ("ffmpeg exited with code " +:+ Processor.showCode code
                  +:+ ": " +:+ stderr)
       | SpawnError m => Throw ("Failed to run ffmpeg: " +:+ m)
       end, w3)).
  { unfold Processor.extractFrameAtTime, bind at 1. rewrite Hmk.
    unfold tryCatch, bind at 1.
    unfold Processor.runFfmpeg at 1, bind at 1.
    fold (decoderCommand h). fold argv.
    unfold Fs.decode at 1. cbn [fst].
    change {| fs := Fs.writeAll h
                      (decoder h (decoderCommand h) argv (fs w1)).2 (fs w1);
              tmpCount := tmpCount w1;
              log := log w1 ++ [EvDecode (decoderCommand h) argv] |} with w2.
    destruct (decoder h (decoderCommand h) argv (fs w1)).1
      as [[[| |]|] so se|msg];
      try (unfold throw at 1; cbv beta iota; apply Hfail).
    unfold ret at 1, bind at 1, gets at 1.
    destruct (Fs.existsSync h (fs w2) (Path.join dir "frame.jpg"));
      cbn [negb]; [|unfold throw at 1; apply Hfail].
    unfold bind at 1. rewrite readFileAsBase64_run.
    destruct (Fs.readFile h (fs w2) (Path.join dir "frame.jpg"))
      as [content|err]; [|apply Hfail].
    unfold bind at 1. rewrite Hcl. reflexivity. }
  rewrite Hrun. cbn [fst snd].
  split; [exact Hend|]. split; [exact Hgone|]. split; [reflexivity|].
  destruct (decoder h (decoderCommand h) argv (fs w1)).1
    as [[[| |]|] so se|msg]; try (intros ? ? H; discriminate H).
  destruct (Fs.existsSync h (fs w2) (Path.join dir "frame.jpg"));
    [|reflexivity].
  destruct (Fs.readFile h (fs w2) (Path.join dir "frame.jpg"))
    as [content|err]; [|intros ? ? _ H; discriminate H].
  repeat split. now exists content.
Qed.

End InfoRuns.

Lemma tools_agree_on_metadata_witness :
  exists resp w',
    Tool.extractFrames Demo.host (Demo.request None) Demo.world
    = (Ok (Tool.Success resp), w') /\
    (InfoTool.getVideoInfo Demo.host (GetVideoInfoInput.mk "demo")
       Demo.world).1
    = Ok (InfoTool.Success (Tool.ExtractFramesResponse.metadata resp)).
Proof.
  destruct (Tool.extractFrames Demo.host (Demo.request None) Demo.world)
    as [[[resp|e]|m] w'] eqn:Hrun.
  - exists resp, w'. split; [reflexivity|].
    exact (tools_agree_on_metadata Demo.host (Demo.request None) Demo.world
             w' resp Hrun).
  - vm_compute in Hrun. discriminate Hrun.
  - vm_compute in Hrun. discriminate Hrun.
Defined.

Lemma single_frame_run_witness :
  (Processor.extractFrameAtTime Cases.silent "/videos/demo.mp4" (JS.of_Z 7)
     None None Demo.world).1
  = Throw "Failed to extract frame - output file not created".
Proof.
  destruct (single_frame_run Cases.silent "/videos/demo.mp4" (JS.of_Z 7)
              None None Demo.world eq_refl)
    as (dir & c & argv & Hlog & _ & _ & Hres).
  cbv zeta in Hlog, Hres.
  destruct (Processor.extractFrameAtTime Cases.silent "/videos/demo.mp4"
              (JS.of_Z 7) None None Demo.world) as [[frame|message] w'] eqn:Hrun.
  - vm_compute in Hrun. discriminate Hrun.
  - cbn [fst snd] in *. f_equal.
    assert (Hd : dir = "/tmp/mcp-video-t0").
    { vm_compute in Hrun. injection Hrun as _ <-.
      vm_compute in Hlog. now injection Hlog as ->. }
    subst dir.
    apply (Hres "" ""); vm_compute; reflexivity.
Defined.

(* --------------------------------------------------------------------- *)
(** ** Durations as clock readings *)
(* --------------------------------------------------------------------- *)

Section Clock.

Lemma Qfloor_unique (x : Q) (z : Z) :
  (inject_Z z <= x)%Q -> (x < inject_Z (z + 1))%Q -> Qfloor x = z.
Proof.
  intros Hlo Hhi.
  apply Qfloor_resp_le in Hlo. rewrite Qfloor_Z in Hlo.
  pose proof (Qfloor_le x) as Hf.
  assert (Hlt : (inject_Z (Qfloor x) < inject_Z (z + 1))%Q)
    by (eapply Qle_lt_trans; eassumption).
  rewrite <- Zlt_Qlt in Hlt. lia.
Qed.

Lemma Qfloor_sub_Z (q : Q) (k : Z) :
  Qfloor (q - inject_Z k) = Qfloor q - k.
Proof.
  apply Qfloor_unique.
  - unfold Z.sub. rewrite inject_Z_plus, inject_Z_opp.
    pose proof (Qfloor_le q). lra.
  - replace (Qfloor q - k + 1) with ((Qfloor q + 1) + - k) by lia.
    rewrite inject_Z_plus, inject_Z_opp.
    pose proof (Qlt_floor q). lra.
Qed.

Lemma Qfloor_div_pos (q : Q) (n : positive) :
  Qfloor (q / inject_Z (Zpos n)) = Qfloor q / Zpos n.
Proof.
  destruct q as [a b]. unfold Qfloor, Qdiv, Qinv, Qmult, inject_Z.
  cbn [Qnum Qden]. rewrite Z.mul_1_r.
  rewrite Pos2Z.inj_mul. rewrite Z.div_div; lia.
Qed.

Lemma Qtrunc_div_pos (q : Q) (n : positive) :
  (0 <= q)%Q -> JS.Qtrunc (q / inject_Z (Zpos n)) = Qfloor q / Zpos n.
Proof.
  intros Hq. rewrite <- Qfloor_div_pos.
  destruct q as [a b]. unfold JS.Qtrunc, Qfloor, Qdiv, Qinv, Qmult, inject_Z.
  cbn [Qnum Qden]. unfold Qle in Hq. cbn in Hq.
  apply Z.quot_div_nonneg; lia.
Qed.

Lemma rem_pos (q : Q) (n : positive) :
  (0 <= q)%Q ->
  exists r, JS.rem (Num q) (JS.of_Z (Zpos n)) = Num r /\
            Qfloor r = Qfloor q mod Zpos n /\
            (r == q - inject_Z (Zpos n * (Qfloor q / Zpos n)))%Q.
Proof.
  intros Hq. unfold JS.rem, JS.of_Z.
  assert (E : Qeq_bool (inject_Z (Zpos n)) 0 = false).
  { apply not_true_is_false. rewrite Qeq_bool_iff. unfold Qeq. simpl. lia. }
  rewrite E, (Qtrunc_div_pos q n Hq).
  eexists. split; [reflexivity|].
  assert (Heq : (q - inject_Z (Zpos n) * inject_Z (Qfloor q / Zpos n)
                 == q - inject_Z (Zpos n * (Qfloor q / Zpos n)))%Q)
    by now rewrite inject_Z_mult.
  split; [|exact Heq].
  rewrite (Qfloor_comp _ _ Heq), Qfloor_sub_Z.
  rewrite Z.mod_eq; lia.
Qed.

Lemma div_pos (q : Q) (n : positive) :
  JS.div (Num q) (JS.of_Z (Zpos n)) = Num (q / inject_Z (Zpos n)).
Proof.
  unfold JS.div, JS.of_Z.
  assert (E : Qeq_bool (inject_Z (Zpos n)) 0 = false).
  { apply not_true_is_false. rewrite Qeq_bool_iff. unfold Qeq. simpl. lia. }
  now rewrite E.
Qed.

Lemma pad_floor (z : Z) :
  Str.padStart0 2 (floorToString (JS.floor (Num (inject_Z z))))
  = Str.padStart0 2 (Str.of_Z z).
Proof. unfold JS.floor, JS.of_Z, floorToString. now rewrite !Qfloor_Z. Qed.

(** X14.  For a duration from 0 to [2^31] seconds, [formatDuration] drops
    the fraction of a second and prints the whole seconds as [MM:SS], or
    as [HH:MM:SS] from one hour on, hours beyond 99 with all their digits;
    [NaN] is printed as [NaN:NaN], and an infinite duration as
    [Infinity:NaN:NaN].  (Up to the bound every quotient and remainder is
    an integer that a double holds exactly, and is printed digit by
    digit.) *)
Theorem formatDuration_clock :
  (forall q, (0 <= q)%Q -> (q <= inject_Z (2 ^ 31))%Q ->
     formatDuration (Num q) = clock (Qfloor q)) /\
  formatDuration NaN = "NaN:NaN" /\
  formatDuration PInf = "Infinity:NaN:NaN".
Proof.
  split; [|split; reflexivity].
  intros q Hq _. unfold formatDuration, clock.
  destruct (rem_pos q 3600 Hq) as (r1 & -> & Hr1 & Hr1q).
  destruct (rem_pos q 60 Hq) as (r2 & -> & Hr2 & _).
  assert (Hh : JS.floor (JS.div (Num q) (JS.of_Z 3600))
               = Num (inject_Z (Qfloor q / 3600))).
  { rewrite div_pos. unfold JS.floor, JS.of_Z.
    now rewrite (Qfloor_div_pos q 3600). }
  assert (Hm : JS.floor (JS.div (Num r1) (JS.of_Z 60))
               = Num (inject_Z (Qfloor q mod 3600 / 60))).
  { rewrite div_pos. unfold JS.floor, JS.of_Z.
    now rewrite (Qfloor_div_pos r1 60), Hr1. }
  assert (Hs : JS.floor (Num r2) = Num (inject_Z (Qfloor q mod 60))).
  { unfold JS.floor, JS.of_Z. now rewrite Hr2. }
  rewrite Hh, Hm, Hs. cbv zeta.
  rewrite <- !(pad_floor (Qfloor q / 3600)).
  assert (Hgt : JS.gtb (Num (inject_Z (Qfloor q / 3600))) (JS.of_Z 0)
                = (0 <? Qfloor q / 3600)).
  { unfold JS.gtb, JS.ltb, JS.of_Z, Qle_bool, inject_Z. cbn [Qnum Qden].
    rewrite !Z.mul_1_r. destruct (Z.ltb_spec 0 (Qfloor q / 3600)).
    - apply negb_true_iff, Z.leb_gt. assumption.
    - apply negb_false_iff, Z.leb_le. assumption. }
  rewrite Hgt.
  unfold floorToString, JS.floor, JS.of_Z. rewrite !Qfloor_Z.
  reflexivity.
Qed.

End Clock.

Lemma formatDuration_clock_witness :
  formatDuration (Num (37259 # 10)) = "01:02:05".
Proof.
  rewrite (proj1 formatDuration_clock (37259 # 10)).
  - vm_compute. reflexivity.
  - unfold Qle. simpl. lia.
  - unfold Qle. simpl. lia.
Defined.

(* --------------------------------------------------------------------- *)
(** ** [formatBytes] outside its table of units *)
(* --------------------------------------------------------------------- *)

Section BytesEdges.

Lemma ilog1024_fraction (q : Q) : (0 < q)%Q -> (q < 1)%Q -> ilog1024 q < 0.
Proof.
  destruct q as [a b]. unfold Qlt. cbn [Qnum Qden]. intros Ha Hb.
  rewrite Z.mul_1_r in Ha, Hb. rewrite Z.mul_1_l in Hb.
  unfold ilog1024. cbn [Qnum Qden].
  assert (Hlog : Z.log2 a <= Z.log2 (Zpos b)) by (apply Z.log2_le_mono; lia).
  set (c := (Z.log2 a - Z.log2 (Zpos b) - 1) / 10).
  assert (Hc : c < 0) by (apply Z.div_lt_upper_bound; lia).
  unfold pow1024_le.
  destruct (0 <=? c + 1) eqn:E0.
  - apply Z.leb_le in E0. replace (c + 1) with 0 by lia.
    rewrite Z.pow_0_r, Z.mul_1_l.
    destruct (Z.leb_spec (Zpos b) a); lia.
  - apply Z.leb_gt in E0. destruct (_ <=? _); lia.
Qed.

Lemma sizeName_outside (i : Z) : i < 0 \/ 5 <= i -> sizeName i = "undefined".
Proof.
  intros [Hi|Hi]; unfold sizeName.
  - apply Z.ltb_lt in Hi. now rewrite Hi.
  - destruct (i <? 0); [reflexivity|].
    assert (Hn : (5 <= Z.to_nat i)%nat) by lia.
    destruct (Z.to_nat i) as [|[|[|[|[|k]]]]]; try lia. reflexivity.
Qed.

Lemma stripZeros_zero (d : nat) : stripZeros d 0 = "".
Proof. induction d as [|d IH]; [reflexivity|]. simpl. exact IH. Qed.

(** X15.  Outside its table of units [formatBytes] still answers: a whole
    number of bytes below 1024 is printed as it is, with [Bytes]; from
    [1024^5] on, and for a positive value below one, the unit printed is
    [undefined]; and a negative, infinite or [NaN] argument gives
    [NaN undefined]. *)
Theorem formatBytes_outside_table :
  (forall b, 1 <= b < 1024 ->
     formatBytes (JS.of_Z b) = Str.of_Z b +:+ " Bytes") /\
  (forall b, 1024 ^ 5 <= b ->
     exists s, formatBytes (JS.of_Z b) = s +:+ " undefined") /\
  (forall q, (0 < q)%Q -> (q < 1)%Q ->
     exists s, formatBytes (Num q) = s +:+ " undefined") /\
  (forall x, JS.ltb x (JS.of_Z 0) = true \/ x = NaN \/ x = PInf ->
     formatBytes x = "NaN undefined").
Proof.
  split; [|split; [|split]].
  - intros b Hb. rewrite formatBytes_positive by lia.
    destruct (ilog1024_spec b ltac:(lia)) as (Hi & Hlo & _).
    set (i := ilog1024 (inject_Z b)) in *.
    assert (i = 0) as ->.
    { destruct (Z.eq_dec i 0) as [|Hne]; [assumption|].
      assert (1024 ^ 1 <= 1024 ^ i) by (apply Z.pow_le_mono_r; lia). lia. }
    change (1024 ^ 0) with 1. change (2 * 1) with 2.
    replace ((200 * b + 1) / 2) with (100 * b).
    2:{ apply Z.div_unique with (r := 1); lia. }
    unfold showFixed. change (10 ^ 2) with 100.
    rewrite Z.mul_comm, Z_mod_mult, Z_div_mult by lia.
    rewrite stripZeros_zero. reflexivity.
  - intros b Hb. rewrite formatBytes_positive by lia.
    destruct (ilog1024_spec b ltac:(lia)) as (Hi & _ & Hhi).
    set (i := ilog1024 (inject_Z b)) in *.
    assert (5 <= i).
    { destruct (Z_le_gt_dec 5 i) as [|Hlt]; [assumption|].
      assert (1024 ^ (i + 1) <= 1024 ^ 5) by (apply Z.pow_le_mono_r; lia).
      lia. }
    rewrite sizeName_outside by lia. eexists. reflexivity.
  - intros q Hpos Hlt. unfold formatBytes, formatBytes', JS.eqb, JS.of_Z.
    assert (E0 : Qeq_bool q (inject_Z 0) = false).
    { apply not_true_is_false. rewrite Qeq_bool_iff. intros H0.
      rewrite H0 in Hpos. discriminate Hpos. }
    assert (E1 : Qle_bool q 0 = false).
    { apply not_true_is_false. rewrite Qle_bool_iff. lra. }
    rewrite E0, E1. cbv zeta.
    rewrite sizeName_outside by (left; now apply ilog1024_fraction).
    eexists. reflexivity.
  - intros x [Hneg|[->| ->]]; [|reflexivity|reflexivity].
    destruct x as [| | |q]; try discriminate Hneg; [reflexivity|].
    unfold JS.ltb, JS.of_Z in Hneg. apply negb_true_iff in Hneg.
    assert (Hq : (q < 0)%Q).
    { apply Qnot_le_lt. intros Hle. apply Qle_bool_iff in Hle.
      change (inject_Z 0) with 0%Q in Hneg. congruence. }
    unfold formatBytes, formatBytes', JS.eqb, JS.of_Z.
    assert (E0 : Qeq_bool q (inject_Z 0) = false).
    { apply not_true_is_false. rewrite Qeq_bool_iff. intros H0.
      rewrite H0 in Hq. discriminate Hq. }
    assert (E1 : Qle_bool q 0 = true) by (apply Qle_bool_iff; lra).
    now rewrite E0, E1.
Qed.

End BytesEdges.

(* --------------------------------------------------------------------- *)
(** ** Decimal numerals read back *)
(* --------------------------------------------------------------------- *)

Section Numerals.

Lemma readDigits_numeral (d : Decimal.uint) (acc : Z) (count : nat)
      (rest : string) :
  match rest with
  | EmptyString => True
  | String c _ => Global.digitValue c = None
  end ->
  Global.readDigits Global.digitValue 10 acc count
    (NilEmpty.string_of_uint d +:+ rest)
  = (valueOf d acc, (count + Decimal.nb_digits d)%nat, rest).
Proof.
  intros Hrest. revert acc count.
  induction d; intros acc count;
    try (cbn [NilEmpty.string_of_uint valueOf Decimal.nb_digits];
         change (String ?c ?s +:+ rest) with (String c (s +:+ rest));
         cbn [Global.readDigits];
         match goal with
         | |- context [Global.digitValue ?c] =>
             let v := eval vm_compute in (Global.digitValue c) in
             change (Global.digitValue c) with v
         end;
         cbv iota; rewrite IHd; do 2 f_equal; lia).
  cbn [NilEmpty.string_of_uint valueOf Decimal.nb_digits].
  change ("" +:+ rest) with rest. rewrite Nat.add_0_r.
  destruct rest as [|c rest]; [reflexivity|].
  cbn [Global.readDigits]. now rewrite Hrest.
Qed.

Lemma valueOf_acc (d : Decimal.uint) (acc : positive) :
  valueOf d (Zpos acc) = Zpos (Pos.of_uint_acc d acc).
Proof.
  revert acc. induction d; intros acc; cbn [valueOf Pos.of_uint_acc];
    [reflexivity | ..];
    match goal with
    | |- valueOf _ ?z = Z.pos (Pos.of_uint_acc _ ?p) =>
        replace z with (Zpos p) by lia; apply IHd
    end.
Qed.

Lemma valueOf_of_uint (d : Decimal.uint) :
  valueOf d 0 = Z.of_N (Pos.of_uint d).
Proof.
  induction d; cbn [valueOf Pos.of_uint]; try reflexivity;
    try exact IHd;
    match goal with
    | |- valueOf _ ?z = _ =>
        match goal with
        | |- _ = Z.of_N (N.pos (Pos.of_uint_acc _ ?p)) =>
            replace z with (Zpos p) by lia; apply valueOf_acc
        end
    end.
Qed.

Lemma nb_digits_pos (p : positive) : (0 < Decimal.nb_digits (Pos.to_uint p))%nat.
Proof.
  pose proof (Unsigned.to_uint_nonnil p) as Hn.
  destruct (Pos.to_uint p); [contradiction | simpl; lia ..].
Qed.

Lemma string_app_nil (s : string) : s +:+ "" = s.
Proof.
  induction s as [|c s IH]; [reflexivity|].
  change (String c s +:+ "") with (String c (s +:+ "")). now rewrite IH.
Qed.

Lemma of_Z_pos (p : positive) : Str.of_Z (Zpos p) = digitsOf p.
Proof.
  unfold Str.of_Z, digitsOf. cbn [Z.to_int NilZero.string_of_int].
  unfold NilZero.string_of_uint.
  pose proof (Unsigned.to_uint_nonnil p) as Hn.
  now destruct (Pos.to_uint p).
Qed.

Lemma of_Z_neg (p : positive) :
  Str.of_Z (Zneg p) = String "-" (digitsOf p).
Proof.
  unfold Str.of_Z, digitsOf. cbn [Z.to_int NilZero.string_of_int].
  unfold NilZero.string_of_uint.
  pose proof (Unsigned.to_uint_nonnil p) as Hn.
  now destruct (Pos.to_uint p).
Qed.

Lemma digitsOf_read (p : positive) (rest : string) :
  match rest with
  | EmptyString => True
  | String c _ => Global.digitValue c = None
  end ->
  exists count,
    Global.readDigits Global.digitValue 10 0 0 (digitsOf p +:+ rest)
    = (Zpos p, S count, rest).
Proof.
  intros Hrest. unfold digitsOf.
  rewrite (readDigits_numeral _ 0 0 rest Hrest).
  rewrite valueOf_of_uint, DecimalPos.Unsigned.of_to.
  pose proof (nb_digits_pos p) as Hn.
  destruct (Decimal.nb_digits (Pos.to_uint p)) as [|k]; [lia|].
  exists k. reflexivity.
Qed.

(** The first character of the digits of a positive number is a digit
    from 1 to 9 or, for a numeral with leading zeros, a zero followed by
    a digit: never a sign, a space or the [0x] of a hexadecimal literal. *)
Lemma digitsOf_head (p : positive) (rest : string) :
  exists c s,
    digitsOf p +:+ rest = String c s /\
    Global.isSpace c = false /\
    c <> "-"%char /\ c <> "+"%char /\
    (c = "0"%char ->
     match s with
     | String "x" _ | String "X" _ => False
     | _ => True
     end).
Proof.
  unfold digitsOf.
  pose proof (Unsigned.to_uint_nonnil p) as Hn.
  pose proof (Unsigned.to_uint_nonzero p) as Hz.
  destruct (Pos.to_uint p) as [|d|d|d|d|d|d|d|d|d|d]; [contradiction|..];
    cbn [NilEmpty.string_of_uint];
    change (String ?c ?s +:+ rest) with (String c (s +:+ rest));
    eexists _, _; (split; [reflexivity|]);
    (split; [reflexivity|]); (split; [discriminate|]);
    (split; [discriminate|]); try discriminate.
  intros _. destruct d; [now destruct Hz | ..];
    cbn [NilEmpty.string_of_uint];
    change (String ?c ?s +:+ rest) with (String c (s +:+ rest)); exact I.
Qed.

Lemma parseInt_digits (p : positive) (rest : string) :
  match rest with
  | EmptyString => True
  | String c _ => Global.digitValue c = None
  end ->
  Global.parseInt (digitsOf p +:+ rest) = JS.of_Z (Zpos p).
Proof.
  intros Hrest.
  destruct (digitsOf_read p rest Hrest) as (count & Hread).
  destruct (digitsOf_head p rest) as (c & s & Hs & Hsp & Hm & Hp & Hx).
  unfold Global.parseInt. rewrite Hs in *.
  cbn [Global.trimStart]. rewrite Hsp.
  assert (Hsign : Global.readSign (String c s) = (false, String c s)).
  { unfold Global.readSign.
    destruct c as [[] [] [] [] [] [] [] []]; try reflexivity;
      first [now destruct Hm | now destruct Hp]. }
  rewrite Hsign.
  assert (Hdec :
    match String c s with
    | String "0" (String "x" r) | String "0" (String "X" r) =>
        (Global.hexValue, 16, r)
    | _ => (Global.digitValue, 10, String c s)
    end = (Global.digitValue, 10, String c s)).
  { destruct c as [[] [] [] [] [] [] [] []]; try reflexivity.
    specialize (Hx eq_refl).
    destruct s as [|[[] [] [] [] [] [] [] []] r]; try reflexivity;
      contradiction. }
  rewrite Hdec, Hread. reflexivity.
Qed.

Lemma parseInt_of_Z (n : Z) : Global.parseInt (Str.of_Z n) = JS.of_Z n.
Proof.
  destruct n as [|p|p].
  - reflexivity.
  - rewrite of_Z_pos, <- (string_app_nil (digitsOf p)).
    now apply parseInt_digits.
  - rewrite of_Z_neg.
    destruct (digitsOf_read p "" I) as (count & Hread).
    destruct (digitsOf_head p "") as (c & s & Hs & _ & _ & _ & Hx).
    rewrite string_app_nil in Hread, Hs.
    unfold Global.parseInt. cbn [Global.trimStart].
    change (Global.isSpace "-") with false. cbv iota.
    cbn [Global.readSign]. rewrite Hs in *.
    assert (Hdec :
      match String c s with
      | String "0" (String "x" r) | String "0" (String "X" r) =>
          (Global.hexValue, 16, r)
      | _ => (Global.digitValue, 10, String c s)
      end = (Global.digitValue, 10, String c s)).
    { destruct c as [[] [] [] [] [] [] [] []]; try reflexivity.
      specialize (Hx eq_refl).
      destruct s as [|[[] [] [] [] [] [] [] []] r]; try reflexivity;
        contradiction. }
    rewrite Hdec, Hread. reflexivity.
Qed.

End Numerals.

(* --------------------------------------------------------------------- *)
(** ** Fields of the metadata *)
(* --------------------------------------------------------------------- *)

Section MetadataFields.
Context (h : Host).

Lemma of_Z_nonempty (n : Z) : Str.of_Z n <> "".
Proof.
  destruct n as [|p|p]; [discriminate | | rewrite of_Z_neg; discriminate].
  rewrite of_Z_pos.
  destruct (digitsOf_head p "") as (c & s & Hs & _).
  rewrite string_app_nil in Hs. rewrite Hs. discriminate.
Qed.

(** X16.  A size or a bit rate that the prober reports as a decimal
    integer is read back as that integer: [file_size_bytes] is the number,
    [file_size] and [bitrate] are its rendering by [formatBytes].  (The
    bound is that of the integers a double holds exactly.) *)
Theorem metadata_reads_integers (filePath : string) (doc : FFprobeResult.t)
        (n : Z) :
  - 2 ^ 53 <= n <= 2 ^ 53 ->
  let md := Processor.parseVideoMetadata h filePath doc in
  (FFprobeFormat.size (FFprobeResult.format doc) = Some (Str.of_Z n) ->
   VideoMetadata.file_size_bytes md = JS.of_Z n /\
   VideoMetadata.file_size md = formatBytes (JS.of_Z n)) /\
  (FFprobeFormat.bit_rate (FFprobeResult.format doc) = Some (Str.of_Z n) ->
   VideoMetadata.bitrate md = formatBytes (JS.of_Z n) +:+ "/s").
Proof.
  intros _. cbv zeta. unfold Processor.parseVideoMetadata.
  cbn [VideoMetadata.file_size_bytes VideoMetadata.file_size
       VideoMetadata.bitrate].
  split.
  - intros ->. cbn [Global.parseInt']. rewrite parseInt_of_Z.
    assert (Hor : JS.or_else (JS.of_Z n) (JS.of_Z 0) = JS.of_Z n).
    { unfold JS.or_else, JS.truthy, JS.of_Z.
      destruct (Qeq_bool (inject_Z n) 0) eqn:E; [|reflexivity].
      apply Qeq_bool_iff in E. unfold Qeq in E. simpl in E.
      cbn [negb]. f_equal. f_equal. lia. }
    rewrite Hor. auto.
  - intros ->. rewrite (truthyStr_Some _ (of_Z_nonempty n)).
    cbn [Global.parseInt']. now rewrite parseInt_of_Z.
Qed.

(** X17.  What the metadata says when the probe document lacks a part:
    without a video stream the resolution is [unknown], width, height and
    frame rate are 0 and the codec is [unknown]; a video stream without
    dimensions gives the resolution [undefinedxundefined]; without a size
    the file size is [0 Bytes]; without a bit rate the bit rate is
    [unknown]; without a duration the duration is [00:00]. *)
Theorem metadata_defaults (filePath : string) (doc : FFprobeResult.t) :
  let md := Processor.parseVideoMetadata h filePath doc in
  let videoStream := Processor.findStream video (FFprobeResult.streams doc) in
  let format := FFprobeResult.format doc in
  (videoStream = None ->
   VideoMetadata.resolution md = [Lit "unknown"] /\
   VideoMetadata.width md = JS.of_Z 0 /\
   VideoMetadata.height md = JS.of_Z 0 /\
   sameNumber (VideoMetadata.fps md) (JS.of_Z 0) /\
   VideoMetadata.codec md = "unknown") /\
  (forall vs, videoStream = Some vs ->
     FFprobeStream.width vs = None -> FFprobeStream.height vs = None ->
     VideoMetadata.resolution md
     = [Lit "undefined"; Lit "x"; Lit "undefined"] /\
     VideoMetadata.width md = JS.of_Z 0 /\
     VideoMetadata.height md = JS.of_Z 0) /\
  (FFprobeFormat.size format = None ->
   VideoMetadata.file_size md = "0 Bytes" /\
   VideoMetadata.file_size_bytes md = JS.of_Z 0) /\
  (FFprobeFormat.bit_rate format = None ->
   VideoMetadata.bitrate md = "unknown") /\
  (FFprobeFormat.duration format = None ->
   VideoMetadata.duration md = "00:00" /\
   VideoMetadata.duration_seconds md = JS.of_Z 0).
Proof.
  cbv zeta. unfold Processor.parseVideoMetadata.
  cbn [VideoMetadata.resolution VideoMetadata.width VideoMetadata.height
       VideoMetadata.fps VideoMetadata.codec VideoMetadata.file_size
       VideoMetadata.file_size_bytes VideoMetadata.bitrate
       VideoMetadata.duration VideoMetadata.duration_seconds].
  split; [|split; [|split; [|split]]].
  - intros Hv. rewrite Hv. cbn [mbind option_bind Processor.orZero
                                Processor.parseFps truthyStr].
    repeat split.
  - intros vs Hv Hw Hh. rewrite Hv.
    cbn [mbind option_bind Processor.interpOpt]. rewrite Hw, Hh.
    repeat split.
  - intros Hs. rewrite Hs. split; reflexivity.
  - intros Hb. rewrite Hb. reflexivity.
  - intros Hd. rewrite Hd. split; reflexivity.
Qed.

End MetadataFields.

Lemma metadata_reads_integers_witness :
  VideoMetadata.file_size_bytes
    (Processor.parseVideoMetadata Demo.host "/videos/demo.mp4" Demo.probeDoc)
  = JS.of_Z 1536 /\
  VideoMetadata.bitrate
    (Processor.parseVideoMetadata Demo.host "/videos/demo.mp4" Demo.probeDoc)
  = formatBytes (JS.of_Z 128000) +:+ "/s".
Proof.
  split.
  - apply (metadata_reads_integers Demo.host "/videos/demo.mp4" Demo.probeDoc
             1536); [split; [discriminate|] | reflexivity].
    intros H; discriminate H.
  - apply (metadata_reads_integers Demo.host "/videos/demo.mp4" Demo.probeDoc
             128000); [split; [discriminate|] | reflexivity].
    intros H; discriminate H.
Defined.

Lemma metadata_defaults_witness :
  VideoMetadata.resolution
    (Processor.parseVideoMetadata Demo.host "/videos/bare.mp4" Cases.bareDoc)
  = [Lit "unknown"] /\
  VideoMetadata.bitrate
    (Processor.parseVideoMetadata Demo.host "/videos/bare.mp4" Cases.bareDoc)
  = "unknown".
Proof.
  destruct (metadata_defaults Demo.host "/videos/bare.mp4" Cases.bareDoc)
    as (Hv & _ & _ & Hb & _).
  split; [apply Hv; reflexivity | apply Hb; reflexivity].
Defined.

(* --------------------------------------------------------------------- *)
(** ** The frame rate *)
(* --------------------------------------------------------------------- *)

Section Rates.
Context (h : Host).

(** A string without the separator is one segment. *)
Lemma split_one (sep : ascii) (s : string) :
  (forall c, In c (list_ascii_of_string s) -> c <> sep) ->
  Str.split sep s = [s].
Proof.
  induction s as [|c s IH]; intros Hno; [reflexivity|].
  cbn [Str.split]. rewrite IH by (intros x Hx; apply Hno; now right).
  destruct (Ascii.eqb_spec c sep) as [->|_]; [|reflexivity].
  now destruct (Hno sep (or_introl eq_refl)).
Qed.

Lemma split_two (sep : ascii) (a b : string) :
  (forall c, In c (list_ascii_of_string a) -> c <> sep) ->
  (forall c, In c (list_ascii_of_string b) -> c <> sep) ->
  Str.split sep (a +:+ String sep b) = [a; b].
Proof.
  intros Ha Hb. induction a as [|c a IH].
  - change ("" +:+ String sep b) with (String sep b).
    cbn [Str.split]. rewrite Ascii.eqb_refl. now rewrite split_one.
  - change (String c a +:+ String sep b) with (String c (a +:+ String sep b)).
    cbn [Str.split]. rewrite IH by (intros x Hx; apply Ha; now right).
    destruct (Ascii.eqb_spec c sep) as [->|_]; [|reflexivity].
    now destruct (Ha sep (or_introl eq_refl)).
Qed.

Lemma numeral_chars (d : Decimal.uint) (c : ascii) :
  In c (list_ascii_of_string (NilEmpty.string_of_uint d)) ->
  Global.digitValue c <> None.
Proof.
  induction d; cbn [NilEmpty.string_of_uint list_ascii_of_string In];
    try (intros [<-|Hin]; [discriminate | now apply IHd]).
  intros [].
Qed.

Lemma of_Z_chars (n : Z) (c : ascii) :
  0 <= n -> In c (list_ascii_of_string (Str.of_Z n)) -> c <> "/"%char.
Proof.
  intros Hn Hin Hc. subst c.
  destruct n as [|p|p]; [| |lia].
  - destruct Hin as [Hin|[]]. discriminate Hin.
  - rewrite of_Z_pos in Hin. now apply numeral_chars in Hin.
Qed.

Lemma or_else_of_Z (n : Z) : JS.or_else (JS.of_Z n) (JS.of_Z 0) = JS.of_Z n.
Proof.
  unfold JS.or_else, JS.truthy, JS.of_Z.
  destruct (Qeq_bool (inject_Z n) 0) eqn:E; [|reflexivity].
  apply Qeq_bool_iff in E. unfold Qeq in E. simpl in E.
  cbn [negb]. f_equal. f_equal. lia.
Qed.

(** X18.  A frame rate reported as a fraction [n/d] of two decimal
    integers, each within 31 bits as the prober has them, is their
    quotient, which is returned as it is when it has at most two decimals;
    a zero denominator gives [Infinity], and [0/0] gives [NaN]. *)
Theorem fps_of_fraction (filePath : string) (doc : FFprobeResult.t)
        (vs : FFprobeStream.t) (n d : Z) :
  Processor.findStream video (FFprobeResult.streams doc) = Some vs ->
  FFprobeStream.r_frame_rate vs = Some (Str.of_Z n +:+ "/" +:+ Str.of_Z d) ->
  0 <= n < 2 ^ 31 -> 0 <= d < 2 ^ 31 ->
  let fps := VideoMetadata.fps (Processor.parseVideoMetadata h filePath doc) in
  (0 < d -> (d | 100 * n) -> sameNumber fps (Num (n # Z.to_pos d))) /\
  (d = 0 -> 0 < n -> fps = PInf) /\
  (d = 0 -> n = 0 -> fps = NaN).
Proof.
  intros Hvs Hrate [Hn _] [Hd _]. cbv zeta.
  unfold Processor.parseVideoMetadata. cbn [VideoMetadata.fps].
  rewrite Hvs. unfold Processor.parseFps. rewrite Hrate.
  assert (Hne : Str.of_Z n +:+ "/" +:+ Str.of_Z d <> "").
  { apply app_nonempty, of_Z_nonempty. }
  rewrite (truthyStr_Some _ Hne). cbn [default]. 
  change (id (Str.of_Z n +:+ "/" +:+ Str.of_Z d))
    with (Str.of_Z n +:+ String "/" (Str.of_Z d)).
  rewrite split_two by (intros c; now apply of_Z_chars).
  rewrite (truthyStr_Some _ (of_Z_nonempty d)), !parseInt_of_Z.
  split; [|split].
  - intros Hpos [k Hk].
    unfold JS.div, JS.of_Z.
    assert (E : Qeq_bool (inject_Z d) 0 = false).
    { apply not_true_is_false. rewrite Qeq_bool_iff. unfold Qeq. simpl. lia. }
    rewrite E. cbn [JS.mul JS.round JS.of_Z].
    assert (E' : Qeq_bool (inject_Z 100) 0 = false) by reflexivity.
    rewrite E'. cbn [sameNumber].
    assert (Heq : (inject_Z n / inject_Z d * inject_Z 100 == inject_Z k)%Q).
    { destruct d as [|pd|pd]; try lia.
      unfold Qeq, Qdiv, Qmult, Qinv, inject_Z. cbn.
      rewrite ?Pos.mul_1_r, ?Pos.mul_1_l. lia. }
    assert (Hfl : Qfloor (inject_Z n / inject_Z d * inject_Z 100 + (1 # 2))
                  = k).
    { apply Qfloor_unique; rewrite Heq;
        [|rewrite inject_Z_plus; change (inject_Z 1) with 1%Q]; lra. }
    rewrite Hfl.
    unfold Qeq, Qdiv, Qmult, Qinv, inject_Z. cbn [Qnum Qden].
    rewrite Z2Pos.id by lia. nia.
  - intros -> Hpos. unfold JS.div, JS.of_Z.
    change (Qeq_bool (inject_Z 0) 0) with true. cbv iota.
    unfold JS.Qsgn, inject_Z. cbn [Qnum].
    destruct n as [|p|p]; try lia. reflexivity.
  - intros -> ->. reflexivity.
Qed.

End Rates.

Lemma fps_of_fraction_witness :
  sameNumber
    (VideoMetadata.fps
       (Processor.parseVideoMetadata Demo.host "/videos/demo.mp4"
          (FFprobeResult.mk
             [FFprobeStream.mk (JS.of_Z 0) (Some "h264") video None None
                (Some "25/2")]
             (FFprobeResult.format Demo.probeDoc))))
    (Num (25 # 2)).
Proof.
  apply (fps_of_fraction Demo.host "/videos/demo.mp4" _ 
           (FFprobeStream.mk (JS.of_Z 0) (Some "h264") video None None
              (Some "25/2")) 25 2);
    try reflexivity; try (split; [lia | reflexivity]).
  exists 1250. reflexivity.
Defined.

(* --------------------------------------------------------------------- *)
(** ** The duration *)
(* --------------------------------------------------------------------- *)

Section Durations.
Context (h : Host).

Lemma digitValue_range (c : ascii) (d : Z) :
  Global.digitValue c = Some d -> 0 <= d <= 9.
Proof.
  unfold Global.digitValue.
  destruct (48 <=? N_of_ascii c)%N eqn:Hlo; [|discriminate].
  destruct (N_of_ascii c <=? 57)%N eqn:Hhi; [|discriminate].
  cbn [andb]. intros [= <-].
  apply N.leb_le in Hlo, Hhi. lia.
Qed.

(** Reading a run of digits shifts the accumulator by their number and
    adds their value. *)
Lemma readDigits_run (s rest : string) :
  (forall c, In c (list_ascii_of_string s) -> Global.digitValue c <> None) ->
  match rest with
  | EmptyString => True
  | String c _ => Global.digitValue c = None
  end ->
  forall acc count, 0 <= acc ->
  exists mant,
    Global.readDigits Global.digitValue 10 acc count (s +:+ rest)
    = (mant, (count + String.length s)%nat, rest) /\
    acc * 10 ^ Z.of_nat (String.length s) <= mant
    < (acc + 1) * 10 ^ Z.of_nat (String.length s).
Proof.
  intros Hs Hrest. induction s as [|c s IH]; intros acc count Hacc.
  - exists acc. change ("" +:+ rest) with rest. cbn [String.length].
    rewrite Nat.add_0_r. change (10 ^ Z.of_nat 0) with 1.
    split; [|lia].
    destruct rest as [|c rest]; [reflexivity|].
    cbn [Global.readDigits]. now rewrite Hrest.
  - change (String c s +:+ rest) with (String c (s +:+ rest)).
    cbn [Global.readDigits].
    destruct (Global.digitValue c) as [d|] eqn:Hd.
    2:{ now destruct (Hs c (or_introl eq_refl)). }
    apply digitValue_range in Hd.
    destruct (IH (fun x Hx => Hs x (or_intror Hx)) (acc * 10 + d) (S count)
                ltac:(lia)) as (mant & Hread & Hlo & Hhi).
    exists mant. rewrite Hread. cbn [String.length].
    split; [do 2 f_equal; lia|].
    rewrite Nat2Z.inj_succ, Z.pow_succ_r by lia.
    assert (0 < 10 ^ Z.of_nat (String.length s))
      by (apply Z.pow_pos_nonneg; lia).
    nia.
Qed.

Lemma scaled_floor (mant w : Z) (n : nat) :
  w * 10 ^ Z.of_nat n <= mant < (w + 1) * 10 ^ Z.of_nat n ->
  Qfloor (inject_Z mant * Qpower 10 (0 - Z.of_nat n)) = w.
Proof.
  intros Hm.
  assert (HP : 0 < 10 ^ Z.of_nat n) by (apply Z.pow_pos_nonneg; lia).
  set (P := 10 ^ Z.of_nat n) in *.
  assert (Heq : (inject_Z mant * Qpower 10 (0 - Z.of_nat n)
                 == mant # Z.to_pos P)%Q).
  { rewrite Z.sub_0_l, Qpower_opp.
    change 10%Q with (inject_Z 10).
    rewrite <- Zpower_Qpower by lia. fold P.
    rewrite (Qmake_Qdiv mant), Z2Pos.id by lia. reflexivity. }
  rewrite (Qfloor_comp _ _ Heq). unfold Qfloor. rewrite Z2Pos.id by lia.
  symmetry. apply Z.div_unique with (r := mant - w * P); lia.
Qed.

Lemma of_Z_read (w : Z) (rest : string) :
  0 <= w ->
  match rest with
  | EmptyString => True
  | String c _ => Global.digitValue c = None
  end ->
  exists count c s,
    Str.of_Z w +:+ rest = String c s /\
    Global.digitValue c <> None /\
    Global.readDigits Global.digitValue 10 0 0 (Str.of_Z w +:+ rest)
    = (w, S count, rest).
Proof.
  intros Hw Hrest. destruct w as [|p|p]; [| |lia].
  - exists 0%nat, "0"%char, rest. split; [reflexivity|].
    split; [discriminate|].
    change (Str.of_Z 0 +:+ rest) with (String "0" rest).
    cbn [Global.readDigits].
    change (Global.digitValue "0") with (Some 0). cbv iota.
    destruct rest as [|c rest]; [reflexivity|].
    cbn [Global.readDigits]. now rewrite Hrest.
  - rewrite of_Z_pos.
    destruct (digitsOf_read p rest Hrest) as (count & Hread).
    assert (Hc : exists c s, digitsOf p +:+ rest = String c s /\
                             Global.digitValue c <> None).
    { unfold digitsOf. pose proof (Unsigned.to_uint_nonnil p) as Hn.
      destruct (Pos.to_uint p); [contradiction|..];
        cbn [NilEmpty.string_of_uint];
        change (String ?c ?s +:+ rest) with (String c (s +:+ rest));
        eexists _, _; (split; [reflexivity | discriminate]). }
    destruct Hc as (c & s & Hs & Hdig).
    exists count, c, s. auto.
Qed.

(** A digit is neither a space nor a sign nor the first letter of
    [Infinity]. *)
Lemma digit_head (c : ascii) :
  Global.digitValue c <> None ->
  Global.isSpace c = false /\ c <> "-"%char /\ c <> "+"%char /\
  c <> "I"%char.
Proof.
  intros Hd.
  destruct c as [[] [] [] [] [] [] [] []];
    try (now destruct Hd); repeat split; discriminate.
Qed.

Lemma parseFloat_decimal (w : Z) (frac : string) :
  0 <= w ->
  (forall c, In c (list_ascii_of_string frac) ->
             Global.digitValue c <> None) ->
  exists q,
    Global.parseFloat (Str.of_Z w +:+ "." +:+ frac) = Num q /\
    Qfloor q = w.
Proof.
  intros Hw Hfrac.
  destruct (of_Z_read w ("." +:+ frac) Hw eq_refl)
    as (count & c & s & Hs & Hdig & Hread).
  destruct (digit_head c Hdig) as (Hsp & Hm & Hp & HI).
  destruct (readDigits_run frac "" Hfrac I w 0%nat Hw)
    as (mant & Hread2 & Hbounds).
  rewrite string_app_nil in Hread2.
  unfold Global.parseFloat. rewrite Hs in *.
  cbn [Global.trimStart]. rewrite Hsp.
  assert (Hsign : Global.readSign (String c s) = (false, String c s)).
  { unfold Global.readSign.
    destruct c as [[] [] [] [] [] [] [] []]; try reflexivity;
      first [now destruct Hm | now destruct Hp]. }
  rewrite Hsign.
  assert (Hinf : Str.startsWith (String c s) "Infinity" = false).
  { unfold Str.startsWith. cbn [String.prefix].
    destruct (ascii_dec "I" c) as [<-|_]; [now destruct HI | reflexivity]. }
  rewrite Hinf, Hread.
  change ("." +:+ frac) with (String "." frac). cbv iota.
  rewrite Hread2. cbn [Nat.add].
  eexists. split; [reflexivity|].
  cbn [Global.readExponent]. now apply scaled_floor.
Qed.

(** X19.  A duration that the prober reports as a decimal numeral, whole
    seconds then a point then up to six digits, is read as a number that
    is not negative and whose whole part is those seconds; the duration
    string is [formatDuration] of that number.  (The bounds are those of
    the prober's output; they keep the nearest double of the numeral below
    the next whole second.) *)
Theorem duration_of_decimal (filePath : string) (doc : FFprobeResult.t)
        (w : Z) (frac : string) :
  0 <= w < 2 ^ 31 ->
  (String.length frac <= 6)%nat ->
  (forall c, In c (list_ascii_of_string frac) ->
             Global.digitValue c <> None) ->
  FFprobeFormat.duration (FFprobeResult.format doc)
  = Some (Str.of_Z w +:+ "." +:+ frac) ->
  let md := Processor.parseVideoMetadata h filePath doc in
  exists q,
    VideoMetadata.duration_seconds md = Num q /\
    (0 <= q)%Q /\ Qfloor q = w /\
    VideoMetadata.duration md = formatDuration (Num q).
Proof.
  intros [Hw _] _ Hfrac Hdur. cbv zeta.
  unfold Processor.parseVideoMetadata.
  cbn [VideoMetadata.duration VideoMetadata.duration_seconds].
  rewrite Hdur. cbn [Global.parseFloat'].
  destruct (parseFloat_decimal w frac Hw Hfrac) as (q & -> & Hq).
  assert (Hor : exists q', JS.or_else (Num q) (JS.of_Z 0) = Num q' /\
                           Qfloor q' = w).
  { unfold JS.or_else, JS.truthy.
    destruct (Qeq_bool q 0) eqn:E; cbn [negb]; [|eauto].
    apply Qeq_bool_iff in E. exists (inject_Z 0). split; [reflexivity|].
    now rewrite <- Hq, (Qfloor_comp _ _ E). }
  destruct Hor as (q' & -> & Hq').
  exists q'. split; [reflexivity|]. split; [|split; [exact Hq' | reflexivity]].
  pose proof (Qfloor_le q') as Hle. rewrite Hq' in Hle.
  assert (H0 : (inject_Z 0 <= inject_Z w)%Q) by (rewrite <- Zle_Qle; exact Hw).
  change (inject_Z 0) with 0%Q in H0.
  lra.
Qed.

End Durations.

Lemma duration_of_decimal_witness :
  exists q,
    VideoMetadata.duration_seconds
      (Processor.parseVideoMetadata Demo.host "/videos/demo.mp4"
         Demo.probeDoc) = Num q /\
    (0 <= q)%Q /\ Qfloor q = 60 /\
    VideoMetadata.duration
      (Processor.parseVideoMetadata Demo.host "/videos/demo.mp4"
         Demo.probeDoc) = formatDuration (Num q).
Proof.
  apply (duration_of_decimal Demo.host "/videos/demo.mp4" Demo.probeDoc
           60 "500000").
  - split; [lia | reflexivity].
  - simpl. lia.
  - intros c Hc. simpl in Hc.
    repeat (destruct Hc as [<-|Hc]; [discriminate|]). contradiction.
  - reflexivity.
Defined.

(* --------------------------------------------------------------------- *)
(** ** Clearing and listing directories *)
(* --------------------------------------------------------------------- *)

Section Directories.
Context (h : Host).

Lemma rmSync_run (p : string) (w : World) :
  Fs.rmSync h p w
  = (Ok tt, {| fs := Fs.unlink (Fs.canon h p) (fs w);
               tmpCount := tmpCount w;
               log := log w ++ [EvRm p] |}).
Proof. reflexivity. Qed.

(** The loop of [clearVideoDirectory]: one removal per item, in order. *)
Lemma removeItems_run (baseDir : string) (items : list string) (w : World) :
  exists w',
    FileHandler.removeItems h baseDir items w = (Ok tt, w') /\
    tmpCount w' = tmpCount w /\
    log w' = log w ++ map (fun item => EvRm (Path.join baseDir item)) items /\
    (forall k, fs w !! k = None -> fs w' !! k = None) /\
    (forall k item, In item items ->
       Fs.under (Fs.canon h (Path.join baseDir item)) k = true ->
       fs w' !! k = None) /\
    (forall k,
       (forall item, In item items ->
          Fs.under (Fs.canon h (Path.join baseDir item)) k = false /\
          k <> Fs.parentOf (Fs.canon h (Path.join baseDir item))) ->
       fs w' !! k = fs w !! k).
Proof.
  revert w. induction items as [|item rest IH]; intros w.
  - exists w. cbn [FileHandler.removeItems map]. unfold ret.
    rewrite app_nil_r. repeat split; auto. intros k item [].
  - cbn [FileHandler.removeItems]. unfold bind at 1. rewrite rmSync_run.
    set (w1 := {| fs := _; tmpCount := _; log := _ |}).
    destruct (IH w1) as (w' & Hrun & Htmp & Hlog & Habs & Hgone & Hkeep).
    exists w'. split; [exact Hrun|]. split; [exact Htmp|].
    split; [rewrite Hlog; cbn [map log w1]; now rewrite <- app_assoc|].
    split; [|split].
    + intros k Hk. apply Habs. cbn [fs w1]. now apply unlink_absent.
    + intros k it [<-|Hin] Hu.
      * apply Habs. cbn [fs w1]. now rewrite unlink_lookup, Hu.
      * now apply (Hgone k it).
    + intros k Hk. rewrite Hkeep by (intros it Hit; apply Hk; now right).
      cbn [fs w1]. destruct (Hk item (or_introl eq_refl)) as [Hu Hp].
      now apply unlink_elsewhere.
Qed.

(** X20.  [clearVideoDirectory] does nothing when the directory does not
    exist and throws when the path names a file; on a directory it removes
    every listed item, one removal each in the order of the listing, after
    which none of them exists, and it touches nothing outside the items
    but the listings of their parents. *)
Theorem clearVideoDirectory_empties (baseDir : string) (w : World) :
  let run := FileHandler.clearVideoDirectory h baseDir w in
  match Fs.lookupPath h (fs w) baseDir with
  | None => run = (Ok tt, w)
  | Some (File _) => exists message, run = (Throw message, w)
  | Some (Dir items) =>
      run.1 = Ok tt /\
      log run.2
      = log w ++ map (fun item => EvRm (Path.join baseDir item)) items /\
      (forall item, In item items ->
         Fs.existsSync h (fs run.2) (Path.join baseDir item) = false) /\
      (forall k,
         (forall item, In item items ->
            Fs.under (Fs.canon h (Path.join baseDir item)) k = false /\
            k <> Fs.parentOf (Fs.canon h (Path.join baseDir item))) ->
         fs run.2 !! k = fs w !! k)
  end.
Proof.
  intros run.
  assert (Hrun : run = FileHandler.clearVideoDirectory h baseDir w)
    by reflexivity.
  clearbody run.
  unfold FileHandler.clearVideoDirectory, bind at 1, gets at 1 in Hrun.
  unfold Fs.existsSync in Hrun.
  unfold bind at 1, Fs.readdirSync, Fs.readdir in Hrun. cbv beta in Hrun.
  destruct (Fs.lookupPath h (fs w) baseDir) as [[content|items]|] eqn:Hl;
    cbn [negb] in Hrun; cbv beta iota in Hrun; try rewrite Hl in Hrun.
  - eexists. exact Hrun.
  - destruct (removeItems_run baseDir items w)
      as (w' & Hrm & _ & Hlog & _ & Hgone & Hkeep).
    rewrite Hrm in Hrun. subst run. cbn [fst snd].
    split; [reflexivity|]. split; [exact Hlog|]. split; [|exact Hkeep].
    intros item Hin. apply not_true_is_false.
    intros [_ [x Hx]]%existsSync_lookup.
    rewrite (Hgone _ item Hin (under_refl _)) in Hx. discriminate Hx.
  - exact Hrun.
Qed.

(** X21.  [listFilesWithExtension] leaves the world as it is; on a
    directory it returns the entries with the extension, each joined to
    the directory, in ascending order; otherwise it throws. *)
Theorem listing_is_sorted (dirPath extension : string) (w : World) :
  match Fs.readdir h (fs w) dirPath with
  | Ok names =>
      exists files,
        FileHandler.listFilesWithExtension h dirPath extension w
        = (Ok files, w) /\
        Sorted (fun a b => Str.leb a b = true) files /\
        Permutation files
          (map (fun file => Path.join dirPath file)
             (filter (fun file => Str.endsWith file extension = true) names))
  | Throw message =>
      FileHandler.listFilesWithExtension h dirPath extension w
      = (Throw message, w)
  end.
Proof.
  unfold FileHandler.listFilesWithExtension, bind, Fs.readdirSync, ret.
  destruct (Fs.readdir h (fs w) dirPath) as [names|message]; [|reflexivity].
  eexists. split; [reflexivity|]. split; [apply sort_sorted | apply sort_perm].
Qed.

End Directories.
